(** * csv-geometry-import: the geometry parsers

    A shallow embedding of [geometry_parsers.py] (class [GeometryParser]):
    format detection, the dispatcher [parse], the sub-decoders and the
    TopoJSON arc resolution, followed by the properties of the
    specification that were checked against them.

    Conventions of the embedding.
    - A Python [str] is a [string] of ASCII characters; code points above
      127 are outside the model.
    - A value produced by [json.loads] is a [pyval]; Python's [bool] is a
      subclass of [int], which [as_int] and [as_num] write out.
    - Python [int] is [Z]; Python [float] is the binary64 [float] of the
      kernel, with the interpreter's int-to-float conversion.
    - An exception is a value of [exn]; a function that can raise returns
      an [outcome]; a function that also writes to the QGIS message log
      lives in the monad [M].
    - The libraries the module calls (json, ElementTree, the QGIS geometry
      readers, [float] on text) are fields of the class [Platform].
    - [int] on a run of decimal digits follows the interpreter's default
      limit of 4300 digits, above which it raises [ValueError]. *)

From Stdlib Require Import ZArith List String Ascii Bool Lia.
From Stdlib Require Import Floats.PrimFloat Floats.FloatOps Floats.SpecFloat.
Import ListNotations.
Local Open Scope string_scope.
Local Open Scope Z_scope.
#[local] Set Warnings "-register-all".

(* ===================================================================== *)
(** ** Python strings *)
(* ===================================================================== *)

Module PyStr.

(** [str.isspace] on the ASCII range: TAB, LF, VT, FF, CR, the four
    separators FS GS RS US, and the space. *)
Definition is_space (c : ascii) : bool :=
  let n := N_of_ascii c in
  (((9 <=? n) && (n <=? 13)) || ((28 <=? n) && (n <=? 32)))%N.

Definition upper_char (c : ascii) : ascii :=
  let n := N_of_ascii c in
  if ((97 <=? n) && (n <=? 122))%N then ascii_of_N (n - 32) else c.

Definition lower_char (c : ascii) : ascii :=
  let n := N_of_ascii c in
  if ((65 <=? n) && (n <=? 90))%N then ascii_of_N (n + 32) else c.

Fixpoint map_chars (f : ascii -> ascii) (s : string) : string :=
  match s with
  | EmptyString => EmptyString
  | String c r => String (f c) (map_chars f r)
  end.

Definition upper : string -> string := map_chars upper_char.
Definition lower : string -> string := map_chars lower_char.

Definition is_empty (s : string) : bool :=
  match s with EmptyString => true | String _ _ => false end.

Fixpoint lstrip (s : string) : string :=
  match s with
  | EmptyString => EmptyString
  | String c r => if is_space c then lstrip r else s
  end.

Fixpoint rstrip (s : string) : string :=
  match s with
  | EmptyString => EmptyString
  | String c r =>
      let r' := rstrip r in
      if is_empty r' && is_space c then EmptyString else String c r'
  end.

Definition strip (s : string) : string := rstrip (lstrip s).

(** [s.startswith(p)] *)
Definition startswith (s p : string) : bool := prefix p s.

(** [s.endswith(p)] *)
Fixpoint endswith (s p : string) : bool :=
  String.eqb s p ||
  match s with
  | EmptyString => false
  | String _ r => endswith r p
  end.

(** [sub in s] *)
Fixpoint contains (sub s : string) : bool :=
  prefix sub s ||
  match s with
  | EmptyString => false
  | String _ r => contains sub r
  end.

(** [c in s] for a single character [c] *)
Fixpoint char_in (c : ascii) (s : string) : bool :=
  match s with
  | EmptyString => false
  | String d r => Ascii.eqb c d || char_in c r
  end.

Fixpoint all_chars (p : ascii -> bool) (s : string) : bool :=
  match s with
  | EmptyString => true
  | String c r => p c && all_chars p r
  end.

(** [s[n:]] *)
Fixpoint drop (n : nat) (s : string) : string :=
  match n, s with
  | O, _ => s
  | S _, EmptyString => EmptyString
  | S k, String _ r => drop k r
  end.

(** [s[a:b]] for [0 <= a <= b] *)
Definition slice (a b : nat) (s : string) : string := substring a (b - a) s.

Fixpoint join (parts : list string) : string :=
  match parts with
  | [] => EmptyString
  | p :: more => (p ++ join more)%string
  end.

(** [s.split(sep)] for a one-character separator: never returns the empty
    list, keeps empty fields. *)
Fixpoint split_on (sep : ascii) (s : string) : list string :=
  match s with
  | EmptyString => [EmptyString]
  | String c r =>
      if Ascii.eqb c sep then EmptyString :: split_on sep r
      else match split_on sep r with
           | [] => [String c EmptyString]
           | w :: ws => String c w :: ws
           end
  end.

(** [s.split()]: fields separated by runs of whitespace, no empty field. *)
Fixpoint split_ws_aux (cur : string) (s : string) : list string :=
  match s with
  | EmptyString => if is_empty cur then [] else [cur]
  | String c r =>
      if is_space c
      then (if is_empty cur then split_ws_aux EmptyString r
            else cur :: split_ws_aux EmptyString r)
      else split_ws_aux (cur ++ String c EmptyString)%string r
  end.

Definition split_ws (s : string) : list string := split_ws_aux EmptyString s.

Definition hex_value (c : ascii) : option Z :=
  let n := Z.of_N (N_of_ascii c) in
  if (48 <=? n) && (n <=? 57) then Some (n - 48)
  else if (65 <=? n) && (n <=? 70) then Some (n - 55)
  else if (97 <=? n) && (n <=? 102) then Some (n - 87)
  else None.

(** [int(s, 16)] on a string of hexadecimal digits; any other string is a
    [ValueError] here ([None]).  The built-in also accepts a sign, a [0x]
    prefix, padding and underscores: the module only calls it on text it
    has already checked to be all hexadecimal digits. *)
Fixpoint int16_aux (acc : Z) (s : string) : option Z :=
  match s with
  | EmptyString => Some acc
  | String c r =>
      match hex_value c with
      | Some d => int16_aux (16 * acc + d) r
      | None => None
      end
  end.

Definition int16 (s : string) : option Z :=
  if is_empty s then None else int16_aux 0 s.

Definition is_digit (c : ascii) : bool :=
  let n := N_of_ascii c in ((48 <=? n) && (n <=? 57))%N.

(** [\w] on the ASCII range *)
Definition is_word (c : ascii) : bool :=
  let n := N_of_ascii c in
  (((48 <=? n) && (n <=? 57)) || ((65 <=? n) && (n <=? 90))
   || ((97 <=? n) && (n <=? 122)) || (n =? 95))%N.

Fixpoint span (p : ascii -> bool) (s : string) : string * string :=
  match s with
  | EmptyString => (EmptyString, EmptyString)
  | String c r =>
      if p c then let (a, b) := span p r in (String c a, b)
      else (EmptyString, s)
  end.

(** The double quote, written by its code. *)
Definition dquote : string := String (ascii_of_nat 34) EmptyString.

End PyStr.

(* ===================================================================== *)
(** ** Exceptions, results and the message log *)
(* ===================================================================== *)

(** The exception classes that the module or its libraries can raise.
    [JSONDecodeError] and [BinasciiError] are subclasses of [ValueError];
    all of them are subclasses of [Exception]. *)
Inductive exn : Type :=
| JSONDecodeError | BinasciiError | ValueError | TypeError | IndexError
| KeyError | AttributeError | OverflowError | RecursionError | ParseError.

Definition is_ValueError (e : exn) : bool :=
  match e with
  | JSONDecodeError | BinasciiError | ValueError => true
  | _ => false
  end.

Definition is_JSONDecodeError (e : exn) : bool :=
  match e with JSONDecodeError => true | _ => false end.

Definition is_IndexError (e : exn) : bool :=
  match e with IndexError => true | _ => false end.

Definition is_ParseError (e : exn) : bool :=
  match e with ParseError => true | _ => false end.

Inductive outcome (A : Type) : Type :=
| Return (a : A)
| Raise (e : exn).
Arguments Return {A} a.
Arguments Raise {A} e.

Definition bind {A B : Type} (m : outcome A) (k : A -> outcome B) : outcome B :=
  match m with
  | Return a => k a
  | Raise e => Raise e
  end.

Declare Scope py_scope.
Delimit Scope py_scope with py.
Notation "x <- m ;; k" := (bind m (fun x => k))
  (at level 61, m at next level, right associativity) : py_scope.

(** One call of [QgsMessageLog.logMessage(text + str(cause), ..., Qgis.Warning)]:
    the literal part of the message and, where the message interpolates
    an exception, that exception. *)
Inductive log_entry : Type :=
| Warning (text : string) (cause : option exn).

(** A computation that writes to the message log and returns or raises. *)
Definition M (A : Type) : Type := (list log_entry * outcome A)%type.

Definition ret {A : Type} (a : A) : M A := ([], Return a).
Definition throw {A : Type} (e : exn) : M A := ([], Raise e).
Definition lift {A : Type} (m : outcome A) : M A := ([], m).
Definition logMessage (text : string) (cause : option exn) : M unit :=
  ([Warning text cause], Return tt).

Definition bindM {A B : Type} (m : M A) (k : A -> M B) : M B :=
  match m with
  | (l1, Return a) => let (l2, r) := k a in ((l1 ++ l2)%list, r)
  | (l1, Raise e) => (l1, Raise e)
  end.

Notation "x <~ m ;; k" := (bindM m (fun x => k))
  (at level 61, m at next level, right associativity) : py_scope.
Notation "m ;;; k" := (bindM m (fun _ => k))
  (at level 61, right associativity) : py_scope.

(** [try: body  except <classes> as e: handler e] *)
Definition try_except {A : Type} (body : M A) (catches : exn -> bool)
    (handler : exn -> M A) : M A :=
  match body with
  | (l1, Return a) => (l1, Return a)
  | (l1, Raise e) =>
      if catches e then let (l2, r) := handler e in ((l1 ++ l2)%list, r)
      else (l1, Raise e)
  end.

Local Open Scope py_scope.

(* ===================================================================== *)
(** ** Python values *)
(* ===================================================================== *)

(** What [json.loads] returns.  A [dict] keeps its keys in insertion
    order and has no two equal keys. *)
Inductive pyval : Type :=
| PNone
| PBool (b : bool)
| PInt (z : Z)
| PFloat (f : float)
| PStr (s : string)
| PList (items : list pyval)
| PDict (entries : list (string * pyval)).

(** A Python number: [int] (with [bool]) or [float]. *)
Inductive num : Type :=
| NInt (z : Z)
| NFloat (f : float).

Module Py.

Definition as_int (v : pyval) : option Z :=
  match v with
  | PBool true => Some 1
  | PBool false => Some 0
  | PInt z => Some z
  | _ => None
  end.

Definition as_num (v : pyval) : option num :=
  match v with
  | PFloat f => Some (NFloat f)
  | _ => option_map NInt (as_int v)
  end.

Definition of_num (n : num) : pyval :=
  match n with NInt z => PInt z | NFloat f => PFloat f end.

(** [isinstance(v, int)] *)
Definition is_int (v : pyval) : bool :=
  match as_int v with Some _ => true | None => false end.

(** [isinstance(v, list)] *)
Definition is_list (v : pyval) : bool :=
  match v with PList _ => true | _ => false end.

(** [float(z)] for an [int]: rounded to nearest even, [OverflowError]
    when the result is not finite. *)
Definition float_of_int (z : Z) : outcome float :=
  match binary_normalize prec emax z 0 false with
  | S754_infinity _ => Raise OverflowError
  | sf => Return (SF2Prim sf)
  end.

(** The conversion of a number argument to a C [double]. *)
Definition num_as_double (n : num) : outcome float :=
  match n with
  | NInt z => float_of_int z
  | NFloat f => Return f
  end.

(** [a + b] on numbers. *)
Definition num_add (a b : num) : outcome num :=
  match a, b with
  | NInt x, NInt y => Return (NInt (x + y))
  | _, _ =>
      fa <- num_as_double a ;;
      fb <- num_as_double b ;;
      Return (NFloat (fa + fb)%float)
  end.

(** The exact value [(-1)^s * m * 2^e] of a finite float equals [z]. *)
Definition finite_equals_int (s : bool) (m : positive) (e : Z) (z : Z) : bool :=
  let v := if s then Z.neg m else Z.pos m in
  if 0 <=? e then z =? v * 2 ^ e
  else (v mod 2 ^ (- e) =? 0) && (z =? v / 2 ^ (- e)).

(** [a == b] on numbers: floats compare as IEEE values, an [int] and a
    [float] compare by exact value. *)
Definition int_eq_float (z : Z) (f : float) : bool :=
  match Prim2SF f with
  | S754_zero _ => z =? 0
  | S754_finite s m e => finite_equals_int s m e z
  | _ => false
  end.

Definition num_eqb (a b : num) : bool :=
  match a, b with
  | NInt x, NInt y => x =? y
  | NFloat f, NFloat g => (f =? g)%float
  | NInt x, NFloat g => int_eq_float x g
  | NFloat f, NInt y => int_eq_float y f
  end.

(** [x + v] where [x] is a number: [TypeError] unless [v] is one too. *)
Definition add (x : num) (v : pyval) : outcome num :=
  match as_num v with
  | Some n => num_add x n
  | None => Raise TypeError
  end.

(** [bool(v)] *)
Definition truthy (v : pyval) : bool :=
  match v with
  | PNone => false
  | PBool b => b
  | PInt z => negb (z =? 0)
  | PFloat f => negb (f =? 0)%float
  | PStr s => negb (PyStr.is_empty s)
  | PList l => match l with [] => false | _ => true end
  | PDict d => match d with [] => false | _ => true end
  end.

(** [len(v)] *)
Definition len (v : pyval) : outcome Z :=
  match v with
  | PStr s => Return (Z.of_nat (String.length s))
  | PList l => Return (Z.of_nat (List.length l))
  | PDict d => Return (Z.of_nat (List.length d))
  | _ => Raise TypeError
  end.

Fixpoint chars (s : string) : list pyval :=
  match s with
  | EmptyString => []
  | String c r => PStr (String c EmptyString) :: chars r
  end.

(** The items that [for x in v] visits. *)
Definition iter (v : pyval) : outcome (list pyval) :=
  match v with
  | PStr s => Return (chars s)
  | PList l => Return l
  | PDict d => Return (map (fun kv => PStr (fst kv)) d)
  | _ => Raise TypeError
  end.

(** [l[i]] on a sequence of length [n], negative indices counted from
    the end. *)
Definition seq_index {A : Type} (l : list A) (i : Z) : outcome A :=
  let n := Z.of_nat (List.length l) in
  let j := if i <? 0 then i + n else i in
  if (0 <=? j) && (j <? n)
  then match nth_error l (Z.to_nat j) with
       | Some a => Return a
       | None => Raise IndexError
       end
  else Raise IndexError.

(** [v[i]] for an integer [i].  A dict made by [json.loads] has string
    keys only, so an integer key is a [KeyError]. *)
Definition getitem (v : pyval) (i : Z) : outcome pyval :=
  match v with
  | PStr s => seq_index (chars s) i
  | PList l => seq_index l i
  | PDict _ => Raise KeyError
  | _ => Raise TypeError
  end.

Fixpoint assoc (key : string) (d : list (string * pyval)) : option pyval :=
  match d with
  | [] => None
  | (k, v) :: more => if String.eqb k key then Some v else assoc key more
  end.

(** [v.get(key, default)] *)
Definition get (v : pyval) (key : string) (default : pyval) : outcome pyval :=
  match v with
  | PDict d => Return (match assoc key d with Some x => x | None => default end)
  | _ => Raise AttributeError
  end.

(** [key in v] for a string [key] *)
Definition contains (key : string) (v : pyval) : outcome bool :=
  match v with
  | PDict d => Return (match assoc key d with Some _ => true | None => false end)
  | PList l =>
      Return (existsb (fun x => match x with
                                | PStr s => String.eqb s key
                                | _ => false
                                end) l)
  | PStr s => Return (PyStr.contains key s)
  | _ => Raise TypeError
  end.

(** [v.lower()] *)
Definition lower (v : pyval) : outcome string :=
  match v with
  | PStr s => Return (PyStr.lower s)
  | _ => Raise AttributeError
  end.

(** [v[:]] *)
Definition copy_slice (v : pyval) : outcome pyval :=
  match v with
  | PStr _ | PList _ => Return v
  | _ => Raise TypeError
  end.

(** [v == s] for a string literal [s] *)
Definition eq_str (v : pyval) (s : string) : bool :=
  match v with PStr t => String.eqb t s | _ => false end.

End Py.

(* ===================================================================== *)
(** ** The QGIS geometry library and ElementTree *)
(* ===================================================================== *)

(** [QgsPointXY]: a pair of doubles. *)
Record QgsPointXY : Type := mkPointXY { pt_x : float; pt_y : float }.

(** [QgsPointXY(a, b)] called on two Python values: a [TypeError] unless
    both are numbers, an [OverflowError] for an [int] beyond the doubles. *)
Definition QgsPointXY_new (a b : pyval) : outcome QgsPointXY :=
  match Py.as_num a, Py.as_num b with
  | Some na, Some nb =>
      x <- Py.num_as_double na ;;
      y <- Py.num_as_double nb ;;
      Return (mkPointXY x y)
  | _, _ => Raise TypeError
  end.

(** A [QgsGeometry] value, represented by the library call that built it.
    [combine a b] is [a.combine(b)], the geometric union. *)
Inductive QgsGeometry : Type :=
| fromPointXY (p : QgsPointXY)
| fromMultiPointXY (points : list QgsPointXY)
| fromPolylineXY (points : list QgsPointXY)
| fromMultiPolylineXY (lines : list (list QgsPointXY))
| fromPolygonXY (rings : list (list QgsPointXY))
| fromMultiPolygonXY (polygons : list (list (list QgsPointXY)))
| fromWkt (wkt : string)
| fromWkb (wkb : list Z)
| combine (a b : QgsGeometry).

(** An [xml.etree.ElementTree.Element]. *)
Inductive Element : Type :=
| mkElement (tag : string) (text : option string) (children : list Element).

Definition tag (e : Element) : string :=
  match e with mkElement t _ _ => t end.
Definition text (e : Element) : option string :=
  match e with mkElement _ t _ => t end.
Definition children (e : Element) : list Element :=
  match e with mkElement _ _ c => c end.

(** [root.iter()]: the element and its descendants in document order. *)
Fixpoint iter (e : Element) : list Element :=
  match e with
  | mkElement _ _ c => e :: flat_map iter c
  end.

(** The libraries and interpreter services the module relies on.
    - [json_loads s] is [json.loads(s)]: the value, or the exception it
      raises, a [JSONDecodeError] for text that is not JSON, and for
      instance a [RecursionError] for text nested too deeply or a
      [ValueError] for an integer literal beyond the digit limit.
    - [ET_fromstring s]: [None] is an [ET.ParseError].
    - [float_of_str s] is [float(s)] on text: [None] is a [ValueError].
    - [isNull], [isEmpty]: the methods of [QgsGeometry].
    - [QgsPointXY_eq]: the [==] of [QgsPointXY].
    - [recursion_limit]: how many nested calls of a decoder the
      interpreter allows before it raises [RecursionError]. *)
Class Platform : Type := {
  json_loads : string -> outcome pyval;
  json_dumps : pyval -> string;
  ET_fromstring : string -> option Element;
  float_of_str : string -> option float;
  isNull : QgsGeometry -> bool;
  isEmpty : QgsGeometry -> bool;
  QgsPointXY_eq : QgsPointXY -> QgsPointXY -> bool;
  recursion_limit : nat
}.

(* ===================================================================== *)
(** ** class GeometryFormat *)
(* ===================================================================== *)

Module GeometryFormat.
Definition WKT : string := "WKT".
Definition WKB : string := "WKB".
Definition EWKT : string := "EWKT".
Definition EWKB : string := "EWKB".
Definition GEOJSON : string := "GeoJSON".
Definition JSON : string := "JSON".
Definition KML : string := "KML".
Definition EARTH_ENGINE : string := "Earth Engine".
Definition TOPOJSON : string := "TopoJSON".
Definition XY : string := "X-Y Coordinates".
Definition UNKNOWN : string := "Unknown".

Definition all_formats : list string :=
  [WKT; WKB; EWKT; EWKB; GEOJSON; KML; EARTH_ENGINE; TOPOJSON; XY].
End GeometryFormat.

(* ===================================================================== *)
(** ** class GeometryParser *)
(* ===================================================================== *)

Module GeometryParser.
Import GeometryFormat.

Section Parser.
Context {P : Platform}.

(** *** detect_format *)

Definition wkt_types : list string :=
  [ "POINT"; "LINESTRING"; "POLYGON"; "MULTIPOINT";
    "MULTILINESTRING"; "MULTIPOLYGON"; "GEOMETRYCOLLECTION";
    "CIRCULARSTRING"; "COMPOUNDCURVE"; "CURVEPOLYGON";
    "MULTICURVE"; "MULTISURFACE"; "TRIANGLE"; "TIN";
    "POLYHEDRALSURFACE" ].

(** [not rest or rest[0] in ' (ZM'] *)
Definition wkt_follow_ok (rest : string) : bool :=
  match rest with
  | EmptyString => true
  | String c _ => PyStr.char_in c " (ZM"
  end.

(** The loop over [wkt_types]: [true] when it returns [WKT]. *)
Fixpoint wkt_loop (types : list string) (upper_sample : string) : bool :=
  match types with
  | [] => false
  | wkt_type :: more =>
      if PyStr.startswith upper_sample wkt_type
      then
        let rest := PyStr.drop (String.length wkt_type) upper_sample in
        if wkt_follow_ok rest then true else wkt_loop more upper_sample
      else wkt_loop more upper_sample
  end.

(** The JSON step: [Some] format when it returns, [None] when it falls
    through, also on a [JSONDecodeError]; any other exception of
    [json.loads] leaves the step, and [detect_format] with it. *)
Definition detect_json (sample : string) : outcome (option string) :=
  if PyStr.startswith sample "{" then
    match json_loads sample with
    | Return (PDict d) =>
        let has k := match Py.assoc k d with Some _ => true | None => false end in
        if has "type" && (has "coordinates" || has "geometries")
        then Return (Some GEOJSON)
        else if has "arcs" || has "objects" then Return (Some TOPOJSON)
        else Return None
    | Return _ => Return None
    | Raise e => if is_JSONDecodeError e then Return None else Raise e
    end
  else Return None.

Definition kml_elements : list string :=
  [ "<point"; "<linestring"; "<polygon"; "<multigeometry";
    "<linearring"; "<coordinates" ].

Definition detect_kml (sample : string) : bool :=
  if PyStr.startswith sample "<"
     || PyStr.contains "<coordinates" (PyStr.lower sample)
  then
    let lower_sample := PyStr.lower sample in
    existsb (fun elem => PyStr.contains elem lower_sample) kml_elements
  else false.

(** The body of the [try] of the hexadecimal step: [None] is the
    [ValueError] that the [except] clause swallows. *)
Definition detect_hex (sample : string) : option string :=
  if (10 <=? String.length sample)%nat then
    let type_bytes := PyStr.slice 2 10 sample in
    match PyStr.int16 type_bytes with
    | None => None
    | Some type_int =>
        match
          (if String.eqb (PyStr.lower (PyStr.slice 0 2 sample)) "01"
           then PyStr.int16
                  (PyStr.join
                     (rev (map (fun i => PyStr.slice i (i + 2) type_bytes)
                               [0; 2; 4; 6]%nat)))
           else Some type_int)
        with
        | None => None
        | Some type_int =>
            if negb (Z.land type_int 0x20000000 =? 0)
            then Some EWKB else Some WKB
        end
    end
  else Some WKB.

Definition detect_format (sample : string) : outcome string :=
  if PyStr.is_empty sample then Return UNKNOWN else
  let sample := PyStr.strip sample in
  if PyStr.is_empty sample then Return UNKNOWN else
  if PyStr.startswith (PyStr.upper sample) "SRID=" then Return EWKT else
  let upper_sample := PyStr.upper sample in
  if wkt_loop wkt_types upper_sample then Return WKT else
  match detect_json sample with
  | Raise e => Raise e
  | Return (Some fmt) => Return fmt
  | Return None =>
      if detect_kml sample then Return KML else
      if PyStr.startswith sample "ee.Geometry" then Return EARTH_ENGINE else
      if (2 <=? String.length sample)%nat
         && Nat.even (String.length sample)
         && PyStr.all_chars
              (fun c => PyStr.char_in c "0123456789ABCDEFabcdef") sample
      then match detect_hex sample with
           | Some fmt => Return fmt
           | None => Return UNKNOWN
           end
      else Return UNKNOWN
  end.

(** *** _parse_xy *)

(** The caller passes [None] or a [float]; [float(x)] of a [float] is the
    value itself, so the [try] never reaches its [except] clause. *)
Definition _parse_xy (x_value y_value : option float) : M (option QgsGeometry) :=
  match x_value, y_value with
  | Some x, Some y => ret (Some (fromPointXY (mkPointXY x y)))
  | _, _ => ret None
  end.

(** *** _parse_wkt *)

Definition _parse_wkt (value : string) : M (option QgsGeometry) :=
  let geom := fromWkt value in
  if isNull geom || isEmpty geom then ret None else ret (Some geom).

(** *** _parse_wkb, _parse_ewkb *)

(** [binascii.unhexlify] *)
Fixpoint unhexlify (s : string) : outcome (list Z) :=
  match s with
  | EmptyString => Return []
  | String _ EmptyString => Raise BinasciiError
  | String a (String b r) =>
      match PyStr.hex_value a, PyStr.hex_value b with
      | Some hi, Some lo =>
          bytes <- unhexlify r ;;
          Return (16 * hi + lo :: bytes)
      | _, _ => Raise BinasciiError
      end
  end.

Definition parse_binary (label : string) (value : string) : M (option QgsGeometry) :=
  try_except
    (wkb_bytes <~ lift (unhexlify value) ;;
     let geom := fromWkb wkb_bytes in
     if isNull geom || isEmpty geom then ret None else ret (Some geom))
    is_ValueError
    (fun e => logMessage label (Some e) ;;; ret None).

Definition _parse_wkb (value : string) : M (option QgsGeometry) :=
  parse_binary "WKB parsing error: " value.

Definition _parse_ewkb (value : string) : M (option QgsGeometry) :=
  parse_binary "EWKB parsing error: " value.

(** *** _parse_ewkt *)

Definition newline : ascii := ascii_of_nat 10.

(** [re.match(r'SRID=(\d+);(.+)', value, re.IGNORECASE)]: the two groups.
    [\d+] is followed by [;], so it takes the whole run of digits; [.+]
    ends the pattern, so it takes every character up to the first line
    feed. *)
Definition ewkt_match (value : string) : option (string * string) :=
  if String.eqb (PyStr.upper (PyStr.slice 0 5 value)) "SRID=" then
    let (digits, after) := PyStr.span PyStr.is_digit (PyStr.drop 5 value) in
    if PyStr.is_empty digits then None
    else match after with
         | String ";" r =>
             let (wkt_part, _) :=
               PyStr.span (fun c => negb (Ascii.eqb c newline)) r in
             if PyStr.is_empty wkt_part then None
             else Some (digits, wkt_part)
         | _ => None
         end
  else None.

(** The value of a run of decimal digits. *)
Fixpoint int10_aux (acc : Z) (s : string) : Z :=
  match s with
  | EmptyString => acc
  | String c r => int10_aux (10 * acc + (Z.of_N (N_of_ascii c) - 48)) r
  end.

(** [sys.get_int_max_str_digits()], which the module leaves at its
    default. *)
Definition int_max_str_digits : Z := 4300.

(** [int(s)] on a run of decimal digits: a [ValueError] when the run has
    more digits than the limit, leading zeros included. *)
Definition int10 (s : string) : outcome Z :=
  if int_max_str_digits <? Z.of_nat (String.length s)
  then Raise ValueError
  else Return (int10_aux 0 s).

(** The [srid] is computed and then not used: the function returns the
    geometry alone. *)
Definition _parse_ewkt (value : string) : M (option QgsGeometry) :=
  match ewkt_match value with
  | Some (g1, g2) =>
      srid <~ lift (int10 g1) ;;
      let wkt_part := g2 in
      geom <~ _parse_wkt wkt_part ;;
      ret geom
  | None => ret None
  end.

(** *** The coordinate comprehensions *)

(** [[QgsPointXY(c[0], c[1]) for c in items if len(c) >= 2]] *)
Fixpoint points_of_items (items : list pyval) : outcome (list QgsPointXY) :=
  match items with
  | [] => Return []
  | c :: more =>
      n <- Py.len c ;;
      if 2 <=? n then
        c0 <- Py.getitem c 0 ;;
        c1 <- Py.getitem c 1 ;;
        p <- QgsPointXY_new c0 c1 ;;
        ps <- points_of_items more ;;
        Return (p :: ps)
      else points_of_items more
  end.

Definition points_of (coords : pyval) : outcome (list QgsPointXY) :=
  items <- Py.iter coords ;;
  points_of_items items.

Definition len_ge {A : Type} (l : list A) (n : Z) : bool :=
  n <=? Z.of_nat (List.length l).

Definition nonempty {A : Type} (l : list A) : bool :=
  match l with [] => false | _ => true end.

(** [for line in groups: points = [...]; if len(points) >= least:
    kept.append(points)] *)
Fixpoint collect (least : Z) (groups : list pyval)
    : outcome (list (list QgsPointXY)) :=
  match groups with
  | [] => Return []
  | g :: more =>
      points <- points_of g ;;
      kept <- collect least more ;;
      Return (if len_ge points least then points :: kept else kept)
  end.

(** [for polygon in coords: rings = ...; if rings: polygons.append(rings)] *)
Fixpoint polygons_of (polys : list pyval)
    : outcome (list (list (list QgsPointXY))) :=
  match polys with
  | [] => Return []
  | polygon :: more =>
      ring_items <- Py.iter polygon ;;
      rings <- collect 3 ring_items ;;
      kept <- polygons_of more ;;
      Return (if nonempty rings then rings :: kept else kept)
  end.

(** [combined = geom_list[0]; for g in geom_list[1:]: combined =
    combined.combine(g)] *)
Definition combine_all (geom_list : list QgsGeometry) : option QgsGeometry :=
  match geom_list with
  | [] => None
  | g :: more => Some (fold_left combine more g)
  end.

(** [if parsed: geom_list.append(parsed)]: the truth value of a
    [QgsGeometry] is [not isNull()]. *)
Definition append_if (parsed : option QgsGeometry) (geom_list : list QgsGeometry)
    : list QgsGeometry :=
  match parsed with
  | Some g => if negb (isNull g) then g :: geom_list else geom_list
  | None => geom_list
  end.

(** The branches of [_parse_geojson] that read [coordinates]. *)
Definition geojson_simple (geom_type : string) (coords : pyval)
    : outcome (option QgsGeometry) :=
  if String.eqb geom_type "point" then
    n <- Py.len coords ;;
    if 2 <=? n then
      c0 <- Py.getitem coords 0 ;;
      c1 <- Py.getitem coords 1 ;;
      p <- QgsPointXY_new c0 c1 ;;
      Return (Some (fromPointXY p))
    else Return None
  else if String.eqb geom_type "multipoint" then
    points <- points_of coords ;;
    Return (if nonempty points then Some (fromMultiPointXY points) else None)
  else if String.eqb geom_type "linestring" then
    points <- points_of coords ;;
    Return (if len_ge points 2 then Some (fromPolylineXY points) else None)
  else if String.eqb geom_type "multilinestring" then
    items <- Py.iter coords ;;
    lines <- collect 2 items ;;
    Return (if nonempty lines then Some (fromMultiPolylineXY lines) else None)
  else if String.eqb geom_type "polygon" then
    items <- Py.iter coords ;;
    rings <- collect 3 items ;;
    Return (if nonempty rings then Some (fromPolygonXY rings) else None)
  else if String.eqb geom_type "multipolygon" then
    items <- Py.iter coords ;;
    polygons <- polygons_of items ;;
    Return (if nonempty polygons then Some (fromMultiPolygonXY polygons) else None)
  else Return None.

(** *** _parse_geojson *)

(** [for g in geometries: parsed = <decode g>; if parsed:
    geom_list.append(parsed)] *)
Fixpoint geojson_members (decode : pyval -> M (option QgsGeometry))
    (geometries : list pyval) : M (list QgsGeometry) :=
  match geometries with
  | [] => ret []
  | g :: more =>
      parsed <~ decode g ;;
      geom_list <~ geojson_members decode more ;;
      ret (append_if parsed geom_list)
  end.

(** [depth] counts the nested calls still allowed: the function re-enters
    itself on [json.dumps(g)] for each member of a collection. *)
Fixpoint _parse_geojson_at (depth : nat) (value : string) : M (option QgsGeometry) :=
  match depth with
  | O => throw RecursionError
  | S depth' =>
      try_except
        (match json_loads value with
         | Raise e => throw e
         | Return geojson =>
             ty <~ lift (Py.get geojson "type" PNone) ;;
             geojson <~ (if Py.eq_str ty "Feature"
                         then lift (Py.get geojson "geometry" (PDict []))
                         else ret geojson) ;;
             t <~ lift (Py.get geojson "type" (PStr "")) ;;
             geom_type <~ lift (Py.lower t) ;;
             coords <~ lift (Py.get geojson "coordinates" (PList [])) ;;
             if String.eqb geom_type "geometrycollection" then
               geometries <~ lift (Py.get geojson "geometries" (PList [])) ;;
               members <~ lift (Py.iter geometries) ;;
               geom_list <~
                 geojson_members
                   (fun g => _parse_geojson_at depth' (json_dumps g)) members ;;
               ret (combine_all geom_list)
             else lift (geojson_simple geom_type coords)
         end)
        is_JSONDecodeError
        (fun e => logMessage "GeoJSON parsing error: " (Some e) ;;; ret None)
  end.

Definition _parse_geojson (value : string) : M (option QgsGeometry) :=
  _parse_geojson_at recursion_limit value.

(** *** _parse_kml *)

(** [tag.lower().endswith('coordinates') or tag == 'coordinates'] *)
Definition is_coordinates_tag (t : string) : bool :=
  PyStr.endswith (PyStr.lower t) "coordinates" || String.eqb t "coordinates".

Definition kml_wrap (value : string) : string :=
  if negb (PyStr.startswith (PyStr.strip value) "<?xml")
     && negb (PyStr.startswith (PyStr.lower (PyStr.strip value)) "<kml")
  then ("<root xmlns:gx=" ++ PyStr.dquote
        ++ "http://www.google.com/kml/ext/2.2" ++ PyStr.dquote ++ ">"
        ++ value ++ "</root>")%string
  else value.

(** The loop over [coord_pairs]: a pair with fewer than two fields, or
    with a field that [float] rejects, is skipped. *)
Fixpoint kml_points (coord_pairs : list string) : list QgsPointXY :=
  match coord_pairs with
  | [] => []
  | item :: more =>
      match PyStr.split_on "," item with
      | p0 :: p1 :: _ =>
          match float_of_str p0 with
          | Some lon =>
              match float_of_str p1 with
              | Some lat => mkPointXY lon lat :: kml_points more
              | None => kml_points more
              end
          | None => kml_points more
          end
      | _ => kml_points more
      end
  end.

(** The two nested loops that look for the parent of a coordinates
    element: the inner [break] leaves only the inner loop, so the last
    element with such a child decides. *)
Definition kml_parent_tag (elems : list Element) : string :=
  fold_left
    (fun parent_tag elem =>
       if existsb (fun child => is_coordinates_tag (tag child)) (children elem)
       then PyStr.lower (tag elem) else parent_tag)
    elems EmptyString.

Definition kml_strip_namespace (parent_tag : string) : string :=
  if PyStr.contains "}" parent_tag
  then nth 1 (PyStr.split_on "}" parent_tag) EmptyString
  else parent_tag.

Definition kml_build (parent_tag : string) (points : list QgsPointXY)
    : option QgsGeometry :=
  match points with
  | [] => None
  | first :: _ =>
      let n := Z.of_nat (List.length points) in
      if PyStr.contains "point" parent_tag && (1 <=? n)
      then Some (fromPointXY first)
      else if PyStr.contains "linestring" parent_tag && (2 <=? n)
      then Some (fromPolylineXY points)
      else if (PyStr.contains "polygon" parent_tag
               || PyStr.contains "linearring" parent_tag) && (3 <=? n)
      then Some (fromPolygonXY [points])
      else if n =? 1 then Some (fromPointXY first)
      else if (3 <=? n) && QgsPointXY_eq first (last points first)
      then Some (fromPolygonXY [points])
      else if 2 <=? n then Some (fromPolylineXY points)
      else None
  end.

Definition _parse_kml (value : string) : M (option QgsGeometry) :=
  try_except
    (let value := kml_wrap value in
     match ET_fromstring value with
     | None => throw ParseError
     | Some root =>
         let coords_elem :=
           find (fun elem => is_coordinates_tag (tag elem)) (iter root) in
         match coords_elem with
         | None => ret None
         | Some elem =>
             match text elem with
             | None => ret None
             | Some txt =>
                 let coords_text := PyStr.strip txt in
                 let coord_pairs := PyStr.split_ws coords_text in
                 let points := kml_points coord_pairs in
                 if negb (nonempty points) then ret None
                 else
                   let parent_tag := kml_parent_tag (iter root) in
                   let parent_tag := kml_strip_namespace parent_tag in
                   ret (kml_build parent_tag points)
             end
         end
     end)
    is_ParseError
    (fun e => logMessage "KML parsing error: " (Some e) ;;; ret None).

(** *** _parse_earth_engine *)

(** [\s*\)] at the head of [s] *)
Definition closes (s : string) : bool :=
  match PyStr.lstrip s with
  | String ")" _ => true
  | _ => false
  end.

(** The text matched by [.+\]] in [(\[.+\])\s*\)], given what follows the
    opening bracket: [.+] is greedy and matches line feeds too, so the
    match ends at the last [']'] that optional whitespace and [')']
    follow. *)
Fixpoint last_close (s : string) : option string :=
  match s with
  | EmptyString => None
  | String c r =>
      match last_close r with
      | Some body => Some (String c body)
      | None => if Ascii.eqb c "]" && closes r
                then Some (String c EmptyString) else None
      end
  end.

(** [re.match(r'ee\.Geometry\.(\w+)\s*\(\s*(\[.+\])\s*\)', s, re.DOTALL)]:
    the two groups. *)
Definition ee_match (s : string) : option (string * string) :=
  if PyStr.startswith s "ee.Geometry." then
    let (kind, after) := PyStr.span PyStr.is_word (PyStr.drop 12 s) in
    if PyStr.is_empty kind then None
    else match PyStr.lstrip after with
         | String "(" r1 =>
             match PyStr.lstrip r1 with
             | String "[" r2 =>
                 match last_close r2 with
                 | Some body =>
                     if (2 <=? String.length body)%nat
                     then Some (kind, String "[" body) else None
                 | None => None
                 end
             | _ => None
             end
         | _ => None
         end
  else None.

(** [re.search(r'\{[^}]+\}', s)]: the matched text. *)
Fixpoint search_braces (s : string) : option string :=
  match s with
  | EmptyString => None
  | String c r =>
      if Ascii.eqb c "{" then
        let (body, after) := PyStr.span (fun d => negb (Ascii.eqb d "}")) r in
        if negb (PyStr.is_empty body) && PyStr.startswith after "}"
        then Some (String "{" (body ++ "}"))%string
        else search_braces r
      else search_braces r
  end.

(** The [rectangle] / [bbox] branch: [[west, south, east, north]]. *)
Definition rectangle_branch (coords : pyval) : outcome (option QgsGeometry) :=
  n <- Py.len coords ;;
  if 4 <=? n then
    west <- Py.getitem coords 0 ;;
    south <- Py.getitem coords 1 ;;
    east <- Py.getitem coords 2 ;;
    north <- Py.getitem coords 3 ;;
    p1 <- QgsPointXY_new west south ;;
    p2 <- QgsPointXY_new east south ;;
    p3 <- QgsPointXY_new east north ;;
    p4 <- QgsPointXY_new west north ;;
    p5 <- QgsPointXY_new west south ;;
    Return (Some (fromPolygonXY [[p1; p2; p3; p4; p5]]))
  else Return None.

(** The dispatch on the lower-cased kind word. *)
Definition ee_build (geom_type : string) (coords : pyval)
    : outcome (option QgsGeometry) :=
  if String.eqb geom_type "point" then
    n <- Py.len coords ;;
    if 2 <=? n then
      c0 <- Py.getitem coords 0 ;;
      c1 <- Py.getitem coords 1 ;;
      p <- QgsPointXY_new c0 c1 ;;
      Return (Some (fromPointXY p))
    else Return None
  else if String.eqb geom_type "multipoint" then
    points <- points_of coords ;;
    Return (if nonempty points then Some (fromMultiPointXY points) else None)
  else if String.eqb geom_type "linestring" then
    points <- points_of coords ;;
    Return (if len_ge points 2 then Some (fromPolylineXY points) else None)
  else if String.eqb geom_type "linearring" then
    points <- points_of coords ;;
    Return (if len_ge points 3 then Some (fromPolygonXY [points]) else None)
  else if String.eqb geom_type "polygon" then
    if Py.truthy coords then
      first <- Py.getitem coords 0 ;;
      if Py.is_list first then
        nested <- (if Py.truthy first
                   then (f0 <- Py.getitem first 0 ;; Return (Py.is_list f0))
                   else Return false) ;;
        if nested then
          items <- Py.iter coords ;;
          rings <- collect 3 items ;;
          Return (if nonempty rings then Some (fromPolygonXY rings) else None)
        else
          points <- points_of coords ;;
          Return (if len_ge points 3 then Some (fromPolygonXY [points]) else None)
      else Return None
    else Return None
  else if String.eqb geom_type "multipolygon" then
    items <- Py.iter coords ;;
    polygons <- polygons_of items ;;
    Return (if nonempty polygons then Some (fromMultiPolygonXY polygons) else None)
  else if String.eqb geom_type "rectangle" || String.eqb geom_type "bbox" then
    rectangle_branch coords
  else Return None.

Definition _parse_earth_engine (value : string) : M (option QgsGeometry) :=
  try_except
    (match ee_match (PyStr.strip value) with
     | None =>
         if PyStr.contains "{" value && PyStr.contains "coordinates" value
         then match search_braces value with
              | Some json_text => _parse_geojson json_text
              | None => ret None
              end
         else ret None
     | Some (g1, g2) =>
         let geom_type := PyStr.lower g1 in
         let coords_str := g2 in
         match json_loads coords_str with
         | Raise e => throw e
         | Return coords => lift (ee_build geom_type coords)
         end
     end)
    (fun e => is_ValueError e || is_IndexError e)
    (fun e => logMessage "Earth Engine parsing error: " (Some e) ;;; ret None).

(** *** _resolve_arcs *)

(** A decoded point [[x, y]]: always a list of two numbers, kept as a
    pair. *)
Definition coord : Type := (num * num)%type.

(** [a == b] on two decoded points (list equality, element by element). *)
Definition coord_eqb (a b : coord) : bool :=
  Py.num_eqb (fst a) (fst b) && Py.num_eqb (snd a) (snd b).

(** The delta-decoding loop, started with the running sums [(x, y)]:
    [for point in arc_coords: if len(point) >= 2: x += point[0];
    y += point[1]; decoded.append([x, y])]. *)
Fixpoint decode_arc (arc_coords : list pyval) (x y : num) : outcome (list coord) :=
  match arc_coords with
  | [] => Return []
  | point :: more =>
      n <- Py.len point ;;
      if 2 <=? n then
        p0 <- Py.getitem point 0 ;;
        x' <- Py.add x p0 ;;
        p1 <- Py.getitem point 1 ;;
        y' <- Py.add y p1 ;;
        decoded <- decode_arc more x' y' ;;
        Return ((x', y') :: decoded)
      else decode_arc more x y
  end.

(** [if coords and decoded and coords[-1] == decoded[0]: decoded =
    decoded[1:]] followed by [coords.extend(decoded)]. *)
Definition extend_at_junction (coords decoded : list coord) : list coord :=
  match coords, decoded with
  | c :: _, d :: decoded' =>
      if coord_eqb (last coords c) d
      then (coords ++ decoded')%list
      else (coords ++ decoded)%list
  | _, _ => (coords ++ decoded)%list
  end.

(** The loop [for ref in ref_group] with its accumulator [coords]. *)
Fixpoint resolve_refs (arcs : pyval) (ref_group : list pyval) (coords : list coord)
    : outcome (list coord) :=
  match ref_group with
  | [] => Return coords
  | ref :: more =>
      match Py.as_int ref with
      | Some r =>
          let arc_idx := if 0 <=? r then r else Z.lnot r in
          n <- Py.len arcs ;;
          if (0 <=? arc_idx) && (arc_idx <? n) then
            arc <- Py.getitem arcs arc_idx ;;
            arc_coords <- Py.copy_slice arc ;;
            points <- Py.iter arc_coords ;;
            decoded <- decode_arc points (NInt 0) (NInt 0) ;;
            let decoded := if r <? 0 then rev decoded else decoded in
            resolve_refs arcs more (extend_at_junction coords decoded)
          else resolve_refs arcs more coords
      | None => resolve_refs arcs more coords
      end
  end.

(** The loop [for ref_group in arc_refs]. *)
Fixpoint resolve_groups (arcs : pyval) (groups : list pyval)
    : outcome (list (list coord)) :=
  match groups with
  | [] => Return []
  | ref_group :: more =>
      let ref_group :=
        if Py.is_int ref_group then PList [ref_group] else ref_group in
      match ref_group with
      | PList refs =>
          coords <- resolve_refs arcs refs [] ;;
          resolved <- resolve_groups arcs more ;;
          Return (if nonempty coords then coords :: resolved else resolved)
      | _ => resolve_groups arcs more
      end
  end.

Definition _resolve_arcs (arc_refs arcs : pyval) : outcome (list (list coord)) :=
  groups <- Py.iter arc_refs ;;
  resolve_groups arcs groups.

(** *** _resolve_topojson_geometry *)

(** [[QgsPointXY(c[0], c[1]) for c in line if len(c) >= 2]] on decoded
    points, each of which has length two. *)
Fixpoint points_of_coords (line : list coord) : outcome (list QgsPointXY) :=
  match line with
  | [] => Return []
  | c :: more =>
      p <- QgsPointXY_new (Py.of_num (fst c)) (Py.of_num (snd c)) ;;
      ps <- points_of_coords more ;;
      Return (p :: ps)
  end.

Fixpoint collect_coords (least : Z) (groups : list (list coord))
    : outcome (list (list QgsPointXY)) :=
  match groups with
  | [] => Return []
  | g :: more =>
      points <- points_of_coords g ;;
      kept <- collect_coords least more ;;
      Return (if len_ge points least then points :: kept else kept)
  end.

(** [for poly_arcs in arc_indices: poly_coords = _resolve_arcs(poly_arcs,
    arcs); rings = ...; if rings: polygons.append(rings)] *)
Fixpoint topo_polygons (arcs : pyval) (arc_indices : list pyval)
    : outcome (list (list (list QgsPointXY))) :=
  match arc_indices with
  | [] => Return []
  | poly_arcs :: more =>
      poly_coords <- _resolve_arcs poly_arcs arcs ;;
      rings <- collect_coords 3 poly_coords ;;
      kept <- topo_polygons arcs more ;;
      Return (if nonempty rings then rings :: kept else kept)
  end.

(** The branch for [linestring], [multilinestring], [polygon] and
    [multipolygon]. *)
Definition topo_arcs_geometry (geom_type : string) (obj arcs : pyval)
    : outcome (option QgsGeometry) :=
  arc_indices <- Py.get obj "arcs" (PList []) ;;
  resolved_coords <- _resolve_arcs arc_indices arcs ;;
  if String.eqb geom_type "linestring" && nonempty resolved_coords then
    points <- points_of_coords (hd [] resolved_coords) ;;
    Return (if len_ge points 2 then Some (fromPolylineXY points) else None)
  else if String.eqb geom_type "multilinestring" && nonempty resolved_coords then
    lines <- collect_coords 2 resolved_coords ;;
    Return (if nonempty lines then Some (fromMultiPolylineXY lines) else None)
  else if String.eqb geom_type "polygon" && nonempty resolved_coords then
    rings <- collect_coords 3 resolved_coords ;;
    Return (if nonempty rings then Some (fromPolygonXY rings) else None)
  else if String.eqb geom_type "multipolygon" && nonempty resolved_coords then
    polys <- Py.iter arc_indices ;;
    polygons <- topo_polygons arcs polys ;;
    Return (if nonempty polygons then Some (fromMultiPolygonXY polygons) else None)
  else Return None.

Definition arc_types : list string :=
  ["linestring"; "multilinestring"; "polygon"; "multipolygon"].

(** [for g in geometries: parsed = <resolve g>; if parsed:
    geom_list.append(parsed)] *)
Fixpoint topo_members (resolve : pyval -> outcome (option QgsGeometry))
    (geometries : list pyval) : outcome (list QgsGeometry) :=
  match geometries with
  | [] => Return []
  | g :: more =>
      parsed <- resolve g ;;
      geom_list <- topo_members resolve more ;;
      Return (append_if parsed geom_list)
  end.

Fixpoint _resolve_topojson_geometry_at (depth : nat) (obj arcs : pyval)
    : outcome (option QgsGeometry) :=
  match depth with
  | O => Raise RecursionError
  | S depth' =>
      t <- Py.get obj "type" (PStr "") ;;
      geom_type <- Py.lower t ;;
      if String.eqb geom_type "point" then
        coords <- Py.get obj "coordinates" (PList []) ;;
        n <- Py.len coords ;;
        if 2 <=? n then
          c0 <- Py.getitem coords 0 ;;
          c1 <- Py.getitem coords 1 ;;
          p <- QgsPointXY_new c0 c1 ;;
          Return (Some (fromPointXY p))
        else Return None
      else if String.eqb geom_type "multipoint" then
        coords <- Py.get obj "coordinates" (PList []) ;;
        points <- points_of coords ;;
        Return (if nonempty points then Some (fromMultiPointXY points) else None)
      else if existsb (String.eqb geom_type) arc_types then
        topo_arcs_geometry geom_type obj arcs
      else if String.eqb geom_type "geometrycollection" then
        geometries <- Py.get obj "geometries" (PList []) ;;
        members <- Py.iter geometries ;;
        geom_list <-
          topo_members
            (fun g => _resolve_topojson_geometry_at depth' g arcs) members ;;
        Return (combine_all geom_list)
      else Return None
  end.

Definition _resolve_topojson_geometry (obj arcs : pyval)
    : outcome (option QgsGeometry) :=
  _resolve_topojson_geometry_at recursion_limit obj arcs.

(** *** _parse_topojson *)

Definition _parse_topojson (value : string) : M (option QgsGeometry) :=
  try_except
    (match json_loads value with
     | Raise e => throw e
     | Return topo =>
         has_type <~ lift (Py.contains "type" topo) ;;
         resolved <~ (if has_type then lift (Py.contains "coordinates" topo)
                      else ret false) ;;
         if resolved then _parse_geojson value
         else
           arcs <~ lift (Py.get topo "arcs" (PList [])) ;;
           objects <~ lift (Py.get topo "objects" (PDict [])) ;;
           if negb (Py.truthy objects) then ret None
           else match objects with
                | PDict ((first_obj_name, first_obj) :: _) =>
                    lift (_resolve_topojson_geometry first_obj arcs)
                | _ => throw AttributeError
                end
     end)
    is_ValueError
    (fun e => logMessage "TopoJSON parsing error: " (Some e) ;;; ret None).

(** *** parse *)

Definition parse (value : string) (format_type : string) (srid : Z)
    (x_value y_value : option float) : M (option QgsGeometry) :=
  if String.eqb format_type XY then _parse_xy x_value y_value
  else if PyStr.is_empty value then ret None
  else
    let value := PyStr.strip value in
    if PyStr.is_empty value then ret None
    else
      try_except
        (if String.eqb format_type WKT then _parse_wkt value
         else if String.eqb format_type WKB then _parse_wkb value
         else if String.eqb format_type EWKT then _parse_ewkt value
         else if String.eqb format_type EWKB then _parse_ewkb value
         else if String.eqb format_type GEOJSON || String.eqb format_type JSON
         then _parse_geojson value
         else if String.eqb format_type KML then _parse_kml value
         else if String.eqb format_type EARTH_ENGINE
         then _parse_earth_engine value
         else if String.eqb format_type TOPOJSON then _parse_topojson value
         else
           logMessage ("Unknown geometry format: " ++ format_type)%string None ;;;
           ret None)
        (fun _ => true)
        (fun e => logMessage "Error parsing geometry: " (Some e) ;;; ret None).

End Parser.
End GeometryParser.

(* ===================================================================== *)
(** ** A platform to run the decoders on *)
(* ===================================================================== *)

(** An executable [Platform] for the examples: a JSON reader for
    documents without escape sequences and without floating-point
    literals other than [NaN] (any other text is a [JSONDecodeError]
    here), in which an integer literal beyond the digit limit raises the
    [ValueError] of [int]; a geometry library that accepts a WKT text
    when it starts with a geometry keyword and in which, as in QGIS, a
    point with a NaN coordinate is empty; no JSON printer, every value
    being printed as the empty text; and no XML reader. *)
Module Demo.

Definition json_space (c : ascii) : bool :=
  let n := N_of_ascii c in ((n =? 32) || (n =? 9) || (n =? 10) || (n =? 13))%N.

Fixpoint skip_ws (s : string) : string :=
  match s with
  | String c r => if json_space c then skip_ws r else s
  | EmptyString => s
  end.

(** [d[k] = v] on a dict in insertion order. *)
Fixpoint dict_set (k : string) (v : pyval) (d : list (string * pyval))
    : list (string * pyval) :=
  match d with
  | [] => [(k, v)]
  | (k', v') :: more =>
      if String.eqb k' k then (k', v) :: more else (k', v') :: dict_set k v more
  end.

Definition plain_char (c : ascii) : bool :=
  let n := N_of_ascii c in ((32 <=? n) && negb (n =? 34) && negb (n =? 92))%N.

(** A string literal after its opening quote. *)
Definition read_string (s : string) : option (string * string) :=
  let (body, after) := PyStr.span plain_char s in
  match after with
  | String c r => if Ascii.eqb c (ascii_of_nat 34) then Some (body, r) else None
  | EmptyString => None
  end.

(** An integer literal.  A run of digits beyond the limit of [int] is a
    [ValueError]; a fraction or an exponent is not read. *)
Definition read_int (s : string) : outcome (pyval * string) :=
  let (neg, s1) := match s with
                   | String "-" r => (true, r)
                   | _ => (false, s)
                   end in
  let (digits, after) := PyStr.span PyStr.is_digit s1 in
  match digits with
  | EmptyString => Raise JSONDecodeError
  | String "0" (String _ _) => Raise JSONDecodeError
  | _ =>
      match after with
      | String "." _ | String "e" _ | String "E" _ => Raise JSONDecodeError
      | _ =>
          n <- GeometryParser.int10 digits ;;
          Return (PInt (if neg then - n else n), after)
      end
  end.

Inductive mode : Type :=
| Value
| Elems (acc : list pyval)
| Members (acc : list (string * pyval)).

Fixpoint read (fuel : nat) (m : mode) (s : string) : outcome (pyval * string) :=
  match fuel with
  | O => Raise JSONDecodeError
  | S fuel' =>
      let s := skip_ws s in
      match m with
      | Value =>
          match s with
          | String "[" r =>
              match skip_ws r with
              | String "]" r' => Return (PList [], r')
              | _ => read fuel' (Elems []) r
              end
          | String "{" r =>
              match skip_ws r with
              | String "}" r' => Return (PDict [], r')
              | _ => read fuel' (Members []) r
              end
          | String c r =>
              if Ascii.eqb c (ascii_of_nat 34) then
                match read_string r with
                | Some (str, r') => Return (PStr str, r')
                | None => Raise JSONDecodeError
                end
              else if prefix "null" s then Return (PNone, PyStr.drop 4 s)
              else if prefix "true" s then Return (PBool true, PyStr.drop 4 s)
              else if prefix "false" s then Return (PBool false, PyStr.drop 5 s)
              else if prefix "NaN" s then Return (PFloat nan, PyStr.drop 3 s)
              else read_int s
          | EmptyString => Raise JSONDecodeError
          end
      | Elems acc =>
          match read fuel' Value s with
          | Return (v, r) =>
              match skip_ws r with
              | String "," r' => read fuel' (Elems (v :: acc)) r'
              | String "]" r' => Return (PList (rev (v :: acc)), r')
              | _ => Raise JSONDecodeError
              end
          | Raise e => Raise e
          end
      | Members acc =>
          match s with
          | String c r =>
              if Ascii.eqb c (ascii_of_nat 34) then
                match read_string r with
                | Some (k, r1) =>
                    match skip_ws r1 with
                    | String ":" r2 =>
                        match read fuel' Value r2 with
                        | Return (v, r3) =>
                            match skip_ws r3 with
                            | String "," r4 =>
                                read fuel' (Members (dict_set k v acc)) r4
                            | String "}" r4 =>
                                Return (PDict (dict_set k v acc), r4)
                            | _ => Raise JSONDecodeError
                            end
                        | Raise e => Raise e
                        end
                    | _ => Raise JSONDecodeError
                    end
                | None => Raise JSONDecodeError
                end
              else Raise JSONDecodeError
          | EmptyString => Raise JSONDecodeError
          end
      end
  end.

(** [json.loads] of the documents that are read here: the value, a
    [JSONDecodeError], or the [ValueError] of an integer literal. *)
Definition load (s : string) : outcome pyval :=
  match read (2 * String.length s + 2) Value s with
  | Return (v, r) =>
      if PyStr.is_empty (skip_ws r) then Return v else Raise JSONDecodeError
  | Raise e => Raise e
  end.

(** The value alone, when there is one. *)
Definition loads (s : string) : option pyval :=
  match load s with
  | Return v => Some v
  | Raise _ => None
  end.

Definition is_null (g : QgsGeometry) : bool :=
  match g with
  | fromWkt s =>
      negb (GeometryParser.wkt_loop GeometryParser.wkt_types (PyStr.upper s))
  | fromWkb b => (List.length b <? 5)%nat
  | _ => false
  end.

Definition is_empty (g : QgsGeometry) : bool :=
  match g with
  | fromWkt s => PyStr.contains "EMPTY" (PyStr.upper s)
  | fromPointXY p => is_nan (pt_x p) || is_nan (pt_y p)
  | _ => false
  end.

Definition point_eq (a b : QgsPointXY) : bool :=
  ((pt_x a =? pt_x b) && (pt_y a =? pt_y b))%float.

(** JSON text is written with [quoted] for its string literals. *)
Definition quoted (s : string) : string :=
  (PyStr.dquote ++ s ++ PyStr.dquote)%string.

(** A topology with one object [a] of the given type and arc indices,
    over an arc table with the single arc (0,0), (1,0), (1,1), (0,0). *)
Definition topology (geom_type arc_indices : string) : string :=
  ("{" ++ quoted "type" ++ ":" ++ quoted "Topology" ++ ","
   ++ quoted "objects" ++ ":{" ++ quoted "a" ++ ":{"
   ++ quoted "type" ++ ":" ++ quoted geom_type ++ ","
   ++ quoted "arcs" ++ ":" ++ arc_indices ++ "}},"
   ++ quoted "arcs" ++ ":[[[0,0],[1,0],[0,1],[-1,-1]]]}")%string.

(** The same over the arc table with the two arcs (0,0), (1,0), (1,1) and
    (1,1), (2,1), the second starting where the first ends. *)
Definition two_arc_topology (geom_type arc_indices : string) : string :=
  ("{" ++ quoted "type" ++ ":" ++ quoted "Topology" ++ ","
   ++ quoted "objects" ++ ":{" ++ quoted "a" ++ ":{"
   ++ quoted "type" ++ ":" ++ quoted geom_type ++ ","
   ++ quoted "arcs" ++ ":" ++ arc_indices ++ "}},"
   ++ quoted "arcs" ++ ":[[[0,0],[1,0],[0,1]],[[1,1],[1,0]]]}")%string.

Definition platform : Platform :=
  {| json_loads := load;
     json_dumps := fun _ => EmptyString;
     ET_fromstring := fun _ => None;
     float_of_str := fun _ => None;
     isNull := is_null;
     isEmpty := is_empty;
     QgsPointXY_eq := point_eq;
     recursion_limit := 1000 |}.

(** [parse] on this platform, with the default SRID and no coordinate
    pair. *)
Definition run (value format_type : string) : M (option QgsGeometry) :=
  GeometryParser.parse (P := platform) value format_type 4326 None None.

(** The arc (0,0), (1,0), (1,1), (0,0) of [topology], as a ring. *)
Definition unit_triangle : list QgsPointXY :=
  [ mkPointXY 0 0; mkPointXY 1 0; mkPointXY 1 1; mkPointXY 0 0 ]%float.

(** The EWKB of POINT(1 2) with SRID 4326, and the WKB of the point. *)
Definition ewkb_point : string :=
  "0101000020E6100000000000000000F03F0000000000000040".
Definition wkb_point : string :=
  "0101000000000000000000F03F0000000000000040".

End Demo.

(* ===================================================================== *)
(** ** Reading the specification: auxiliary definitions *)
(* ===================================================================== *)

Module Spec.

(** A hexadecimal digit, as the specification uses the word. *)
Definition is_hex_digit (c : ascii) : bool :=
  match PyStr.hex_value c with Some _ => true | None => false end.

Definition hexval (c : ascii) : Z :=
  match PyStr.hex_value c with Some d => d | None => 0 end.

(** The byte that the [i]-th pair of hexadecimal characters encodes. *)
Definition byte_at (i : nat) (t : string) : Z :=
  match String.get (2 * i) t, String.get (2 * i + 1) t with
  | Some a, Some b => 16 * hexval a + hexval b
  | _, _ => 0
  end.

(** The packed geometry-type word: the four bytes after the endianness
    byte, least significant first when that byte is [01], most
    significant first otherwise. *)
Definition type_word (t : string) : Z :=
  if byte_at 0 t =? 1
  then byte_at 1 t + 2 ^ 8 * byte_at 2 t + 2 ^ 16 * byte_at 3 t
       + 2 ^ 24 * byte_at 4 t
  else 2 ^ 24 * byte_at 1 t + 2 ^ 16 * byte_at 2 t + 2 ^ 8 * byte_at 3 t
       + byte_at 4 t.

(** The character right after a keyword is the end of the text, a space,
    an opening parenthesis, [Z] or [M]. *)
Definition follow_accepted (rest : string) : Prop :=
  match rest with
  | EmptyString => True
  | String c _ => c = " "%char \/ c = "("%char \/ c = "Z"%char \/ c = "M"%char
  end.

(** *** Arc resolution, in the words of the specification *)

(** A coordinate delta of an arc: two numbers, and whatever further
    components the position carries. *)
Definition delta : Type := (num * num * list pyval)%type.

(** An arc table as [json.loads] delivers it. *)
Definition embed_delta (d : delta) : pyval :=
  PList (Py.of_num (fst (fst d)) :: Py.of_num (snd (fst d)) :: snd d).
Definition embed_arc (a : list delta) : pyval := PList (map embed_delta a).
Definition embed_table (t : list (list delta)) : pyval := PList (map embed_arc t).

(** Running sums of the successive deltas, started at [(x, y)]. *)
Fixpoint running_sums (x y : num) (deltas : list delta)
    : outcome (list GeometryParser.coord) :=
  match deltas with
  | [] => Return []
  | d :: more =>
      x' <- Py.num_add x (fst (fst d)) ;;
      y' <- Py.num_add y (snd (fst d)) ;;
      sums <- running_sums x' y' more ;;
      Return ((x', y') :: sums)
  end.

(** The absolute points of an arc: running sums from [(0, 0)]. *)
Definition absolute_points (a : list delta) : outcome (list GeometryParser.coord) :=
  running_sums (NInt 0) (NInt 0) a.

(** The arc that the signed reference [r] selects, as it is traversed:
    arc [r] forward when [r] is not negative, arc [-r-1] with its decoded
    points reversed otherwise. *)
Definition traversed (t : list (list delta)) (r : Z)
    : outcome (list GeometryParser.coord) :=
  if 0 <=? r then absolute_points (nth (Z.to_nat r) t [])
  else (points <- absolute_points (nth (Z.to_nat (- r - 1)) t []) ;;
        Return (rev points)).

Definition last_point (l : list GeometryParser.coord) : option GeometryParser.coord :=
  match l with
  | [] => None
  | p :: _ => Some (last l p)
  end.

(** Appending the next arc: when the last accumulated point equals the
    first point of the next arc, that first point is left out. *)
Definition append_arc (acc next : list GeometryParser.coord)
    : list GeometryParser.coord :=
  match last_point acc, hd_error next with
  | Some a, Some b =>
      if GeometryParser.coord_eqb a b then (acc ++ tl next)%list
      else (acc ++ next)%list
  | _, _ => (acc ++ next)%list
  end.

(** The points of one line or ring: the traversed arcs, appended in
    order. *)
Fixpoint line_points (t : list (list delta)) (refs : list Z)
    (acc : list GeometryParser.coord) : outcome (list GeometryParser.coord) :=
  match refs with
  | [] => Return acc
  | r :: more =>
      next <- traversed t r ;;
      line_points t more (append_arc acc next)
  end.

(** The reference [r] selects an arc of a table with [n] arcs. *)
Definition selects_arc (n : Z) (r : Z) : Prop := - n <= r < n.

(** An example table: the arcs (0,0), (1,0), (1,1) and (1,1), (2,1),
    delta-encoded. *)
Definition two_arcs : list (list delta) :=
  [ [ (NInt 0, NInt 0, []); (NInt 1, NInt 0, []); (NInt 0, NInt 1, []) ];
    [ (NInt 1, NInt 1, []); (NInt 1, NInt 0, []) ] ].

(** The arc index that a signed reference resolves to. *)
Definition resolved_index (r : Z) : Z := if 0 <=? r then r else - r - 1.

(** The reference is not an integer, or resolves inside a table of [n]
    arcs. *)
Definition in_table (n : Z) (ref : pyval) : bool :=
  match Py.as_int ref with
  | Some r => (0 <=? resolved_index r) && (resolved_index r <? n)
  | None => true
  end.

(** A line or ring without its out-of-range references; a value that is
    not a list is left as it is. *)
Definition line_without_out_of_range (n : Z) (line : pyval) : pyval :=
  match line with
  | PList refs => PList (filter (in_table n) refs)
  | _ => line
  end.

(** The [arcs] of a LineString, a MultiLineString or a Polygon without
    their out-of-range references, which may stand in the list itself, as
    in the flat list of a LineString, or in its lines or rings. *)
Definition lines_without_out_of_range (n : Z) (arc_indices : pyval) : pyval :=
  match arc_indices with
  | PList items =>
      PList (map (line_without_out_of_range n) (filter (in_table n) items))
  | _ => arc_indices
  end.

(** The [arcs] of a MultiPolygon, a list of polygons, without the
    out-of-range references of each polygon. *)
Definition polygons_without_out_of_range (n : Z) (arc_indices : pyval) : pyval :=
  match arc_indices with
  | PList polygons => PList (map (lines_without_out_of_range n) polygons)
  | _ => arc_indices
  end.

(** The lower-cased type of an object, as the decoder reads it; the
    empty text when the object has none. *)
Definition geom_type_of (d : list (string * pyval)) : string :=
  match Py.assoc "type" d with
  | Some (PStr t) => PyStr.lower t
  | _ => EmptyString
  end.

(** The member [k] of an object of the given type without its
    out-of-range references: the [arcs], and the [geometries] of a
    collection, each of which is cleaned by [clean]. *)
Definition field_without_out_of_range (clean : pyval -> pyval) (n : Z)
    (geom_type : string) (k : string) (v : pyval) : pyval :=
  if String.eqb k "arcs" then
    if String.eqb geom_type "multipolygon"
    then polygons_without_out_of_range n v
    else lines_without_out_of_range n v
  else if String.eqb k "geometries" then
    match v with
    | PList members => PList (map clean members)
    | _ => v
    end
  else v.

(** A TopoJSON object without the out-of-range references of its lines
    and rings, in every member of a collection as well. *)
Fixpoint without_out_of_range (n : Z) (obj : pyval) : pyval :=
  match obj with
  | PDict d =>
      PDict (map (fun kv : string * pyval =>
                    let (k, v) := kv in
                    (k, field_without_out_of_range (without_out_of_range n) n
                          (geom_type_of d) k v)) d)
  | _ => obj
  end.

(** *** The data model *)

Section DataModel.
Context {P : Platform}.

Definition ring_ok (ring : list QgsPointXY) : Prop := (3 <= List.length ring)%nat.
Definition line_ok (line : list QgsPointXY) : Prop := (2 <= List.length line)%nat.
Definition polygon_ok (rings : list (list QgsPointXY)) : Prop :=
  rings <> [] /\ Forall ring_ok rings.

(** What the decoders count before they build a geometry: nothing for a
    point; at least one point in a multipoint; at least two in a line; at
    least one ring, each of at least three points, in a polygon; at least
    one member in a multi-part geometry; for a geometry read by the
    library, that the library reports it neither null nor empty; for a
    union, the same of its two operands.  This is about counts only: it
    does not say that the library reports a built geometry or a union
    neither null nor empty. *)
Fixpoint populated (g : QgsGeometry) : Prop :=
  match g with
  | fromPointXY _ => True
  | fromMultiPointXY points => points <> []
  | fromPolylineXY points => line_ok points
  | fromMultiPolylineXY lines => lines <> [] /\ Forall line_ok lines
  | fromPolygonXY rings => polygon_ok rings
  | fromMultiPolygonXY polygons => polygons <> [] /\ Forall polygon_ok polygons
  | fromWkt _ | fromWkb _ => isNull g = false /\ isEmpty g = false
  | combine a b => populated a /\ populated b
  end.



End DataModel.

(** The conversion of a Python value passed where a double is expected. *)
Definition as_double (v : pyval) : outcome float :=
  match Py.as_num v with
  | Some n => Py.num_as_double n
  | None => Raise TypeError
  end.

(** The closed ring of the bounding box [west, south, east, north]. *)
Definition rectangle (west south east north : float) : QgsGeometry :=
  fromPolygonXY
    [[ mkPointXY west south; mkPointXY east south; mkPointXY east north;
       mkPointXY west north; mkPointXY west south ]].

End Spec.

(* ===================================================================== *)
(** ** GeometryParser.get_geometry_type_from_sample *)
(* ===================================================================== *)

From Stdlib Require Import DecimalString.

(** The values of [QgsWkbTypes] the module names. *)
Module QgsWkbTypes.
Definition Unknown : Z := 0.
Definition Point : Z := 1.
End QgsWkbTypes.

Module GeometryKind.

Section Kind.
Context {P : Platform}.

(** [geom.wkbType()], a method of the library. *)
Variable wkbType : QgsGeometry -> Z.

(** [if geom and not geom.isNull()]: the truth value of a geometry is
    [not isNull()]. *)
Definition usable (geom : option QgsGeometry) : option QgsGeometry :=
  match geom with
  | Some g => if negb (isNull g) && negb (isNull g) then Some g else None
  | None => None
  end.

Fixpoint get_geometry_type_from_sample (samples : list string)
    (format_type : string) : M Z :=
  match samples with
  | [] => ret QgsWkbTypes.Unknown
  | sample :: more =>
      if PyStr.is_empty sample
      then get_geometry_type_from_sample more format_type
      else
        geom <~ GeometryParser.parse sample format_type 4326 None None ;;
        match usable geom with
        | Some g => ret (wkbType g)
        | None => get_geometry_type_from_sample more format_type
        end
  end.

End Kind.
End GeometryKind.

(* ===================================================================== *)
(** ** import_dialog.py: class CSVGeometryImportDialog *)
(* ===================================================================== *)

(** The data handling of the dialog: what it computes from the rows that
    [csv.reader] delivers and from the texts of its widgets.  The widgets
    themselves, the message boxes, the progress bar and the memory layer
    that receives the features are not modelled; a method that reads a
    widget takes its text as an argument, and a method that sets an
    attribute of the dialog returns the value it sets. *)
Module ImportDialog.
Import GeometryFormat.

(** A [QgsFeature] after [setGeometry] and [setAttributes].  The geometry
    [None] is the null geometry [QgsGeometry()]. *)
Record QgsFeature : Type := mkFeature {
  geometry : option QgsGeometry;
  attributes : list string
}.

Section Dialog.
Context {P : Platform}.
Variable wkbType : QgsGeometry -> Z.

(** *** Headers and rows *)

(** [[f'Column_{i+1}' for i in range(n)]] *)
Definition column_names (n : nat) : list string :=
  map (fun i => ("Column_" ++ NilZero.string_of_uint (Nat.to_uint (i + 1)))%string)
      (seq 0 n).

(** [rows[0], rows[1:]] with a header line, generated names and all the
    rows without; the caller has checked that [rows] is not empty. *)
Definition split_header (has_header : bool) (first : list string)
    (rest : list (list string)) : list string * list (list string) :=
  if has_header then (first, rest)
  else (column_names (List.length first), first :: rest).

(** [col in headers] *)
Definition has_column (col : string) (headers : list string) : bool :=
  existsb (String.eqb col) headers.

(** [headers.index(col)], counted from [i], for a [col] that is in
    [headers]; [-1] stands for the [ValueError] of a missing one. *)
Fixpoint index_from (i : Z) (col : string) (headers : list string) : Z :=
  match headers with
  | [] => -1
  | h :: more => if String.eqb h col then i else index_from (i + 1) col more
  end.

(** [headers.index(col) if col in headers else -1] *)
Definition column_index (col : string) (headers : list string) : Z :=
  if has_column col headers then index_from 0 col headers else -1.

(** [enumerate(l)], counted from [i] *)
Fixpoint enumerate_from {A : Type} (i : Z) (l : list A) : list (Z * A) :=
  match l with
  | [] => []
  | a :: more => (i, a) :: enumerate_from (i + 1) more
  end.

(** [row[i] if i < len(row) else ''] for an index [i] that is not
    negative *)
Definition cell_or_empty (row : list string) (i : Z) : string :=
  if i <? Z.of_nat (List.length row) then nth (Z.to_nat i) row "" else "".

(** *** detect_geometry_format *)

(** The loop over the preview rows: the format of the first cell of the
    column that is not empty and is not classified Unknown.  The call of
    [detect_format] is in no [try]: an exception it raises leaves the
    loop. *)
Fixpoint first_detected (col_idx : Z) (preview : list (list string))
    : outcome string :=
  match preview with
  | [] => Return UNKNOWN
  | row :: more =>
      if (col_idx <? Z.of_nat (List.length row))
         && negb (PyStr.is_empty (cell_or_empty row col_idx))
      then
        let sample := cell_or_empty row col_idx in
        detected <- GeometryParser.detect_format sample ;;
        if negb (String.eqb detected UNKNOWN) then Return detected
        else first_detected col_idx more
      else first_detected col_idx more
  end.

(** The new value of [self.detected_format]; [None] when the method
    returns without setting it, an exception when [detect_format] raises
    one, which also leaves the attribute as it was.  [col_name] is the
    text of the geometry column box. *)
Definition detect_geometry_format (col_name : string)
    (csv_headers : list string) (csv_preview_data : list (list string))
    : outcome (option string) :=
  if PyStr.is_empty col_name || negb (has_column col_name csv_headers)
  then Return None
  else
    let col_idx := index_from 0 col_name csv_headers in
    detected <- first_detected col_idx csv_preview_data ;;
    Return (Some detected).

(** *** auto_detect_geometry_column *)

Definition geometry_keywords : list string :=
  [ "geometry"; "geom"; "wkt"; "wkb"; "shape"; "the_geom";
    "geojson"; "geo_json"; "coordinates"; "coord" ].

(** [col.lower() in geometry_keywords or any(kw in col.lower() for kw in
    geometry_keywords)] *)
Definition names_geometry (col : string) : bool :=
  existsb (String.eqb (PyStr.lower col)) geometry_keywords
  || existsb (fun kw => PyStr.contains kw (PyStr.lower col)) geometry_keywords.

(** The second loop: the first column whose cell in the first preview
    row is classified. *)
Fixpoint first_classified (columns : list (Z * string)) (first_row : list string)
    : outcome (option (string * string)) :=
  match columns with
  | [] => Return None
  | (col_idx, col) :: more =>
      if col_idx <? Z.of_nat (List.length first_row) then
        let sample := nth (Z.to_nat col_idx) first_row "" in
        detected <- GeometryParser.detect_format sample ;;
        if negb (String.eqb detected UNKNOWN) then Return (Some (col, detected))
        else first_classified more first_row
      else first_classified more first_row
  end.

(** The column the method selects, [None] when it leaves the box as it
    was, and the format it sets: [None] when it leaves the attribute as
    it was, an exception when [detect_format] raises one.  In the first
    loop the box is set before the format is detected. *)
Definition auto_detect_geometry_column (csv_headers : list string)
    (csv_preview_data : list (list string))
    : option string * outcome (option string) :=
  match find names_geometry csv_headers with
  | Some col => (Some col, detect_geometry_format col csv_headers csv_preview_data)
  | None =>
      match csv_preview_data, csv_headers with
      | first_row :: _, _ :: _ =>
          match first_classified (enumerate_from 0 csv_headers) first_row with
          | Raise e => (None, Raise e)
          | Return (Some (col, detected)) => (Some col, Return (Some detected))
          | Return None => (None, Return None)
          end
      | _, _ => (None, Return None)
      end
  end.

(** *** auto_detect_xy_columns *)

Definition x_keywords : list string :=
  [ "lon"; "longitude"; "lng"; "x"; "long"; "x_coord"; "xcoord"; "easting" ].
Definition y_keywords : list string :=
  [ "lat"; "latitude"; "y"; "y_coord"; "ycoord"; "northing" ].

(** [any(kw == col_lower or kw in col_lower for kw in keywords)] *)
Definition names_any (keywords : list string) (col : string) : bool :=
  let col_lower := PyStr.lower col in
  existsb (fun kw => String.eqb kw col_lower || PyStr.contains kw col_lower)
          keywords.

(** The texts of the X and Y column boxes after the loop, from their
    texts before. *)
Fixpoint auto_detect_xy_columns (csv_headers : list string) (x_column y_column : string)
    : string * string :=
  match csv_headers with
  | [] => (x_column, y_column)
  | col :: more =>
      let x_column := if names_any x_keywords col then col else x_column in
      let y_column := if names_any y_keywords col then col else y_column in
      auto_detect_xy_columns more x_column y_column
  end.

(** *** get_format_to_use *)

Definition get_format_to_use (format_text detected_format : string) : string :=
  if String.eqb format_text "Auto-detect" then detected_format else format_text.

(** *** import_csv *)

(** [i not in (x_idx, y_idx)] for the coordinate pair, [i != geom_col_idx]
    otherwise *)
Definition is_attribute (format_type : string) (x_idx y_idx geom_col_idx i : Z)
    : bool :=
  if String.eqb format_type XY
  then negb ((i =? x_idx) || (i =? y_idx))
  else negb (i =? geom_col_idx).

(** [attribute_headers]: the two comprehensions of the two branches. *)
Definition attribute_headers (format_type : string) (x_idx y_idx geom_col_idx : Z)
    (headers : list string) : list string :=
  if String.eqb format_type XY
  then map snd (filter (fun ih => negb ((fst ih =? x_idx) || (fst ih =? y_idx)))
                       (enumerate_from 0 headers))
  else map snd (filter (fun ih => negb (fst ih =? geom_col_idx))
                       (enumerate_from 0 headers)).

(** The loop [for i, h in enumerate(headers)] that fills [attrs]. *)
Fixpoint row_attributes (format_type : string) (x_idx y_idx geom_col_idx : Z)
    (columns : list (Z * string)) (row : list string) : list string :=
  match columns with
  | [] => []
  | (i, h) :: more =>
      let attrs := row_attributes format_type x_idx y_idx geom_col_idx more row in
      if String.eqb format_type XY then
        if negb ((i =? x_idx) || (i =? y_idx))
        then cell_or_empty row i :: attrs else attrs
      else
        if negb (i =? geom_col_idx)
        then cell_or_empty row i :: attrs else attrs
  end.

(** [float(row[idx]) if idx < len(row) else None]; the outer [None] is
    the [ValueError] of [float]. *)
Definition coordinate_cell (row : list string) (idx : Z) : option (option float) :=
  if idx <? Z.of_nat (List.length row)
  then option_map Some (float_of_str (nth (Z.to_nat idx) row ""))
  else Some None.

(** The geometry of one row; the column indices are not negative. *)
Definition row_geometry (format_type : string) (x_idx y_idx geom_col_idx : Z)
    (row : list string) : M (option QgsGeometry) :=
  if String.eqb format_type XY then
    match coordinate_cell row x_idx with
    | None => ret None
    | Some x_val =>
        match coordinate_cell row y_idx with
        | None => ret None
        | Some y_val =>
            GeometryParser.parse "" format_type 4326 x_val y_val
        end
    end
  else
    let geom_value := cell_or_empty row geom_col_idx in
    GeometryParser.parse geom_value format_type 4326 None None.

(** [geom is None or geom.isNull()] *)
Definition is_invalid (geom : option QgsGeometry) : bool :=
  match geom with
  | None => true
  | Some g => isNull g
  end.

(** The loop over [data_rows]: the features and [invalid_count]. *)
Fixpoint build_features (format_type : string) (skip_invalid : bool)
    (x_idx y_idx geom_col_idx : Z) (headers : list string)
    (data_rows : list (list string)) : M (list QgsFeature * Z) :=
  match data_rows with
  | [] => ret ([], 0)
  | row :: more =>
      geom <~ row_geometry format_type x_idx y_idx geom_col_idx row ;;
      rest <~ build_features format_type skip_invalid x_idx y_idx geom_col_idx
                headers more ;;
      let attrs := row_attributes format_type x_idx y_idx geom_col_idx
                     (enumerate_from 0 headers) row in
      if is_invalid geom then
        if skip_invalid then ret (fst rest, snd rest + 1)
        else ret (mkFeature None attrs :: fst rest, snd rest + 1)
      else ret (mkFeature geom attrs :: fst rest, snd rest)
  end.

(** The loop over [data_rows[:100]] that chooses the geometry type of
    the layer. *)
Fixpoint layer_geometry_type (format_type : string) (geom_col_idx : Z)
    (rows : list (list string)) : M Z :=
  match rows with
  | [] => ret QgsWkbTypes.Unknown
  | row :: more =>
      if String.eqb format_type XY then ret QgsWkbTypes.Point
      else if (geom_col_idx <? Z.of_nat (List.length row))
              && negb (PyStr.is_empty (cell_or_empty row geom_col_idx))
      then
        geom <~ GeometryParser.parse (cell_or_empty row geom_col_idx)
                  format_type 4326 None None ;;
        match GeometryKind.usable geom with
        | Some g => ret (wkbType g)
        | None => layer_geometry_type format_type geom_col_idx more
        end
      else layer_geometry_type format_type geom_col_idx more
  end.

(** What [import_csv] has computed when it creates the layer, or the
    warning it shows instead. *)
Inductive import_result : Type :=
| Warned (message : string)
| Imported (attribute_names : list string) (geom_type : Z)
           (features : list QgsFeature) (invalid_count : Z).

(** [import_csv] on the rows of the file.  [format_type] is the result of
    [get_format_to_use]; [x_col], [y_col] and [geom_col] are the texts of
    the column boxes. *)
Definition import_csv (format_type : string) (has_header skip_invalid : bool)
    (x_col y_col geom_col : string) (rows : list (list string))
    : M import_result :=
  if String.eqb format_type UNKNOWN then
    ret (Warned "Could not detect geometry format. Please select a format manually.")
  else
    match rows with
    | [] => ret (Warned "The CSV file is empty.")
    | first :: rest =>
        let (headers, data_rows) := split_header has_header first rest in
        let x_idx := if String.eqb format_type XY
                     then column_index x_col headers else -1 in
        let y_idx := if String.eqb format_type XY
                     then column_index y_col headers else -1 in
        if String.eqb format_type XY && ((x_idx <? 0) || (y_idx <? 0))
        then ret (Warned "Please select valid X and Y columns.")
        else if negb (String.eqb format_type XY)
                && negb (has_column geom_col headers)
        then ret (Warned "Please select a valid geometry column.")
        else
          let geom_col_idx := if String.eqb format_type XY then -1
                              else index_from 0 geom_col headers in
          let names := attribute_headers format_type x_idx y_idx geom_col_idx
                         headers in
          geom_type <~ layer_geometry_type format_type geom_col_idx
                         (firstn 100 data_rows) ;;
          built <~ build_features format_type skip_invalid x_idx y_idx
                     geom_col_idx headers data_rows ;;
          ret (Imported names geom_type (fst built) (snd built))
    end.

End Dialog.
End ImportDialog.

(* ===================================================================== *)
(** ** Definitions used to state further properties *)
(* ===================================================================== *)

Module Derived.
Import GeometryFormat.

(** The answers of [detect_format]. *)
Definition detectable : list string :=
  [WKT; WKB; EWKT; EWKB; GEOJSON; KML; EARTH_ENGINE; TOPOJSON; UNKNOWN].

(** [key in d] for a dict [d] *)
Definition has_key (key : string) (d : list (string * pyval)) : bool :=
  match Py.assoc key d with Some _ => true | None => false end.

(** The text is an even number of hexadecimal digits. *)
Definition is_hex_text (value : string) : bool :=
  Nat.even (String.length value) && PyStr.all_chars Spec.is_hex_digit value.

(** The document is a GeoJSON Feature: a dict whose [type] is the text
    [Feature]. *)
Definition is_feature (v : pyval) : bool :=
  match v with
  | PDict d => match Py.assoc "type" d with
               | Some ty => Py.eq_str ty "Feature"
               | None => false
               end
  | _ => false
  end.

(** A position cut down to its first two components. *)
Definition xy_only (position : pyval) : pyval :=
  match position with
  | PList l => PList (firstn 2 l)
  | v => v
  end.

(** [f] applied to the values that lie [depth] lists down in [v]. *)
Fixpoint at_depth (depth : nat) (f : pyval -> pyval) (v : pyval) : pyval :=
  match depth with
  | O => f v
  | S d => match v with
           | PList l => PList (map (at_depth d f) l)
           | _ => v
           end
  end.

(** How many lists enclose the positions of a GeoJSON geometry of the
    given lower-cased type. *)
Definition nesting (geom_type : string) : nat :=
  if String.eqb geom_type "point" then 0
  else if String.eqb geom_type "multipoint" || String.eqb geom_type "linestring"
  then 1
  else if String.eqb geom_type "multilinestring" || String.eqb geom_type "polygon"
  then 2
  else 3.

End Derived.

(* ===================================================================== *)
(** ** Sample documents and rows *)
(* ===================================================================== *)

Module Samples.
Import GeometryFormat.

(** [wkbType] on the geometries that the decoders build themselves. *)
Definition kind (g : QgsGeometry) : Z :=
  match g with
  | fromPointXY _ => 1
  | fromPolylineXY _ => 2
  | fromPolygonXY _ => 3
  | fromMultiPointXY _ => 4
  | fromMultiPolylineXY _ => 5
  | fromMultiPolygonXY _ => 6
  | combine _ _ => 7
  | _ => 0
  end.

(** The GeoJSON point (1, 2): the text between its braces, the text, and
    the object that [json.loads] makes of it. *)
Definition point_body : string :=
  (Demo.quoted "type" ++ ":" ++ Demo.quoted "Point" ++ ","
   ++ Demo.quoted "coordinates" ++ ":[1,2]")%string.
Definition point_json : string := String "{" (point_body ++ "}").
Definition point_object : list (string * pyval) :=
  [("type", PStr "Point"); ("coordinates", PList [PInt 1; PInt 2])].

(** A Feature around the point, with a property. *)
Definition feature_json : string :=
  ("{" ++ Demo.quoted "type" ++ ":" ++ Demo.quoted "Feature" ++ ","
   ++ Demo.quoted "properties" ++ ":{" ++ Demo.quoted "name" ++ ":"
   ++ Demo.quoted "here" ++ "},"
   ++ Demo.quoted "geometry" ++ ":" ++ point_json ++ "}")%string.
Definition feature_object : list (string * pyval) :=
  [("type", PStr "Feature");
   ("properties", PDict [("name", PStr "here")]);
   ("geometry", PDict point_object)].

(** The object of [Demo.topology "Polygon" "[[0]]"], and a topology over
    the same arc table whose first object [b] is that object and whose
    second is a point; the dict that [json.loads] makes of a text. *)
Definition ring_object : pyval :=
  PDict [("type", PStr "Polygon"); ("arcs", PList [PList [PInt 0]])].
Definition two_objects : string :=
  ("{" ++ Demo.quoted "bbox" ++ ":[0,0,1,1],"
   ++ Demo.quoted "objects" ++ ":{" ++ Demo.quoted "b" ++ ":{"
   ++ Demo.quoted "type" ++ ":" ++ Demo.quoted "Polygon" ++ ","
   ++ Demo.quoted "arcs" ++ ":[[0]]},"
   ++ Demo.quoted "c" ++ ":" ++ point_json ++ "},"
   ++ Demo.quoted "arcs" ++ ":[[[0,0],[1,0],[0,1],[-1,-1]]]}")%string.
Definition loaded (value : string) : list (string * pyval) :=
  match Demo.loads value with
  | Some (PDict d) => d
  | _ => []
  end.

(** A LineString object with a flat list of two references. *)
Definition line_object : pyval :=
  PDict [("type", PStr "LineString"); ("arcs", PList [PInt 0; PInt 1])].

(** The arc table of [Demo.topology], and the object of
    [Demo.topology "Polygon" "[[0,7]]"], whose ring names an arc that the
    table does not have. *)
Definition triangle_arcs : pyval :=
  PList [PList [PList [PInt 0; PInt 0]; PList [PInt 1; PInt 0];
                PList [PInt 0; PInt 1]; PList [PInt (-1); PInt (-1)]]].
Definition ring_object_out_of_range : pyval :=
  PDict [("type", PStr "Polygon"); ("arcs", PList [PList [PInt 0; PInt 7]])].
Definition ring_topology_out_of_range : list (string * pyval) :=
  [("type", PStr "Topology");
   ("objects", PDict [("a", ring_object_out_of_range)]);
   ("arcs", triangle_arcs)].

(** An integer literal of [n] digits, a JSON object with one of 4301
    digits, and an EWKT text whose SRID has as many: one more than [int]
    converts. *)
Fixpoint ones (n : nat) : string :=
  match n with
  | O => EmptyString
  | S n' => String "1" (ones n')
  end.
Definition long_int_json : string :=
  ("{" ++ Demo.quoted "a" ++ ":" ++ ones 4301 ++ "}")%string.
Definition long_srid_ewkt : string :=
  ("SRID=" ++ ones 4301 ++ ";POINT(1 2)")%string.

(** The GeoJSON point whose coordinates are both [NaN], a literal that
    [json.loads] accepts. *)
Definition nan_point_json : string :=
  ("{" ++ Demo.quoted "type" ++ ":" ++ Demo.quoted "Point" ++ ","
   ++ Demo.quoted "coordinates" ++ ":[NaN,NaN]}")%string.

(** A file with a header line, a row with a point, a row whose geometry
    cell is not JSON, and a row too short for the geometry column; the
    header line has a second column named like the geometry column. *)
Definition csv_rows : list (list string) :=
  [ ["id"; "geometry"; "geometry"];
    ["1"; point_json; "a"];
    ["2"; "nothing"; "b"];
    ["3"] ].

(** What [import_csv] makes of the data rows under the GeoJSON format
    with the first [geometry] column: all three features, and the one
    that is left when invalid rows are skipped. *)
Definition point_feature : ImportDialog.QgsFeature :=
  ImportDialog.mkFeature (Some (fromPointXY (mkPointXY 1 2)%float)) ["1"; "a"].
Definition all_features : list ImportDialog.QgsFeature :=
  [ point_feature;
    ImportDialog.mkFeature None ["2"; "b"];
    ImportDialog.mkFeature None ["3"; ""] ].
Definition import_log : list log_entry :=
  [Warning "GeoJSON parsing error: " (Some JSONDecodeError)].

End Samples.

(* ===================================================================== *)
(** ** Facts about strings *)
(* ===================================================================== *)

Ltac each_char c := destruct c as [[] [] [] [] [] [] [] []].

Section StringFacts.

Lemma prefix_split (p s : string) :
  prefix p s = true -> s = (p ++ PyStr.drop (String.length p) s)%string.
Proof.
  revert s; induction p as [|c p IH]; intros s H.
  - destruct s; reflexivity.
  - destruct s as [|d s]; simpl in H; [discriminate|].
    destruct (ascii_dec c d) as [->|]; [|discriminate].
    simpl. f_equal. apply IH, H.
Qed.

Lemma prefix_all_chars (q : ascii -> bool) (p s : string) :
  prefix p s = true -> PyStr.all_chars q s = true -> PyStr.all_chars q p = true.
Proof.
  revert s; induction p as [|c p IH]; intros s H A; [reflexivity|].
  destruct s as [|d s]; simpl in H; [discriminate|].
  destruct (ascii_dec c d) as [->|]; [|discriminate].
  simpl in *. apply andb_true_iff in A as [A1 A2].
  rewrite A1. simpl. eapply IH; eauto.
Qed.

Lemma contains_all_chars (q : ascii -> bool) (sub s : string) :
  PyStr.contains sub s = true -> PyStr.all_chars q s = true ->
  PyStr.all_chars q sub = true.
Proof.
  induction s as [|d s IH]; intros H A.
  - destruct sub; [reflexivity | discriminate].
  - cbn [PyStr.contains] in H. apply orb_true_iff in H as [H|H].
    + exact (prefix_all_chars q sub _ H A).
    + simpl in A. apply andb_true_iff in A as [_ A]. auto.
Qed.

Lemma all_chars_map (q : ascii -> bool) (f : ascii -> ascii) (s : string) :
  (forall c, q c = true -> q (f c) = true) ->
  PyStr.all_chars q s = true -> PyStr.all_chars q (PyStr.map_chars f s) = true.
Proof.
  intros Hf; induction s as [|c s IH]; simpl; intros A; [reflexivity|].
  apply andb_true_iff in A as [A1 A2]. rewrite (Hf _ A1), (IH A2). reflexivity.
Qed.

Lemma all_chars_ext (q r : ascii -> bool) (s : string) :
  (forall c, q c = r c) -> PyStr.all_chars q s = PyStr.all_chars r s.
Proof.
  intros E; induction s as [|c s IH]; simpl; [reflexivity|].
  now rewrite E, IH.
Qed.

Lemma hex_literal_spec (c : ascii) :
  PyStr.char_in c "0123456789ABCDEFabcdef" = Spec.is_hex_digit c.
Proof. each_char c; reflexivity. Qed.

Lemma hex_upper (c : ascii) :
  Spec.is_hex_digit c = true -> Spec.is_hex_digit (PyStr.upper_char c) = true.
Proof. each_char c; vm_compute; auto. Qed.

Lemma hex_lower (c : ascii) :
  Spec.is_hex_digit c = true -> Spec.is_hex_digit (PyStr.lower_char c) = true.
Proof. each_char c; vm_compute; auto. Qed.

Lemma hex_value_range (c : ascii) (d : Z) :
  PyStr.hex_value c = Some d -> 0 <= d < 16.
Proof.
  intros E; each_char c; vm_compute in E; try discriminate;
    injection E as <-; lia.
Qed.

Lemma hex_value_zero (c : ascii) :
  PyStr.hex_value c = Some 0 -> c = "0"%char.
Proof. each_char c; vm_compute; intros E; try discriminate; reflexivity. Qed.

Lemma hex_value_one (c : ascii) :
  PyStr.hex_value c = Some 1 -> c = "1"%char.
Proof. each_char c; vm_compute; intros E; try discriminate; reflexivity. Qed.

Lemma lower_char_digit (c d : ascii) :
  PyStr.is_digit d = true -> PyStr.lower_char c = d -> c = d.
Proof.
  intros D <-. revert D. each_char c; vm_compute; intros E; try discriminate;
    reflexivity.
Qed.

Lemma follow_ok_spec (rest : string) :
  GeometryParser.wkt_follow_ok rest = true <-> Spec.follow_accepted rest.
Proof.
  destruct rest as [|c r]; simpl; [tauto|].
  split.
  - each_char c; vm_compute; intros E; try discriminate; auto.
  - intros [-> | [-> | [-> | ->]]]; reflexivity.
Qed.

Lemma prefix_nil (s : string) : prefix "" s = true.
Proof. destruct s; reflexivity. Qed.

Lemma substring_0_0 (s : string) : substring 0 0 s = "".
Proof. destruct s; reflexivity. Qed.

Lemma land_bit29 (v : Z) :
  negb (Z.land v 0x20000000 =? 0) = Z.testbit v 29.
Proof.
  change 0x20000000 with (2 ^ 29).
  destruct (Z.testbit v 29) eqn:E.
  - apply negb_true_iff, Z.eqb_neq. intros H0.
    assert (T : Z.testbit (Z.land v (2 ^ 29)) 29 = true).
    { rewrite Z.land_spec, E, Z.pow2_bits_true by lia. reflexivity. }
    rewrite H0, Z.bits_0 in T. discriminate.
  - apply negb_false_iff, Z.eqb_eq, Z.bits_inj'. intros n Hn.
    rewrite Z.land_spec, Z.bits_0.
    destruct (Z.eq_dec n 29) as [->|Hne].
    + rewrite E. reflexivity.
    + rewrite (Z.pow2_bits_false 29 n) by lia. apply andb_false_r.
Qed.

End StringFacts.

(* ===================================================================== *)
(** ** Format detection *)
(* ===================================================================== *)

Section Detection.
Context {P : Platform}.
Import GeometryParser GeometryFormat.

Lemma wkt_loop_none (types : list string) (u : string) :
  (forall k, In k types -> prefix k u = false) -> wkt_loop types u = false.
Proof.
  induction types as [|k types IH]; intros H; [reflexivity|].
  simpl. unfold PyStr.startswith. rewrite (H k) by (left; reflexivity).
  apply IH. intros k' Hk'. apply H. right; exact Hk'.
Qed.

Lemma detect_json_cases (s f : string) :
  detect_json s = Return (Some f) -> f = GEOJSON \/ f = TOPOJSON.
Proof.
  unfold detect_json.
  destruct (PyStr.startswith s "{"); [|discriminate].
  destruct (json_loads s) as [[]|e]; try discriminate.
  - destruct (_ && _); [intros [= <-]; auto|].
    destruct (_ || _); [intros [= <-]; auto|discriminate].
  - destruct (is_JSONDecodeError e); discriminate.
Qed.

(** The JSON step raises only what [json.loads] raises, and never a
    [JSONDecodeError]. *)
Lemma detect_json_raises (s : string) (e : exn) :
  detect_json s = Raise e ->
  json_loads s = Raise e /\ is_JSONDecodeError e = false.
Proof.
  unfold detect_json.
  destruct (PyStr.startswith s "{"); [|discriminate].
  destruct (json_loads s) as [[]|e']; try discriminate.
  - destruct (_ && _); [discriminate|].
    destruct (_ || _); discriminate.
  - destruct (is_JSONDecodeError e') eqn:J; [discriminate|].
    intros [= <-]. auto.
Qed.

Lemma detect_hex_cases (s f : string) :
  detect_hex s = Some f -> f = EWKB \/ f = WKB.
Proof.
  unfold detect_hex.
  destruct (10 <=? String.length s)%nat; [|intros [= <-]; auto].
  destruct (PyStr.int16 _); [|discriminate].
  destruct (if String.eqb _ _ then _ else _); [|discriminate].
  destruct (negb _); intros [= <-]; auto.
Qed.

(** Once the keyword loop has not answered, no later step answers WKT. *)
Lemma later_steps_not_wkt (t : string) :
  match detect_json t with
  | Raise e => Raise e
  | Return (Some fmt) => Return fmt
  | Return None =>
      if detect_kml t then Return KML else
      if PyStr.startswith t "ee.Geometry" then Return EARTH_ENGINE else
      if (2 <=? String.length t)%nat
         && Nat.even (String.length t)
         && PyStr.all_chars
              (fun c => PyStr.char_in c "0123456789ABCDEFabcdef") t
      then match detect_hex t with
           | Some fmt => Return fmt
           | None => Return UNKNOWN
           end
      else Return UNKNOWN
  end <> Return WKT.
Proof.
  destruct (detect_json t) as [[f|]|e] eqn:J.
  - apply detect_json_cases in J as [-> | ->]; discriminate.
  - destruct (detect_kml t); [discriminate|].
    destruct (PyStr.startswith t "ee.Geometry"); [discriminate|].
    destruct (_ && _); [|discriminate].
    destruct (detect_hex t) eqn:X; [|discriminate].
    apply detect_hex_cases in X as [-> | ->]; discriminate.
  - discriminate.
Qed.

Lemma keyword_guard_bool (sample k : string) :
  In k wkt_types ->
  PyStr.startswith (PyStr.upper (PyStr.strip sample)) k = true ->
  (detect_format sample = Return WKT <->
   wkt_follow_ok (PyStr.drop (String.length k)
                    (PyStr.upper (PyStr.strip sample))) = true).
Proof.
  intros Hin Hpre.
  pose proof (prefix_split _ _ Hpre) as Hu.
  pose proof (later_steps_not_wkt (PyStr.strip sample)) as Hlater.
  assert (Hne : forall r, PyStr.is_empty (k ++ r) = false).
  { intros r. simpl in Hin.
    repeat (destruct Hin as [<- | Hin]; [reflexivity|]). contradiction. }
  assert (Ht : PyStr.is_empty (PyStr.strip sample) = false).
  { assert (Hn : PyStr.is_empty (PyStr.upper (PyStr.strip sample)) = false)
      by (rewrite Hu; apply Hne).
    destruct (PyStr.strip sample); [discriminate Hn | reflexivity]. }
  assert (Hs : PyStr.is_empty sample = false).
  { destruct sample; [discriminate Ht | reflexivity]. }
  unfold detect_format. rewrite Hs. cbv zeta. rewrite Ht.
  set (u := PyStr.upper (PyStr.strip sample)) in *.
  set (rest := PyStr.drop (String.length k) u) in *.
  clearbody rest. clearbody u. subst u.
  clear Hne Hpre Ht Hs.
  match type of Hlater with ?X <> _ => set (tail := X) in * end.
  clearbody tail.
  simpl in Hin.
  repeat (destruct Hin as [<- | Hin];
          [ simpl; unfold PyStr.startswith; rewrite prefix_nil;
            destruct (wkt_follow_ok rest);
            [ split; reflexivity
            | split; [intros E; exfalso; exact (Hlater E) | discriminate] ]
          | ]).
  contradiction.
Qed.

(** The string manipulation of the hexadecimal step computes the type
    word of the specification. *)
Lemma detect_hex_spec (t : string) :
  PyStr.all_chars Spec.is_hex_digit t = true ->
  detect_hex t =
  Some (if (10 <=? String.length t)%nat
        then (if Z.testbit (Spec.type_word t) 29 then EWKB else WKB)
        else WKB).
Proof.
  intros A. unfold detect_hex.
  destruct (10 <=? String.length t)%nat eqn:L; [|reflexivity].
  destruct t as [|c0 [|c1 [|c2 [|c3 [|c4 [|c5 [|c6 [|c7 [|c8 [|c9 r]]]]]]]]]];
    try discriminate L.
  clear L. cbn [PyStr.all_chars] in A.
  repeat match type of A with
         | (_ && _ = true) =>
             let H := fresh "H" in
             apply andb_true_iff in A as [H A];
             unfold Spec.is_hex_digit in H
         end.
  clear A.
  destruct (PyStr.hex_value c0) as [h0|] eqn:E0; [clear H|discriminate].
  destruct (PyStr.hex_value c1) as [h1|] eqn:E1; [clear H0|discriminate].
  destruct (PyStr.hex_value c2) as [h2|] eqn:E2; [clear H1|discriminate].
  destruct (PyStr.hex_value c3) as [h3|] eqn:E3; [clear H2|discriminate].
  destruct (PyStr.hex_value c4) as [h4|] eqn:E4; [clear H3|discriminate].
  destruct (PyStr.hex_value c5) as [h5|] eqn:E5; [clear H4|discriminate].
  destruct (PyStr.hex_value c6) as [h6|] eqn:E6; [clear H5|discriminate].
  destruct (PyStr.hex_value c7) as [h7|] eqn:E7; [clear H6|discriminate].
  destruct (PyStr.hex_value c8) as [h8|] eqn:E8; [clear H7|discriminate].
  destruct (PyStr.hex_value c9) as [h9|] eqn:E9; [clear H8|discriminate].
  assert (W : Spec.type_word
                (String c0 (String c1 (String c2 (String c3 (String c4
                (String c5 (String c6 (String c7 (String c8 (String c9 r))))))))))
              = if 16 * h0 + h1 =? 1
                then (16 * h2 + h3) + 2 ^ 8 * (16 * h4 + h5)
                     + 2 ^ 16 * (16 * h6 + h7) + 2 ^ 24 * (16 * h8 + h9)
                else 2 ^ 24 * (16 * h2 + h3) + 2 ^ 16 * (16 * h4 + h5)
                     + 2 ^ 8 * (16 * h6 + h7) + (16 * h8 + h9)).
  { unfold Spec.type_word, Spec.byte_at.
    cbn [String.get Nat.mul Nat.add]. unfold Spec.hexval.
    rewrite E0, E1, E2, E3, E4, E5, E6, E7, E8, E9. reflexivity. }
  rewrite W. clear W.
  cbn [PyStr.slice Nat.sub substring PyStr.lower PyStr.map_chars
       map rev app PyStr.join String.append Nat.add].
  unfold PyStr.int16.
  cbn [PyStr.is_empty PyStr.int16_aux].
  rewrite !substring_0_0.
  cbn [PyStr.int16_aux String.append].
  rewrite E2, E3, E4, E5, E6, E7, E8, E9.
  cbn [PyStr.int16_aux].
  destruct (String.eqb _ "01") eqn:Q.
  - apply String.eqb_eq in Q. injection Q as Q0 Q1.
    apply (lower_char_digit c0 "0" eq_refl) in Q0.
    apply (lower_char_digit c1 "1" eq_refl) in Q1. subst c0 c1.
    vm_compute in E0. vm_compute in E1.
    injection E0 as <-. injection E1 as <-.
    rewrite land_bit29.
    change (16 * 0 + 1 =? 1) with true. cbv iota.
    match goal with
    | |- (if Z.testbit ?a 29 then _ else _)
         = Some (if Z.testbit ?b 29 then _ else _) =>
        replace a with b by ring
    end.
    destruct (Z.testbit _ 29); reflexivity.
  - assert (N : (16 * h0 + h1 =? 1) = false).
    { apply Z.eqb_neq. intros N.
      pose proof (hex_value_range _ _ E0). pose proof (hex_value_range _ _ E1).
      assert (h0 = 0) by lia. assert (h1 = 1) by lia. subst h0 h1.
      apply hex_value_zero in E0. apply hex_value_one in E1. subst c0 c1.
      discriminate Q. }
    rewrite N. rewrite land_bit29.
    match goal with
    | |- (if Z.testbit ?a 29 then _ else _)
         = Some (if Z.testbit ?b 29 then _ else _) =>
        replace a with b by ring
    end.
    destruct (Z.testbit _ 29); reflexivity.
Qed.

(** C6: on a sample whose trimmed, upper-cased text starts with a WKT
    geometry keyword, [detect_format] answers WKT exactly when the
    character after the keyword is the end of the text, a space, an
    opening parenthesis, [Z] or [M]; and ["POINTER(1 2)"] is classified
    Unknown. *)
Theorem wkt_keyword_guard :
  (forall sample k : string,
     In k wkt_types ->
     PyStr.startswith (PyStr.upper (PyStr.strip sample)) k = true ->
     (detect_format sample = Return WKT <->
      Spec.follow_accepted
        (PyStr.drop (String.length k) (PyStr.upper (PyStr.strip sample)))))
  /\ detect_format "POINTER(1 2)" = Return UNKNOWN.
Proof.
  split.
  - intros sample k Hin Hpre.
    rewrite <- follow_ok_spec. apply keyword_guard_bool; assumption.
  - reflexivity.
Qed.

(** C5: a sample whose trimmed text has even length at least 2 and only
    hexadecimal digits is classified WKB or EWKB: with at least 10
    characters it is EWKB exactly when bit [0x20000000] of the type word
    (byte-swapped when the first byte is [01]) is set, and WKB otherwise;
    shorter texts are WKB. *)
Theorem hex_classification (sample : string) :
  (2 <= String.length (PyStr.strip sample))%nat ->
  Nat.even (String.length (PyStr.strip sample)) = true ->
  PyStr.all_chars Spec.is_hex_digit (PyStr.strip sample) = true ->
  detect_format sample =
  Return (if (10 <=? String.length (PyStr.strip sample))%nat
          then (if Z.testbit (Spec.type_word (PyStr.strip sample)) 29
                then EWKB else WKB)
          else WKB).
Proof.
  intros Hlen Heven Hhex.
  assert (Ht : PyStr.is_empty (PyStr.strip sample) = false).
  { destruct (PyStr.strip sample); [simpl in Hlen; lia | reflexivity]. }
  assert (Hs : PyStr.is_empty sample = false).
  { destruct sample; [discriminate Ht | reflexivity]. }
  unfold detect_format. rewrite Hs. cbv zeta. rewrite Ht.
  set (t := PyStr.strip sample) in *. clearbody t.
  assert (Hup : PyStr.all_chars Spec.is_hex_digit (PyStr.upper t) = true)
    by (apply all_chars_map; [exact hex_upper | exact Hhex]).
  assert (Hlo : PyStr.all_chars Spec.is_hex_digit (PyStr.lower t) = true)
    by (apply all_chars_map; [exact hex_lower | exact Hhex]).
  assert (NP : forall p s, PyStr.all_chars Spec.is_hex_digit s = true ->
                           PyStr.all_chars Spec.is_hex_digit p = false ->
                           prefix p s = false).
  { intros p s Hs' Hp. destruct (prefix p s) eqn:E; [|reflexivity].
    rewrite (prefix_all_chars _ _ _ E Hs') in Hp. discriminate. }
  assert (NC : forall p s, PyStr.all_chars Spec.is_hex_digit s = true ->
                           PyStr.all_chars Spec.is_hex_digit p = false ->
                           PyStr.contains p s = false).
  { intros p s Hs' Hp. destruct (PyStr.contains p s) eqn:E; [|reflexivity].
    rewrite (contains_all_chars _ _ _ E Hs') in Hp. discriminate. }
  unfold PyStr.startswith.
  rewrite (NP "SRID=" _ Hup eq_refl).
  rewrite wkt_loop_none.
  2:{ intros k Hk. apply NP; [exact Hup|]. simpl in Hk.
      repeat (destruct Hk as [<- | Hk]; [reflexivity|]). contradiction. }
  unfold detect_json, detect_kml, PyStr.startswith.
  rewrite (NP "{" _ Hhex eq_refl), (NP "<" _ Hhex eq_refl).
  rewrite (NC "<coordinates" _ Hlo eq_refl).
  rewrite (NP "ee.Geometry" _ Hhex eq_refl).
  cbn [orb].
  rewrite (all_chars_ext _ _ t hex_literal_spec), Hhex, Heven.
  replace (2 <=? String.length t)%nat with true
    by (symmetry; apply Nat.leb_le; exact Hlen).
  cbn [andb].
  rewrite (detect_hex_spec t Hhex). reflexivity.
Qed.

End Detection.

(* ===================================================================== *)
(** ** TopoJSON arc resolution *)
(* ===================================================================== *)

Section ArcResolution.
Import GeometryParser.

Lemma as_num_of_num (n : num) : Py.as_num (Py.of_num n) = Some n.
Proof. destruct n; reflexivity. Qed.

Lemma add_of_num (x n : num) : Py.add x (Py.of_num n) = Py.num_add x n.
Proof. unfold Py.add. now rewrite as_num_of_num. Qed.

Lemma getitem_0 (a : pyval) (l : list pyval) :
  Py.getitem (PList (a :: l)) 0 = Return a.
Proof.
  unfold Py.getitem, Py.seq_index. cbn [List.length Z.ltb Z.compare Z.leb].
  replace (0 <? Z.of_nat (S (List.length l))) with true
    by (symmetry; apply Z.ltb_lt; lia).
  reflexivity.
Qed.

Lemma getitem_1 (a b : pyval) (l : list pyval) :
  Py.getitem (PList (a :: b :: l)) 1 = Return b.
Proof.
  unfold Py.getitem, Py.seq_index. cbn [List.length Z.ltb Z.compare Z.leb].
  replace (1 <? Z.of_nat (S (S (List.length l)))) with true
    by (symmetry; apply Z.ltb_lt; lia).
  reflexivity.
Qed.

Lemma len_ge_2 (a b : pyval) (l : list pyval) :
  exists n, Py.len (PList (a :: b :: l)) = Return n /\ (2 <=? n) = true.
Proof.
  eexists; split; [reflexivity|]. apply Z.leb_le. cbn [List.length]. lia.
Qed.

Lemma decode_arc_embed (a : list Spec.delta) (x y : num) :
  decode_arc (map Spec.embed_delta a) x y = Spec.running_sums x y a.
Proof.
  revert x y; induction a as [|[[dx dy] extra] a IH]; intros x y; [reflexivity|].
  cbn [map decode_arc Spec.running_sums fst snd].
  change (Spec.embed_delta (dx, dy, extra))
    with (PList (Py.of_num dx :: Py.of_num dy :: extra)).
  destruct (len_ge_2 (Py.of_num dx) (Py.of_num dy) extra) as (n & Hn & Hle).
  rewrite Hn. cbn [bind]. rewrite Hle.
  rewrite getitem_0, getitem_1. cbn [bind]. rewrite !add_of_num.
  destruct (Py.num_add x dx) as [x'|]; [|reflexivity].
  cbn [bind]. destruct (Py.num_add y dy) as [y'|]; [|reflexivity].
  cbn [bind]. rewrite IH. reflexivity.
Qed.

Lemma getitem_embed_table (t : list (list Spec.delta)) (i : Z) :
  0 <= i < Z.of_nat (List.length t) ->
  Py.getitem (Spec.embed_table t) i
  = Return (Spec.embed_arc (nth (Z.to_nat i) t [])).
Proof.
  intros Hi. unfold Spec.embed_table, Py.getitem, Py.seq_index.
  rewrite length_map.
  replace (i <? 0) with false by (symmetry; apply Z.ltb_ge; lia).
  replace (0 <=? i) with true by (symmetry; apply Z.leb_le; lia).
  replace (i <? Z.of_nat (List.length t)) with true
    by (symmetry; apply Z.ltb_lt; lia).
  cbn [andb].
  rewrite nth_error_map.
  destruct (nth_error t (Z.to_nat i)) as [a|] eqn:E.
  - rewrite (nth_error_nth _ _ _ E). reflexivity.
  - apply nth_error_None in E. lia.
Qed.

Lemma extend_at_junction_spec (coords decoded : list coord) :
  extend_at_junction coords decoded = Spec.append_arc coords decoded.
Proof.
  unfold extend_at_junction, Spec.append_arc, Spec.last_point.
  destruct coords as [|c coords]; [reflexivity|].
  destruct decoded as [|d decoded]; reflexivity.
Qed.

Lemma resolve_refs_spec (t : list (list Spec.delta)) (refs : list Z)
    (acc : list coord) :
  Forall (Spec.selects_arc (Z.of_nat (List.length t))) refs ->
  resolve_refs (Spec.embed_table t) (map PInt refs) acc
  = Spec.line_points t refs acc.
Proof.
  intros H; revert acc; induction H as [|r refs Hr _ IH]; intros acc;
    [reflexivity|].
  unfold Spec.selects_arc in Hr.
  cbn [map resolve_refs Py.as_int Spec.line_points].
  assert (L : Py.len (Spec.embed_table t) = Return (Z.of_nat (List.length t))).
  { unfold Spec.embed_table, Py.len. now rewrite length_map. }
  rewrite L. cbn [bind].
  unfold Spec.traversed.
  destruct (0 <=? r) eqn:S.
  - pose proof S as S0. apply Z.leb_le in S. cbv zeta. rewrite S0.
    replace (r <? Z.of_nat (List.length t)) with true
      by (symmetry; apply Z.ltb_lt; lia).
    cbn [andb]. rewrite getitem_embed_table by lia.
    cbn [bind Spec.embed_arc Py.copy_slice Py.iter].
    rewrite decode_arc_embed. unfold Spec.absolute_points.
    destruct (Spec.running_sums _ _ _) as [pts|]; [|reflexivity].
    cbn [bind]. replace (r <? 0) with false by (symmetry; apply Z.ltb_ge; lia).
    rewrite extend_at_junction_spec. apply IH.
  - apply Z.leb_gt in S.
    assert (E : Z.lnot r = - r - 1) by (unfold Z.lnot; lia).
    rewrite E.
    replace (0 <=? - r - 1) with true by (symmetry; apply Z.leb_le; lia).
    replace (- r - 1 <? Z.of_nat (List.length t)) with true
      by (symmetry; apply Z.ltb_lt; lia).
    cbn [andb]. rewrite getitem_embed_table by lia.
    cbn [bind Spec.embed_arc Py.copy_slice Py.iter].
    rewrite decode_arc_embed. unfold Spec.absolute_points.
    destruct (Spec.running_sums _ _ _) as [pts|]; [|reflexivity].
    cbn [bind]. replace (r <? 0) with true by (symmetry; apply Z.ltb_lt; lia).
    rewrite extend_at_junction_spec. apply IH.
Qed.

(** For an arc table and the signed references of one line or ring given
    as a list of their own, each selecting an arc of the table,
    [_resolve_arcs] yields the points the specification describes:
    reference [i >= 0] is arc [i] forward, reference [r < 0] is arc [-r-1]
    with its decoded running sums reversed, and an arc whose first point
    equals the last accumulated point is appended without that first
    point. *)
Lemma resolve_arcs_line (t : list (list Spec.delta)) (refs : list Z) :
  Forall (Spec.selects_arc (Z.of_nat (List.length t))) refs ->
  _resolve_arcs (PList [PList (map PInt refs)]) (Spec.embed_table t)
  = (points <- Spec.line_points t refs [] ;;
     Return (if nonempty points then [points] else [])).
Proof.
  intros H. unfold _resolve_arcs.
  cbn [Py.iter bind resolve_groups Py.is_int Py.as_int].
  rewrite (resolve_refs_spec t refs [] H).
  destruct (Spec.line_points t refs []); reflexivity.
Qed.

Lemma lnot_resolved (r : Z) :
  (if 0 <=? r then r else Z.lnot r) = Spec.resolved_index r.
Proof. unfold Spec.resolved_index, Z.lnot. destruct (0 <=? r); lia. Qed.

Lemma resolve_refs_filter (arcs : pyval) (n : Z) (refs : list pyval)
    (acc : list coord) :
  Py.len arcs = Return n ->
  resolve_refs arcs refs acc
  = resolve_refs arcs (filter (Spec.in_table n) refs) acc.
Proof.
  intros L; revert acc; induction refs as [|ref refs IH]; intros acc;
    [reflexivity|].
  cbn [filter]. unfold Spec.in_table at 1.
  cbn [resolve_refs]. destruct (Py.as_int ref) as [r|] eqn:A.
  - cbv zeta. rewrite lnot_resolved, L. cbn [bind].
    destruct ((0 <=? Spec.resolved_index r) && (Spec.resolved_index r <? n))
      eqn:R.
    + cbn [resolve_refs]. rewrite A. cbv zeta.
      rewrite lnot_resolved, L. cbn [bind]. rewrite R.
      destruct (Py.getitem arcs _) as [arc|]; [|reflexivity]. cbn [bind].
      destruct (Py.copy_slice arc) as [ac|]; [|reflexivity]. cbn [bind].
      destruct (Py.iter ac) as [pts|]; [|reflexivity]. cbn [bind].
      destruct (decode_arc pts _ _) as [dec|]; [|reflexivity]. cbn [bind].
      apply IH.
    + apply IH.
  - cbn [resolve_refs]. rewrite A. apply IH.
Qed.

(** The loop over the references of one group looks at the integers
    only: it does not see a change of the other members. *)
Lemma resolve_refs_map (f : pyval -> pyval) (arcs : pyval)
    (refs : list pyval) (acc : list coord) :
  (forall x, Py.as_int (f x) = Py.as_int x) ->
  resolve_refs arcs (map f refs) acc = resolve_refs arcs refs acc.
Proof.
  intros Hf; revert acc; induction refs as [|ref refs IH]; intros acc;
    [reflexivity|].
  cbn [map resolve_refs]. rewrite Hf.
  destruct (Py.as_int ref) as [r|]; [|apply IH]. cbv zeta.
  destruct (Py.len arcs) as [n|]; [|reflexivity]. cbn [bind].
  destruct ((0 <=? _) && (_ <? n)); [|apply IH].
  destruct (Py.getitem arcs _) as [arc|]; [|reflexivity]. cbn [bind].
  destruct (Py.copy_slice arc) as [ac|]; [|reflexivity]. cbn [bind].
  destruct (Py.iter ac) as [pts|]; [|reflexivity]. cbn [bind].
  destruct (decode_arc pts _ _) as [dec|]; [|reflexivity]. cbn [bind].
  apply IH.
Qed.

Lemma as_int_line_without (n : Z) (x : pyval) :
  Py.as_int (Spec.line_without_out_of_range n x) = Py.as_int x.
Proof. destruct x; reflexivity. Qed.

Lemma as_int_lines_without (n : Z) (x : pyval) :
  Py.as_int (Spec.lines_without_out_of_range n x) = Py.as_int x.
Proof. destruct x; reflexivity. Qed.

(** Every reference of the list being a group of its own, as in the flat
    list of a LineString and in the second pass of the multipolygon
    branch, the out-of-range ones resolve to nothing. *)
Lemma resolve_groups_filter (arcs : pyval) (n : Z) (refs : list pyval) :
  Py.len arcs = Return n ->
  resolve_groups arcs refs = resolve_groups arcs (filter (Spec.in_table n) refs).
Proof.
  intros L. induction refs as [|ref refs IH]; [reflexivity|].
  cbn [filter]. destruct (Spec.in_table n ref) eqn:T.
  - cbn [resolve_groups]. rewrite IH. reflexivity.
  - unfold Spec.in_table in T. cbn [resolve_groups]. unfold Py.is_int.
    destruct (Py.as_int ref) as [r|] eqn:A; [|discriminate T].
    cbn [resolve_refs]. rewrite A. cbv zeta.
    rewrite lnot_resolved, L. cbn [bind]. rewrite T.
    cbn [resolve_refs bind nonempty]. rewrite <- IH.
    destruct (resolve_groups arcs refs); reflexivity.
Qed.

(** Each group that is a list resolves to what it resolves to without
    its out-of-range references. *)
Lemma resolve_groups_lines (arcs : pyval) (n : Z) (groups : list pyval) :
  Py.len arcs = Return n ->
  resolve_groups arcs (map (Spec.line_without_out_of_range n) groups)
  = resolve_groups arcs groups.
Proof.
  intros L. induction groups as [|g groups IH]; [reflexivity|].
  cbn [map resolve_groups]. unfold Py.is_int.
  rewrite as_int_line_without.
  destruct g as [| | | | |refs|]; cbn [Spec.line_without_out_of_range Py.as_int];
    try (rewrite IH; reflexivity).
  rewrite <- (resolve_refs_filter arcs n refs [] L), IH. reflexivity.
Qed.

Lemma resolve_arcs_lines (arcs : pyval) (n : Z) (arc_indices : pyval) :
  Py.len arcs = Return n ->
  _resolve_arcs (Spec.lines_without_out_of_range n arc_indices) arcs
  = _resolve_arcs arc_indices arcs.
Proof.
  intros L. destruct arc_indices as [| | | | |items|]; try reflexivity.
  unfold _resolve_arcs. cbn [Spec.lines_without_out_of_range Py.iter bind].
  rewrite (resolve_groups_lines arcs n _ L).
  symmetry. apply resolve_groups_filter; exact L.
Qed.

(** The first pass over the polygons of a multipolygon takes each polygon
    for a group, and the rings of the polygon for its references. *)
Lemma resolve_groups_polygons (arcs : pyval) (n : Z) (polygons : list pyval) :
  Py.len arcs = Return n ->
  resolve_groups arcs (map (Spec.lines_without_out_of_range n) polygons)
  = resolve_groups arcs polygons.
Proof.
  intros L. induction polygons as [|g polygons IH]; [reflexivity|].
  cbn [map resolve_groups]. unfold Py.is_int.
  rewrite as_int_lines_without.
  destruct g as [| | | | |items|];
    cbn [Spec.lines_without_out_of_range Py.as_int];
    try (rewrite IH; reflexivity).
  rewrite (resolve_refs_map _ arcs _ [] (as_int_line_without n)).
  rewrite <- (resolve_refs_filter arcs n items [] L), IH. reflexivity.
Qed.

Lemma resolve_arcs_polygons (arcs : pyval) (n : Z) (arc_indices : pyval) :
  Py.len arcs = Return n ->
  _resolve_arcs (Spec.polygons_without_out_of_range n arc_indices) arcs
  = _resolve_arcs arc_indices arcs.
Proof.
  intros L. destruct arc_indices as [| | | | |polygons|]; try reflexivity.
  unfold _resolve_arcs. cbn [Spec.polygons_without_out_of_range Py.iter bind].
  apply resolve_groups_polygons; exact L.
Qed.

Lemma topo_polygons_lines (arcs : pyval) (n : Z) (polygons : list pyval) :
  Py.len arcs = Return n ->
  topo_polygons arcs (map (Spec.lines_without_out_of_range n) polygons)
  = topo_polygons arcs polygons.
Proof.
  intros L. induction polygons as [|g polygons IH]; [reflexivity|].
  cbn [map topo_polygons].
  rewrite (resolve_arcs_lines arcs n g L), IH. reflexivity.
Qed.

(** Looking a key up in an object whose members were changed one by one. *)
Lemma assoc_map_fields (g : string -> pyval -> pyval) (key : string)
    (d : list (string * pyval)) :
  Py.assoc key (map (fun kv : string * pyval => let (k, v) := kv in (k, g k v)) d)
  = option_map (g key) (Py.assoc key d).
Proof.
  induction d as [|[k v] d IH]; [reflexivity|].
  cbn [map Py.assoc]. destruct (String.eqb k key) eqn:E.
  - apply String.eqb_eq in E. subst k. reflexivity.
  - exact IH.
Qed.

Lemma get_map_fields (g : string -> pyval -> pyval) (key : string)
    (d : list (string * pyval)) (default : pyval) :
  g key default = default ->
  Py.get (PDict (map (fun kv : string * pyval =>
                        let (k, v) := kv in (k, g k v)) d)) key default
  = (v <- Py.get (PDict d) key default ;; Return (g key v)).
Proof.
  intros Hd. cbn [Py.get bind]. rewrite assoc_map_fields.
  destruct (Py.assoc key d); cbn [option_map]; [reflexivity|].
  now rewrite Hd.
Qed.

Lemma topo_members_map {P : Platform} (f : pyval -> pyval)
    (resolve : pyval -> outcome (option QgsGeometry)) (members : list pyval) :
  (forall g, resolve (f g) = resolve g) ->
  topo_members resolve (map f members) = topo_members resolve members.
Proof.
  intros H. induction members as [|g members IH]; [reflexivity|].
  cbn [map topo_members]. rewrite H, IH. reflexivity.
Qed.

(** The branch of the lines and polygons reads the [arcs] of the object
    only. *)
Lemma topo_arcs_geometry_without (clean : pyval -> pyval) (geom_type : string)
    (d : list (string * pyval)) (arcs : pyval) (n : Z) :
  Py.len arcs = Return n ->
  topo_arcs_geometry geom_type
    (PDict (map (fun kv : string * pyval =>
                   let (k, v) := kv in
                   (k, Spec.field_without_out_of_range clean n geom_type k v)) d))
    arcs
  = topo_arcs_geometry geom_type (PDict d) arcs.
Proof.
  intros L. unfold topo_arcs_geometry.
  rewrite (get_map_fields (Spec.field_without_out_of_range clean n geom_type))
    by (unfold Spec.field_without_out_of_range; cbn [String.eqb Ascii.eqb Bool.eqb];
        destruct (String.eqb geom_type "multipolygon"); reflexivity).
  destruct (Py.get (PDict d) "arcs" (PList [])) as [arc_indices|]; [|reflexivity].
  cbn [bind]. unfold Spec.field_without_out_of_range.
  cbn [String.eqb Ascii.eqb Bool.eqb].
  destruct (String.eqb geom_type "multipolygon") eqn:MP.
  - rewrite (resolve_arcs_polygons arcs n arc_indices L).
    destruct (_resolve_arcs arc_indices arcs) as [resolved|]; [|reflexivity].
    cbn [bind].
    destruct (String.eqb geom_type "linestring" && nonempty resolved);
      [reflexivity|].
    destruct (String.eqb geom_type "multilinestring" && nonempty resolved);
      [reflexivity|].
    destruct (String.eqb geom_type "polygon" && nonempty resolved);
      [reflexivity|].
    destruct (true && nonempty resolved); [|reflexivity].
    destruct arc_indices as [| | | | |polygons|]; try reflexivity.
    cbn [Spec.polygons_without_out_of_range Py.iter bind].
    rewrite (topo_polygons_lines arcs n polygons L). reflexivity.
  - rewrite (resolve_arcs_lines arcs n arc_indices L).
    destruct (_resolve_arcs arc_indices arcs) as [resolved|]; reflexivity.
Qed.

(** The first pass of [_resolve_arcs] over the arc indices of a
    multipolygon, polygons of rings of references, finds no integer at
    the level where it looks for references, and resolves nothing. *)
Lemma resolve_refs_lists (arcs : pyval) (rings : list (list pyval))
    (acc : list coord) :
  resolve_refs arcs (map PList rings) acc = Return acc.
Proof.
  induction rings as [|ring rings IH]; [reflexivity|]. exact IH.
Qed.

Lemma resolve_arcs_multipolygon (arcs : pyval)
    (polygons : list (list (list pyval))) :
  _resolve_arcs (PList (map (fun poly => PList (map PList poly)) polygons)) arcs
  = Return [].
Proof.
  unfold _resolve_arcs. cbn [Py.iter bind].
  induction polygons as [|poly polygons IH]; [reflexivity|].
  cbn [map resolve_groups Py.is_int Py.as_int].
  rewrite resolve_refs_lists. cbn [bind nonempty]. rewrite IH. reflexivity.
Qed.

(** So no multipolygon with polygons of rings of references is ever
    decoded, whatever the arc table holds. *)
Lemma multipolygon_never_decodes (obj arcs : pyval)
    (polygons : list (list (list pyval))) :
  Py.get obj "arcs" (PList [])
  = Return (PList (map (fun poly => PList (map PList poly)) polygons)) ->
  topo_arcs_geometry "multipolygon" obj arcs = Return None.
Proof.
  intros G. unfold topo_arcs_geometry. rewrite G. cbn [bind].
  rewrite resolve_arcs_multipolygon. reflexivity.
Qed.

Lemma geom_type_read (d : list (string * pyval)) (geom_type : string) :
  (t <- Py.get (PDict d) "type" (PStr EmptyString) ;; Py.lower t)
  = Return geom_type ->
  geom_type = Spec.geom_type_of d.
Proof.
  unfold Spec.geom_type_of. cbn [Py.get bind].
  destruct (Py.assoc "type" d) as [[| | | |t| |]|]; cbn [Py.lower];
    intros H; inversion H; reflexivity.
Qed.

Lemma resolve_topojson_geometry_at_without {P : Platform} (arcs : pyval) (n : Z)
    (depth : nat) :
  Py.len arcs = Return n ->
  forall obj,
    _resolve_topojson_geometry_at depth (Spec.without_out_of_range n obj) arcs
    = _resolve_topojson_geometry_at depth obj arcs.
Proof.
  intros L. induction depth as [|depth IH]; intros obj; [reflexivity|].
  destruct obj as [| | | | | |d]; try reflexivity.
  cbn [Spec.without_out_of_range].
  set (clean := Spec.field_without_out_of_range (Spec.without_out_of_range n) n
                  (Spec.geom_type_of d)).
  assert (T : forall key default,
             String.eqb key "arcs" = false ->
             String.eqb key "geometries" = false ->
             Py.get (PDict (map (fun kv : string * pyval =>
                                   let (k, v) := kv in (k, clean k v)) d))
               key default
             = Py.get (PDict d) key default).
  { intros key default H1 H2. cbn [Py.get]. rewrite assoc_map_fields.
    destruct (Py.assoc key d); cbn [option_map]; [|reflexivity].
    unfold clean, Spec.field_without_out_of_range. rewrite H1, H2. reflexivity. }
  cbn [_resolve_topojson_geometry_at].
  rewrite !T by reflexivity.
  pose proof (geom_type_read d) as G. cbn [bind] in G.
  destruct (Py.get (PDict d) "type" (PStr EmptyString)) as [t|]; [|reflexivity].
  cbn [bind] in G |- *.
  destruct (Py.lower t) as [geom_type|]; [|reflexivity]. cbn [bind].
  specialize (G geom_type eq_refl).
  destruct (String.eqb geom_type "point"); [reflexivity|].
  destruct (String.eqb geom_type "multipoint"); [reflexivity|].
  destruct (existsb _ arc_types).
  - unfold clean. rewrite <- G.
    apply topo_arcs_geometry_without; exact L.
  - destruct (String.eqb geom_type "geometrycollection"); [|reflexivity].
    rewrite (get_map_fields clean) by reflexivity.
    destruct (Py.get (PDict d) "geometries" (PList [])) as [geometries|];
      [|reflexivity].
    cbn [bind]. unfold clean, Spec.field_without_out_of_range.
    cbn [String.eqb Ascii.eqb Bool.eqb].
    destruct geometries as [| | | | |members|]; try reflexivity.
    cbn [Py.iter bind].
    rewrite (topo_members_map (Spec.without_out_of_range n)); [reflexivity|].
    intros g. apply IH.
Qed.

(** Every TopoJSON object decodes to what it decodes to without the
    out-of-range references of its lines and rings. *)
Lemma resolve_topojson_geometry_without {P : Platform} (obj arcs : pyval)
    (n : Z) :
  Py.len arcs = Return n ->
  _resolve_topojson_geometry (Spec.without_out_of_range n obj) arcs
  = _resolve_topojson_geometry obj arcs.
Proof.
  intros L. unfold _resolve_topojson_geometry.
  apply resolve_topojson_geometry_at_without; exact L.
Qed.

End ArcResolution.

(* ===================================================================== *)
(** ** Results and the log: inversion lemmas *)
(* ===================================================================== *)

Section MonadFacts.

Lemma bind_inv {A B : Type} (m : outcome A) (k : A -> outcome B) (b : B) :
  bind m k = Return b -> exists a, m = Return a /\ k a = Return b.
Proof. destruct m as [a|e]; cbn; [eauto | discriminate]. Qed.

Lemma bindM_inv {A B : Type} (m : M A) (k : A -> M B) (log : list log_entry)
    (b : B) :
  bindM m k = (log, Return b) ->
  exists l1 a l2, m = (l1, Return a) /\ k a = (l2, Return b)
                  /\ log = (l1 ++ l2)%list.
Proof.
  destruct m as [l1 [a|e]]; cbn; [|discriminate].
  destruct (k a) as [l2 r] eqn:K. intros [= <- ->]. eauto 6.
Qed.

Lemma lift_inv {A : Type} (m : outcome A) (log : list log_entry) (a : A) :
  lift m = (log, Return a) -> m = Return a /\ log = [].
Proof. unfold lift. intros [= <- ->]. auto. Qed.

Lemma ret_inv {A : Type} (a b : A) (log : list log_entry) :
  ret a = (log, Return b) -> a = b /\ log = [].
Proof. unfold ret. intros [= <- ->]. auto. Qed.

Lemma try_except_inv {A : Type} (body : M A) (catches : exn -> bool)
    (handler : exn -> M A) (log : list log_entry) (a : A) :
  try_except body catches handler = (log, Return a) ->
  body = (log, Return a)
  \/ exists l1 e l2, body = (l1, Raise e) /\ catches e = true
                     /\ handler e = (l2, Return a) /\ log = (l1 ++ l2)%list.
Proof.
  destruct body as [l1 [x|e]]; cbn.
  - intros [= <- <-]. auto.
  - destruct (catches e) eqn:C; [|discriminate].
    destruct (handler e) as [l2 r] eqn:H. intros [= <- ->].
    right. exists l1, e, l2. auto.
Qed.

(** A handler that logs and returns [None] never yields a geometry. *)
Lemma log_none_inv (text : string) (cause : option exn)
    (log : list log_entry) (g : QgsGeometry) :
  (logMessage text cause ;;; ret None) = (log, Return (Some g)) -> False.
Proof. cbn. discriminate. Qed.

(** A [try] with a logging handler either returns what its body returns
    or [None]. *)
Lemma try_log_inv (body : M (option QgsGeometry)) (catches : exn -> bool)
    (text : string) (log : list log_entry) (g : QgsGeometry) :
  try_except body catches
    (fun e => logMessage text (Some e) ;;; ret None) = (log, Return (Some g)) ->
  body = (log, Return (Some g)).
Proof.
  intros H. apply try_except_inv in H as [H | (l1 & e & l2 & _ & _ & H & _)];
    [exact H|]. exfalso. exact (log_none_inv _ _ _ _ H).
Qed.

(** A [try] that catches every exception and logs never raises. *)
Lemma try_all_returns {A : Type} (body : M (option A)) (text : string) :
  exists log r,
    try_except body (fun _ => true)
      (fun e => logMessage text (Some e) ;;; ret None) = (log, Return r).
Proof. destruct body as [l [a|e]]; cbn; eauto. Qed.

End MonadFacts.

Ltac inv_bind H :=
  let a := fresh "v" in
  let E := fresh "E" in
  apply bind_inv in H as (a & E & H).

Ltac inv_bindM H :=
  let l1 := fresh "l" in
  let l2 := fresh "l" in
  let a := fresh "v" in
  let E := fresh "E" in
  apply bindM_inv in H as (l1 & a & l2 & E & H & ->).

(* ===================================================================== *)
(** ** Every decoded geometry is populated *)
(* ===================================================================== *)

(** Takes a hypothesis [H : <computation> = Return _] apart, one bind or
    one conditional at a time. *)
Ltac crunch H :=
  repeat
    (match type of H with
     | bind _ _ = Return _ => inv_bind H
     | (if ?c then _ else _) = _ => destruct c eqn:?
     | Return _ = Return _ => injection H as H
     | Raise _ = Return _ => discriminate H
     | None = Some _ => discriminate H
     | Some _ = Some _ => injection H as H
     end).

Section Populated.
Context {P : Platform}.
Import GeometryParser.

Lemma len_ge_nat {A : Type} (l : list A) (k : nat) :
  len_ge l (Z.of_nat k) = true -> (k <= List.length l)%nat.
Proof. unfold len_ge. intros H. apply Z.leb_le in H. lia. Qed.

Lemma nonempty_neq {A : Type} (l : list A) : nonempty l = true -> l <> [].
Proof. destruct l; [discriminate | intros _; discriminate]. Qed.

Lemma collect_ok (least : Z) (groups : list pyval) (kept : list (list QgsPointXY)) :
  collect least groups = Return kept ->
  Forall (fun l => len_ge l least = true) kept.
Proof.
  revert kept; induction groups as [|g groups IH]; cbn [collect]; intros kept H.
  - crunch H. subst. constructor.
  - crunch H; subst; [constructor; auto | auto].
Qed.

Lemma collect_coords_ok (least : Z) (groups : list (list coord))
    (kept : list (list QgsPointXY)) :
  collect_coords least groups = Return kept ->
  Forall (fun l => len_ge l least = true) kept.
Proof.
  revert kept; induction groups as [|g groups IH]; cbn [collect_coords];
    intros kept H.
  - crunch H. subst. constructor.
  - crunch H; subst; [constructor; auto | auto].
Qed.

Lemma rings_ok (kept : list (list QgsPointXY)) :
  Forall (fun l => len_ge l 3 = true) kept -> Forall Spec.ring_ok kept.
Proof. apply Forall_impl. intros l. apply (len_ge_nat l 3). Qed.

Lemma lines_ok (kept : list (list QgsPointXY)) :
  Forall (fun l => len_ge l 2 = true) kept -> Forall Spec.line_ok kept.
Proof. apply Forall_impl. intros l. apply (len_ge_nat l 2). Qed.

Lemma polygons_of_ok (polys : list pyval)
    (kept : list (list (list QgsPointXY))) :
  polygons_of polys = Return kept -> Forall Spec.polygon_ok kept.
Proof.
  revert kept; induction polys as [|p polys IH]; cbn [polygons_of];
    intros kept H.
  - crunch H. subst. constructor.
  - crunch H; subst; [|auto].
    constructor; [|auto]. split; [apply nonempty_neq; assumption|].
    apply rings_ok. eapply collect_ok; eassumption.
Qed.

Lemma topo_polygons_ok (arcs : pyval) (polys : list pyval)
    (kept : list (list (list QgsPointXY))) :
  topo_polygons arcs polys = Return kept -> Forall Spec.polygon_ok kept.
Proof.
  revert kept; induction polys as [|p polys IH]; cbn [topo_polygons];
    intros kept H.
  - crunch H. subst. constructor.
  - crunch H; subst; [|auto].
    constructor; [|auto]. split; [apply nonempty_neq; assumption|].
    apply rings_ok. eapply collect_coords_ok; eassumption.
Qed.

Lemma geojson_simple_ok (geom_type : string) (coords : pyval) (g : QgsGeometry) :
  geojson_simple geom_type coords = Return (Some g) -> Spec.populated g.
Proof.
  unfold geojson_simple. intros H. crunch H; subst; cbn [Spec.populated].
  - exact I.
  - apply nonempty_neq; assumption.
  - apply (len_ge_nat _ 2); assumption.
  - split; [apply nonempty_neq; assumption|].
    apply lines_ok. eapply collect_ok; eassumption.
  - split; [apply nonempty_neq; assumption|].
    apply rings_ok. eapply collect_ok; eassumption.
  - split; [apply nonempty_neq; assumption|].
    eapply polygons_of_ok; eassumption.
Qed.

Lemma fold_combine_ok (more : list QgsGeometry) (g : QgsGeometry) :
  Spec.populated g -> Forall Spec.populated more ->
  Spec.populated (fold_left combine more g).
Proof.
  revert g; induction more as [|h more IH]; intros g Hg Hm; [exact Hg|].
  inversion Hm; subst. cbn [fold_left]. apply IH; [split|]; assumption.
Qed.

Lemma combine_all_ok (geom_list : list QgsGeometry) (g : QgsGeometry) :
  Forall Spec.populated geom_list -> combine_all geom_list = Some g ->
  Spec.populated g.
Proof.
  destruct geom_list as [|h more]; [discriminate|].
  intros F [= <-]. inversion F; subst. apply fold_combine_ok; assumption.
Qed.

Lemma append_if_ok (parsed : option QgsGeometry) (geom_list : list QgsGeometry) :
  (forall g, parsed = Some g -> Spec.populated g) ->
  Forall Spec.populated geom_list ->
  Forall Spec.populated (append_if parsed geom_list).
Proof.
  intros Hp Hl. unfold append_if. destruct parsed as [g|]; [|exact Hl].
  destruct (negb (isNull g)); [constructor; auto | exact Hl].
Qed.

Lemma geojson_members_ok (decode : pyval -> M (option QgsGeometry))
    (geometries : list pyval) (log : list log_entry)
    (geom_list : list QgsGeometry) :
  (forall g l q, decode g = (l, Return (Some q)) -> Spec.populated q) ->
  geojson_members decode geometries = (log, Return geom_list) ->
  Forall Spec.populated geom_list.
Proof.
  intros Hd. revert log geom_list.
  induction geometries as [|g geometries IH]; cbn [geojson_members];
    intros log geom_list H.
  - apply ret_inv in H as [<- _]. constructor.
  - inv_bindM H. inv_bindM H. apply ret_inv in H as [<- _].
    apply append_if_ok; [|eauto].
    intros q ->. eapply Hd; eassumption.
Qed.

Lemma parse_geojson_at_ok (depth : nat) (value : string)
    (log : list log_entry) (g : QgsGeometry) :
  _parse_geojson_at depth value = (log, Return (Some g)) -> Spec.populated g.
Proof.
  revert value log g; induction depth as [|depth IH]; intros value log g H;
    [discriminate H|].
  cbn [_parse_geojson_at] in H. apply try_log_inv in H.
  destruct (json_loads value) as [geojson|]; [|discriminate H].
  repeat inv_bindM H.
  destruct (String.eqb v2 "geometrycollection").
  - repeat inv_bindM H. apply ret_inv in H as [H _].
    eapply combine_all_ok; [|exact H].
    eapply geojson_members_ok; [|eassumption].
    intros member lm q Hq. eapply IH; exact Hq.
  - apply lift_inv in H as [H _]. eapply geojson_simple_ok; exact H.
Qed.

Lemma parse_wkt_ok (value : string) (log : list log_entry) (g : QgsGeometry) :
  _parse_wkt value = (log, Return (Some g)) -> Spec.populated g.
Proof.
  unfold _parse_wkt. destruct (isNull _ || isEmpty _) eqn:E; [discriminate|].
  intros H. apply ret_inv in H as [[= <-] _].
  apply orb_false_iff in E. exact E.
Qed.

Lemma parse_binary_ok (label value : string) (log : list log_entry)
    (g : QgsGeometry) :
  parse_binary label value = (log, Return (Some g)) -> Spec.populated g.
Proof.
  unfold parse_binary. intros H. apply try_log_inv in H.
  inv_bindM H. destruct (isNull _ || isEmpty _) eqn:N; [discriminate|].
  apply ret_inv in H as [[= <-] _]. apply orb_false_iff in N. exact N.
Qed.

Lemma parse_ewkt_ok (value : string) (log : list log_entry) (g : QgsGeometry) :
  _parse_ewkt value = (log, Return (Some g)) -> Spec.populated g.
Proof.
  unfold _parse_ewkt. destruct (ewkt_match value) as [[g1 g2]|]; [|discriminate].
  intros H. inv_bindM H. cbv zeta in H. inv_bindM H.
  apply ret_inv in H as [-> _].
  eapply parse_wkt_ok; eassumption.
Qed.

Lemma kml_build_ok (parent_tag : string) (points : list QgsPointXY)
    (g : QgsGeometry) :
  kml_build parent_tag points = Some g -> Spec.populated g.
Proof.
  unfold kml_build. destruct points as [|first more]; [discriminate|].
  set (points := first :: more).
  intros H.
  repeat match type of H with
         | (if ?c then _ else _) = _ => destruct c eqn:?
         end;
    try discriminate H; injection H as <-; cbn [Spec.populated];
    unfold Spec.polygon_ok, Spec.line_ok, Spec.ring_ok;
    repeat match goal with
           | E : _ && _ = true |- _ => apply andb_true_iff in E as [? ?]
           | E : (_ <=? _) = true |- _ => apply Z.leb_le in E
           end;
    try exact I; try lia;
    (split; [discriminate | constructor; [lia | constructor]]).
Qed.

Lemma parse_kml_ok (value : string) (log : list log_entry) (g : QgsGeometry) :
  _parse_kml value = (log, Return (Some g)) -> Spec.populated g.
Proof.
  unfold _parse_kml. intros H. apply try_log_inv in H. cbv zeta in H.
  destruct (ET_fromstring _) as [root|]; [|discriminate H].
  destruct (find _ _) as [elem|]; [|discriminate H].
  destruct (text elem) as [txt|]; [|discriminate H].
  destruct (negb _); [discriminate H|].
  apply ret_inv in H as [H _]. eapply kml_build_ok; exact H.
Qed.

Lemma ee_build_ok (geom_type : string) (coords : pyval) (g : QgsGeometry) :
  ee_build geom_type coords = Return (Some g) -> Spec.populated g.
Proof.
  unfold ee_build, rectangle_branch. intros H.
  crunch H; subst; cbn [Spec.populated];
    unfold Spec.polygon_ok.
  - exact I.
  - apply nonempty_neq; assumption.
  - apply (len_ge_nat _ 2); assumption.
  - split; [discriminate|]. constructor; [|constructor].
    apply (len_ge_nat _ 3); assumption.
  - split; [apply nonempty_neq; assumption|].
    apply rings_ok. eapply collect_ok; eassumption.
  - split; [discriminate|]. constructor; [|constructor].
    apply (len_ge_nat _ 3); assumption.
  - split; [apply nonempty_neq; assumption|].
    eapply polygons_of_ok; eassumption.
  - split; [discriminate|]. constructor; [|constructor].
    unfold Spec.ring_ok. cbn [List.length]. lia.
Qed.

Lemma parse_earth_engine_ok (value : string) (log : list log_entry)
    (g : QgsGeometry) :
  _parse_earth_engine value = (log, Return (Some g)) -> Spec.populated g.
Proof.
  unfold _parse_earth_engine. intros H. apply try_log_inv in H.
  destruct (ee_match _) as [[g1 g2]|].
  - cbv zeta in H. destruct (json_loads g2) as [coords|]; [|discriminate H].
    apply lift_inv in H as [H _]. eapply ee_build_ok; exact H.
  - destruct (_ && _); [|discriminate H].
    destruct (search_braces value) as [json_text|]; [|discriminate H].
    eapply parse_geojson_at_ok; exact H.
Qed.

Lemma topo_arcs_geometry_ok (geom_type : string) (obj arcs : pyval)
    (g : QgsGeometry) :
  topo_arcs_geometry geom_type obj arcs = Return (Some g) -> Spec.populated g.
Proof.
  unfold topo_arcs_geometry. intros H. crunch H; subst; cbn [Spec.populated].
  - apply (len_ge_nat _ 2); assumption.
  - split; [apply nonempty_neq; assumption|].
    apply lines_ok. eapply collect_coords_ok; eassumption.
  - split; [apply nonempty_neq; assumption|].
    apply rings_ok. eapply collect_coords_ok; eassumption.
  - split; [apply nonempty_neq; assumption|].
    eapply topo_polygons_ok; eassumption.
Qed.

Lemma topo_members_ok (resolve : pyval -> outcome (option QgsGeometry))
    (geometries : list pyval) (geom_list : list QgsGeometry) :
  (forall g q, resolve g = Return (Some q) -> Spec.populated q) ->
  topo_members resolve geometries = Return geom_list ->
  Forall Spec.populated geom_list.
Proof.
  intros Hr. revert geom_list.
  induction geometries as [|g geometries IH]; cbn [topo_members];
    intros geom_list H.
  - crunch H. subst. constructor.
  - crunch H. subst. apply append_if_ok; [|eauto].
    intros q ->. eapply Hr; eassumption.
Qed.

Lemma resolve_topojson_geometry_at_ok (depth : nat) (obj arcs : pyval)
    (g : QgsGeometry) :
  _resolve_topojson_geometry_at depth obj arcs = Return (Some g) ->
  Spec.populated g.
Proof.
  revert obj g; induction depth as [|depth IH]; intros obj g H;
    [discriminate H|].
  cbn [_resolve_topojson_geometry_at] in H.
  inv_bind H. inv_bind H.
  destruct (String.eqb _ "point").
  { crunch H. subst. exact I. }
  destruct (String.eqb _ "multipoint").
  { crunch H. subst. cbn. apply nonempty_neq; assumption. }
  destruct (existsb _ arc_types).
  { eapply topo_arcs_geometry_ok; exact H. }
  destruct (String.eqb _ "geometrycollection"); [|discriminate H].
  crunch H. eapply combine_all_ok; [|exact H].
  eapply topo_members_ok; [|eassumption].
  intros member q Hq. eapply IH; exact Hq.
Qed.

Lemma parse_topojson_ok (value : string) (log : list log_entry)
    (g : QgsGeometry) :
  _parse_topojson value = (log, Return (Some g)) -> Spec.populated g.
Proof.
  unfold _parse_topojson. intros H. apply try_log_inv in H.
  destruct (json_loads value) as [topo|]; [|discriminate H].
  inv_bindM H. inv_bindM H.
  match type of H with
  | (if ?c then _ else _) = _ => destruct c
  end.
  - eapply parse_geojson_at_ok; exact H.
  - inv_bindM H. inv_bindM H.
    destruct (negb _); [discriminate H|].
    match type of H with
    | match ?o with _ => _ end = _ => destruct o as [| | | | | |[|[k first] more]]
    end; try discriminate H.
    apply lift_inv in H as [H _].
    eapply resolve_topojson_geometry_at_ok; exact H.
Qed.

Lemma parse_wkt_checked (value : string) (log : list log_entry) (g : QgsGeometry) :
  _parse_wkt value = (log, Return (Some g)) ->
  isNull g = false /\ isEmpty g = false.
Proof.
  unfold _parse_wkt. destruct (isNull _ || isEmpty _) eqn:E; [discriminate|].
  intros H. apply ret_inv in H as [[= <-] _].
  apply orb_false_iff in E. exact E.
Qed.

Lemma parse_binary_checked (label value : string) (log : list log_entry)
    (g : QgsGeometry) :
  parse_binary label value = (log, Return (Some g)) ->
  isNull g = false /\ isEmpty g = false.
Proof.
  unfold parse_binary. intros H. apply try_log_inv in H.
  inv_bindM H. destruct (isNull _ || isEmpty _) eqn:N; [discriminate|].
  apply ret_inv in H as [[= <-] _]. apply orb_false_iff in N. exact N.
Qed.

Lemma parse_ewkt_checked (value : string) (log : list log_entry) (g : QgsGeometry) :
  _parse_ewkt value = (log, Return (Some g)) ->
  isNull g = false /\ isEmpty g = false.
Proof.
  unfold _parse_ewkt. destruct (ewkt_match value) as [[g1 g2]|]; [|discriminate].
  intros H. inv_bindM H. cbv zeta in H. inv_bindM H.
  apply ret_inv in H as [-> _].
  eapply parse_wkt_checked; eassumption.
Qed.

Lemma library_format_eqb (format_type : string) :
  In format_type [GeometryFormat.WKT; GeometryFormat.WKB;
                  GeometryFormat.EWKT; GeometryFormat.EWKB] ->
  String.eqb format_type GeometryFormat.XY = false
  /\ (String.eqb format_type GeometryFormat.WKT
      || String.eqb format_type GeometryFormat.WKB
      || String.eqb format_type GeometryFormat.EWKT
      || String.eqb format_type GeometryFormat.EWKB) = true.
Proof.
  intros [<-|[<-|[<-|[<-|[]]]]]; split; reflexivity.
Qed.

(** C8, as the code has it: whenever [parse] returns a geometry, whatever
    the value and the format, that geometry has the coordinates, rings
    and members that its kind requires; and under the formats that the
    library reads, WKT, WKB, EWKT and EWKB, it is one that the library
    reports neither null nor empty.  Under the other formats the
    geometry that was built is returned without that test. *)
Theorem parse_populated (value format_type : string) (srid : Z)
    (x_value y_value : option float) (log : list log_entry) (g : QgsGeometry) :
  parse value format_type srid x_value y_value = (log, Return (Some g)) ->
  Spec.populated g
  /\ (In format_type [GeometryFormat.WKT; GeometryFormat.WKB;
                      GeometryFormat.EWKT; GeometryFormat.EWKB] ->
      isNull g = false /\ isEmpty g = false).
Proof.
  unfold parse.
  destruct (String.eqb format_type GeometryFormat.XY) eqn:EXY.
  { unfold _parse_xy. destruct x_value, y_value; try discriminate.
    intros H. apply ret_inv in H as [[= <-] _]. split; [exact I|].
    intros Hin. apply library_format_eqb in Hin as [Hin _].
    rewrite Hin in EXY. discriminate EXY. }
  destruct (PyStr.is_empty value); [discriminate|]. cbv zeta.
  destruct (PyStr.is_empty (PyStr.strip value)); [discriminate|].
  intros H. apply try_log_inv in H.
  destruct (String.eqb format_type GeometryFormat.WKT) eqn:E1.
  { split; [eapply parse_wkt_ok | intros _; eapply parse_wkt_checked]; exact H. }
  destruct (String.eqb format_type GeometryFormat.WKB) eqn:E2.
  { split; [eapply parse_binary_ok | intros _; eapply parse_binary_checked];
      exact H. }
  destruct (String.eqb format_type GeometryFormat.EWKT) eqn:E3.
  { split; [eapply parse_ewkt_ok | intros _; eapply parse_ewkt_checked]; exact H. }
  destruct (String.eqb format_type GeometryFormat.EWKB) eqn:E4.
  { split; [eapply parse_binary_ok | intros _; eapply parse_binary_checked];
      exact H. }
  split.
  - repeat match type of H with
           | (if ?c then _ else _) = _ => destruct c
           end.
    + eapply parse_geojson_at_ok; exact H.
    + eapply parse_kml_ok; exact H.
    + eapply parse_earth_engine_ok; exact H.
    + eapply parse_topojson_ok; exact H.
    + exfalso. exact (log_none_inv _ _ _ _ H).
  - intros Hin. apply library_format_eqb in Hin as [_ Hin].
    rewrite E1, E2, E3, E4 in Hin. discriminate Hin.
Qed.

End Populated.

(* ===================================================================== *)
(** ** The Earth Engine rectangle *)
(* ===================================================================== *)

Section Rectangle.
Context {P : Platform}.
Import GeometryParser.

Lemma getitem_nth (l : list pyval) (k : nat) :
  (k < List.length l)%nat ->
  Py.getitem (PList l) (Z.of_nat k)
  = match nth_error l k with Some a => Return a | None => Raise IndexError end.
Proof.
  intros Hk. unfold Py.getitem, Py.seq_index.
  replace (Z.of_nat k <? 0) with false by (symmetry; apply Z.ltb_ge; lia).
  replace (0 <=? Z.of_nat k) with true by (symmetry; apply Z.leb_le; lia).
  replace (Z.of_nat k <? Z.of_nat (List.length l)) with true
    by (symmetry; apply Z.ltb_lt; lia).
  cbn [andb]. rewrite Nat2Z.id. reflexivity.
Qed.

Lemma new_point_inv (a b : pyval) (p : QgsPointXY) :
  QgsPointXY_new a b = Return p ->
  exists x y, Spec.as_double a = Return x /\ Spec.as_double b = Return y
              /\ p = mkPointXY x y.
Proof.
  unfold QgsPointXY_new, Spec.as_double.
  destruct (Py.as_num a) as [na|]; [|discriminate].
  destruct (Py.as_num b) as [nb|]; [|discriminate].
  intros H. crunch H. subst. eauto.
Qed.

Lemma new_point_intro (a b : pyval) (x y : float) :
  Spec.as_double a = Return x -> Spec.as_double b = Return y ->
  QgsPointXY_new a b = Return (mkPointXY x y).
Proof.
  unfold QgsPointXY_new, Spec.as_double.
  destruct (Py.as_num a) as [na|]; [|discriminate].
  destruct (Py.as_num b) as [nb|]; [|discriminate].
  intros -> ->. reflexivity.
Qed.

Lemma chars_not_numbers (s : string) (i : Z) (v : pyval) :
  Py.seq_index (Py.chars s) i = Return v -> Py.as_num v = None.
Proof.
  unfold Py.seq_index. destruct (_ && _); [|discriminate].
  destruct (nth_error _ _) as [a|] eqn:E; [|discriminate].
  intros [= <-]. apply nth_error_In in E.
  induction s as [|c s IH]; cbn [Py.chars] in E; [contradiction|].
  destruct E as [<- | E]; [reflexivity | auto].
Qed.

Lemma ee_build_rectangle (geom_type : string) (coords : pyval) :
  geom_type = "rectangle" \/ geom_type = "bbox" ->
  ee_build geom_type coords = rectangle_branch coords.
Proof. intros [-> | ->]; reflexivity. Qed.

Lemma rectangle_branch_intro (vw vs ve vn : pyval) (more : list pyval)
    (w s e n : float) :
  Spec.as_double vw = Return w -> Spec.as_double vs = Return s ->
  Spec.as_double ve = Return e -> Spec.as_double vn = Return n ->
  rectangle_branch (PList (vw :: vs :: ve :: vn :: more))
  = Return (Some (Spec.rectangle w s e n)).
Proof.
  intros Hw Hs He Hn. unfold rectangle_branch. cbn [Py.len bind].
  replace (4 <=? Z.of_nat (List.length (vw :: vs :: ve :: vn :: more)))
    with true by (symmetry; apply Z.leb_le; cbn [List.length]; lia).
  rewrite (getitem_nth _ 0), (getitem_nth _ 1), (getitem_nth _ 2),
    (getitem_nth _ 3) by (cbn [List.length]; lia).
  cbn [nth_error bind].
  rewrite (new_point_intro _ _ _ _ Hw Hs), (new_point_intro _ _ _ _ He Hs),
    (new_point_intro _ _ _ _ He Hn), (new_point_intro _ _ _ _ Hw Hn).
  reflexivity.
Qed.

Lemma rectangle_branch_inv (coords : pyval) (g : QgsGeometry) :
  rectangle_branch coords = Return (Some g) ->
  exists vw vs ve vn more w s e n,
    coords = PList (vw :: vs :: ve :: vn :: more)
    /\ Spec.as_double vw = Return w /\ Spec.as_double vs = Return s
    /\ Spec.as_double ve = Return e /\ Spec.as_double vn = Return n
    /\ g = Spec.rectangle w s e n.
Proof.
  unfold rectangle_branch. intros H.
  destruct coords as [| | | |str|l|d]; try discriminate H.
  - (* a string: its items are one-character strings, not numbers *)
    cbn [Py.len bind] in H. destruct (4 <=? _); [|discriminate H].
    cbn [Py.getitem] in H. inv_bind H.
    apply chars_not_numbers in E.
    repeat inv_bind H. unfold QgsPointXY_new in E3. rewrite E in E3.
    discriminate E3.
  - cbn [Py.len bind] in H. destruct (4 <=? _) eqn:L; [|discriminate H].
    apply Z.leb_le in L.
    destruct l as [|vw [|vs [|ve [|vn more]]]]; cbn [List.length] in L; try lia.
    rewrite (getitem_nth _ 0), (getitem_nth _ 1), (getitem_nth _ 2),
      (getitem_nth _ 3) in H by (cbn [List.length]; lia).
    cbn [nth_error bind] in H.
    repeat inv_bind H. injection H as <-.
    apply new_point_inv in E as (w & s & Hw & Hs & ->).
    apply new_point_inv in E0 as (e & s' & He & Hs' & ->).
    apply new_point_inv in E1 as (e' & n & He' & Hn & ->).
    apply new_point_inv in E2 as (w' & n' & Hw' & Hn' & ->).
    apply new_point_inv in E3 as (w'' & s'' & Hw'' & Hs'' & ->).
    assert (s' = s) by congruence. assert (e' = e) by congruence.
    assert (w' = w) by congruence. assert (n' = n) by congruence.
    assert (w'' = w) by congruence. assert (s'' = s) by congruence.
    subst. exists vw, vs, ve, vn, more, w, s, e, n. auto 10.
  - (* a dict: no integer key *)
    cbn [Py.len bind] in H. destruct (4 <=? _); discriminate H.
Qed.

(** C9, as the code has it: for an Earth Engine input of kind
    [Rectangle] or [bbox], the decoder succeeds exactly when the
    bracketed argument is a JSON array of at least four elements whose
    first four are numbers [west, south, east, north]; it then returns
    the single-ring polygon (west,south), (east,south), (east,north),
    (west,north), (west,south), and ignores the elements after the
    fourth. *)
Theorem earth_engine_rectangle (value kind arg : string) (g : QgsGeometry) :
  ee_match (PyStr.strip value) = Some (kind, arg) ->
  PyStr.lower kind = "rectangle" \/ PyStr.lower kind = "bbox" ->
  ((exists log, _parse_earth_engine value = (log, Return (Some g)))
   <-> (exists vw vs ve vn more w s e n,
          json_loads arg = Return (PList (vw :: vs :: ve :: vn :: more))
          /\ Spec.as_double vw = Return w /\ Spec.as_double vs = Return s
          /\ Spec.as_double ve = Return e /\ Spec.as_double vn = Return n
          /\ g = Spec.rectangle w s e n)).
Proof.
  intros Hm Hk. unfold _parse_earth_engine. rewrite Hm. cbv zeta.
  destruct (json_loads arg) as [coords|err].
  - rewrite (ee_build_rectangle _ coords Hk). split.
    + intros [log H]. apply try_log_inv in H. apply lift_inv in H as [H _].
      apply rectangle_branch_inv in H
        as (vw & vs & ve & vn & more & w & s & e & n & -> & H).
      exists vw, vs, ve, vn, more, w, s, e, n. split; [reflexivity | exact H].
    + intros (vw & vs & ve & vn & more & w & s & e & n
              & [= ->] & Hw & Hs & He & Hn & ->).
      exists [].
      rewrite (rectangle_branch_intro _ _ _ _ more _ _ _ _ Hw Hs He Hn).
      reflexivity.
  - split.
    + intros [log H]. apply try_log_inv in H. discriminate H.
    + intros (vw & vs & ve & vn & more & w & s & e & n & H & _).
      discriminate H.
Qed.

End Rectangle.

(* ===================================================================== *)
(** ** The dispatcher *)
(* ===================================================================== *)

Section Dispatcher.
Context {P : Platform}.
Import GeometryParser GeometryFormat.

(** C10: the result of [parse] does not depend on its [srid] argument. *)
Theorem parse_ignores_srid (value format_type : string) (srid1 srid2 : Z)
    (x_value y_value : option float) :
  parse value format_type srid1 x_value y_value
  = parse value format_type srid2 x_value y_value.
Proof. reflexivity. Qed.


(** [_parse_ewkt] is [_parse_wkt] on the second group of the pattern: the
    first group, the SRID, has no part in the result, unless its digits
    are more than [int] accepts. *)
Lemma parse_ewkt_factors (value : string) :
  _parse_ewkt value
  = match ewkt_match value with
    | Some (digits, wkt_part) =>
        if int_max_str_digits <? Z.of_nat (String.length digits)
        then throw ValueError
        else _parse_wkt wkt_part
    | None => ret None
    end.
Proof.
  unfold _parse_ewkt, int10.
  destruct (ewkt_match value) as [[g1 g2]|]; [|reflexivity].
  destruct (int_max_str_digits <? _); [reflexivity|].
  cbv zeta. unfold _parse_wkt.
  destruct (isNull _ || isEmpty _); reflexivity.
Qed.

Lemma span_digits (digits rest : string) :
  PyStr.all_chars PyStr.is_digit digits = true ->
  PyStr.span PyStr.is_digit (digits ++ String ";" rest)
  = (digits, String ";" rest).
Proof.
  induction digits as [|c digits IH]; cbn [PyStr.all_chars]; intros H.
  - reflexivity.
  - apply andb_true_iff in H as [Hc H].
    cbn [String.append PyStr.span]. rewrite Hc, (IH H). reflexivity.
Qed.

(** Two EWKT values that differ in their SRID only decode alike, when
    both SRIDs are within the digit limit. *)
Lemma ewkt_result_independent_of_srid (d1 d2 rest : string) :
  PyStr.all_chars PyStr.is_digit d1 = true -> d1 <> "" ->
  PyStr.all_chars PyStr.is_digit d2 = true -> d2 <> "" ->
  Z.of_nat (String.length d1) <= int_max_str_digits ->
  Z.of_nat (String.length d2) <= int_max_str_digits ->
  _parse_ewkt ("SRID=" ++ d1 ++ ";" ++ rest)
  = _parse_ewkt ("SRID=" ++ d2 ++ ";" ++ rest).
Proof.
  intros H1 N1 H2 N2 L1 L2. rewrite !parse_ewkt_factors.
  assert (E : forall d, PyStr.all_chars PyStr.is_digit d = true -> d <> "" ->
              ewkt_match ("SRID=" ++ d ++ ";" ++ rest)
              = let (wkt_part, _) :=
                  PyStr.span (fun c => negb (Ascii.eqb c newline)) rest in
                if PyStr.is_empty wkt_part then None else Some (d, wkt_part)).
  { intros d Hd Nd. unfold ewkt_match.
    cbn [String.append PyStr.slice Nat.sub substring PyStr.upper
         PyStr.map_chars PyStr.drop].
    rewrite substring_0_0.
    change (String.eqb _ "SRID=") with true. cbv iota.
    change (";" ++ rest)%string with (String ";" rest).
    rewrite (span_digits d rest Hd).
    destruct d; [contradiction|]. reflexivity. }
  rewrite (E d1 H1 N1), (E d2 H2 N2).
  destruct (PyStr.span _ rest) as [w after].
  destruct (PyStr.is_empty w); [reflexivity|].
  replace (int_max_str_digits <? Z.of_nat (String.length d1)) with false
    by (symmetry; apply Z.ltb_ge; exact L1).
  replace (int_max_str_digits <? Z.of_nat (String.length d2)) with false
    by (symmetry; apply Z.ltb_ge; exact L2).
  reflexivity.
Qed.

(** C4: on ["SRID=4326;POINT(1 2)"] the EWKT decoder returns what the
    WKT decoder returns on ["POINT(1 2)"], the geometry alone: the SRID
    is read and dropped, and another SRID gives the same result. *)
Theorem ewkt_srid_not_reported :
  _parse_ewkt "SRID=4326;POINT(1 2)" = _parse_wkt "POINT(1 2)"
  /\ _parse_ewkt "SRID=3857;POINT(1 2)" = _parse_ewkt "SRID=4326;POINT(1 2)".
Proof.
  split.
  - rewrite parse_ewkt_factors. reflexivity.
  - rewrite !parse_ewkt_factors. reflexivity.
Qed.

End Dispatcher.

(* ===================================================================== *)
(** ** The decoders on concrete inputs *)
(* ===================================================================== *)

Section Runs.
Import GeometryParser GeometryFormat.
Local Open Scope float_scope.

Import Demo.

(** C1: the topology whose first object is the multipolygon
    [[[[0]]]] over a four-point arc is not decoded, although its only
    arc reference is valid; the same ring as a polygon is decoded. *)
Theorem multipolygon_topology_not_decoded :
  run (Demo.topology "MultiPolygon" "[[[0]]]") TOPOJSON = ([], Return None)
  /\ run (Demo.topology "Polygon" "[[0]]") TOPOJSON
     = ([], Return (Some (fromPolygonXY [unit_triangle]))).
Proof. split; vm_compute; reflexivity. Qed.

(** C2: the references of a LineString are not joined.  Over the arcs
    (0,0), (1,0), (1,1) and (1,1), (2,1), the line of the references
    [0, 1] is, as the specification reads them, (0,0), (1,0), (1,1), (2,1),
    the junction (1,1) once; the LineString with these references is
    decoded to arc 0 alone, every reference of its flat list being taken
    for a line of its own and the first line being kept.  The same
    references given as the one line of a MultiLineString are joined. *)
Theorem linestring_arcs_not_joined :
  Demo.load (Demo.two_arc_topology "LineString" "[0,1]")
  = Return (PDict [("type", PStr "Topology");
                   ("objects", PDict [("a", Samples.line_object)]);
                   ("arcs", Spec.embed_table Spec.two_arcs)])
  /\ Spec.line_points Spec.two_arcs [0; 1]%Z []
     = Return [ (NInt 0, NInt 0); (NInt 1, NInt 0); (NInt 1, NInt 1);
                (NInt 2, NInt 1) ]
  /\ run (Demo.two_arc_topology "LineString" "[0,1]") TOPOJSON
     = ([], Return (Some (fromPolylineXY
                            [ mkPointXY 0 0; mkPointXY 1 0; mkPointXY 1 1 ])))
  /\ run (Demo.two_arc_topology "MultiLineString" "[[0,1]]") TOPOJSON
     = ([], Return (Some (fromMultiPolylineXY
                            [[ mkPointXY 0 0; mkPointXY 1 0; mkPointXY 1 1;
                               mkPointXY 2 1 ]]))).
Proof. repeat split; vm_compute; reflexivity. Qed.

(** C3, counterexample: the ring [[0, 7]] names arc 7 of a table of one
    arc, and the polygon is decoded from arc 0 alone. *)
Lemma out_of_range_ring_decodes :
  Spec.in_table 1 (PInt 7) = false
  /\ run (Demo.topology "Polygon" "[[0,7]]") TOPOJSON
     = ([], Return (Some (fromPolygonXY [unit_triangle]))).
Proof. split; vm_compute; reflexivity. Qed.

(** C9, counterexample: a rectangle with five numbers is decoded. *)
Lemma rectangle_of_five_numbers_decodes :
  Demo.loads "[0,0,1,1,9]"
  = Some (PList [PInt 0; PInt 0; PInt 1; PInt 1; PInt 9])
  /\ run "ee.Geometry.Rectangle([0,0,1,1,9])" EARTH_ENGINE
     = ([], Return (Some (Spec.rectangle 0 0 1 1))).
Proof. split; vm_compute; reflexivity. Qed.

(** C8, counterexample: [json.loads] reads the literal [NaN], the point
    is built from it without a test and returned, and it is a geometry
    that the library reports empty.  The same point is returned for a
    coordinate pair of two NaN. *)
Lemma nan_point_returned_empty :
  run Samples.nan_point_json GEOJSON
  = ([], Return (Some (fromPointXY (mkPointXY nan nan))))
  /\ GeometryParser.parse (P := Demo.platform) "" XY 4326 (Some nan) (Some nan)
     = ([], Return (Some (fromPointXY (mkPointXY nan nan))))
  /\ isEmpty (Platform := Demo.platform) (fromPointXY (mkPointXY nan nan)) = true.
Proof. repeat split; vm_compute; reflexivity. Qed.


(** A failure that is logged by the dispatcher names no format. *)
Example dispatcher_diagnostic_names_no_format :
  run "[1,2]" GEOJSON
  = ([Warning "Error parsing geometry: " (Some AttributeError)], Return None).
Proof. vm_compute. reflexivity. Qed.


(** The references 0 and 1 as one line: the two arcs joined at (1,1). *)
Example resolve_arcs_joined :
  _resolve_arcs (PList [PList [PInt 0; PInt 1]]) (Spec.embed_table Spec.two_arcs)
  = Return [[ (NInt 0, NInt 0); (NInt 1, NInt 0); (NInt 1, NInt 1);
              (NInt 2, NInt 1) ]].
Proof.
  assert (H : Forall (Spec.selects_arc 2) [0; 1]%Z)
    by (repeat constructor; discriminate).
  exact (eq_trans (resolve_arcs_line Spec.two_arcs [0; 1]%Z H) eq_refl).
Qed.

(** A negative reference: arc 1 reversed, then arc 0 reversed, joined at
    (1,1). *)
Example resolve_arcs_reversed :
  _resolve_arcs (PList [PList [PInt (-2); PInt (-1)]]) (Spec.embed_table Spec.two_arcs)
  = Return [[ (NInt 2, NInt 1); (NInt 1, NInt 1); (NInt 1, NInt 0);
              (NInt 0, NInt 0) ]].
Proof. reflexivity. Qed.

(** A [LineString] whose [arcs] is a flat list of references reaches
    [_resolve_arcs] as one group per reference, and the line is built
    from the first group alone; written as one nested list the same
    references are joined. *)
Example linestring_reference_lists :
  run (Demo.topology "LineString" "[0,0]") TOPOJSON
  = ([], Return (Some (fromPolylineXY unit_triangle)))
  /\ run (Demo.topology "LineString" "[[0,-1]]") TOPOJSON
     = ([], Return (Some (fromPolylineXY
                            [ mkPointXY 0 0; mkPointXY 1 0; mkPointXY 1 1;
                              mkPointXY 0 0; mkPointXY 1 1; mkPointXY 1 0;
                              mkPointXY 0 0 ]))).
Proof. split; vm_compute; reflexivity. Qed.

(** The object of the topology with the ring [[0, 7]]; without its
    out-of-range reference it is the polygon of the ring [[0]], and both
    decode to the triangle of arc 0. *)
Example ring_with_out_of_range_ref :
  Demo.load (Demo.topology "Polygon" "[[0,7]]")
  = Return (PDict Samples.ring_topology_out_of_range)
  /\ Spec.without_out_of_range 1 Samples.ring_object_out_of_range
     = Samples.ring_object
  /\ _resolve_topojson_geometry (P := Demo.platform)
       Samples.ring_object_out_of_range Samples.triangle_arcs
     = Return (Some (fromPolygonXY [unit_triangle])).
Proof. repeat split; vm_compute; reflexivity. Qed.

(** Out-of-range references in the flat list of a LineString, in a
    polygon of a MultiPolygon and in a member of a collection, with the
    [arcs] before the [type] of the object. *)
Example objects_without_out_of_range :
  Spec.without_out_of_range 2
    (PDict [("arcs", PList [PInt 5; PInt 0; PInt (-4); PInt 1]);
            ("type", PStr "LineString")])
  = PDict [("arcs", PList [PInt 0; PInt 1]); ("type", PStr "LineString")]
  /\ Spec.without_out_of_range 2
       (PDict [("type", PStr "MultiPolygon");
               ("arcs", PList [PList [PList [PInt 0; PInt 9; PInt (-2)]]])])
     = PDict [("type", PStr "MultiPolygon");
              ("arcs", PList [PList [PList [PInt 0; PInt (-2)]]])]
  /\ Spec.without_out_of_range 2
       (PDict [("type", PStr "GeometryCollection");
               ("geometries",
                PList [PDict [("type", PStr "Polygon");
                              ("arcs", PList [PList [PInt 2; PInt 1]])]])])
     = PDict [("type", PStr "GeometryCollection");
              ("geometries",
               PList [PDict [("type", PStr "Polygon");
                             ("arcs", PList [PList [PInt 1]])]])].
Proof. repeat split; reflexivity. Qed.

Lemma hex_classification_witness :
  (2 <= String.length (PyStr.strip ewkb_point))%nat
  /\ Nat.even (String.length (PyStr.strip ewkb_point)) = true
  /\ PyStr.all_chars Spec.is_hex_digit (PyStr.strip ewkb_point) = true
  /\ detect_format (P := Demo.platform) ewkb_point = Return EWKB.
Proof.
  assert (H1 : (2 <= String.length (PyStr.strip ewkb_point))%nat)
    by (apply Nat.leb_le; reflexivity).
  split; [exact H1 | split; [reflexivity | split; [reflexivity | ]]].
  exact (eq_trans
           (hex_classification (P := Demo.platform) ewkb_point H1 eq_refl eq_refl)
           eq_refl).
Defined.

Example wkb_point_detected :
  detect_format (P := Demo.platform) wkb_point = Return WKB.
Proof. reflexivity. Qed.

Lemma wkt_keyword_guard_witness :
  In "POINT" wkt_types
  /\ PyStr.startswith (PyStr.upper (PyStr.strip "POINT(1 2)")) "POINT" = true
  /\ detect_format (P := Demo.platform) "POINT(1 2)" = Return WKT.
Proof.
  assert (H1 : In "POINT" wkt_types) by (left; reflexivity).
  split; [exact H1 | split; [reflexivity | ]].
  apply (proj1 (wkt_keyword_guard (P := Demo.platform)) "POINT(1 2)" "POINT"
           H1 eq_refl).
  right; left; reflexivity.
Defined.

Lemma parse_populated_witness :
  run "POINT(1 2)" WKT = ([], Return (Some (fromWkt "POINT(1 2)")))
  /\ Spec.populated (P := Demo.platform) (fromWkt "POINT(1 2)")
  /\ (In WKT [WKT; WKB; EWKT; EWKB] ->
      isNull (Platform := Demo.platform) (fromWkt "POINT(1 2)") = false
      /\ isEmpty (Platform := Demo.platform) (fromWkt "POINT(1 2)") = false).
Proof.
  assert (H : run "POINT(1 2)" WKT = ([], Return (Some (fromWkt "POINT(1 2)"))))
    by reflexivity.
  split; [exact H|].
  exact (parse_populated (P := Demo.platform) _ _ _ _ _ _ _ H).
Defined.

(** A rectangle has its ring of five points. *)
Example rectangle_populated :
  run "ee.Geometry.Rectangle([0,0,1,1])" EARTH_ENGINE
  = ([], Return (Some (Spec.rectangle 0 0 1 1)))
  /\ Spec.populated (P := Demo.platform) (Spec.rectangle 0 0 1 1).
Proof.
  split; [reflexivity|].
  cbn. unfold Spec.polygon_ok, Spec.ring_ok.
  split; [discriminate | repeat constructor].
Qed.

Lemma earth_engine_rectangle_witness :
  ee_match (PyStr.strip "ee.Geometry.Rectangle([0,0,1,1])")
  = Some ("Rectangle", "[0,0,1,1]")
  /\ (PyStr.lower "Rectangle" = "rectangle" \/ PyStr.lower "Rectangle" = "bbox")
  /\ exists log,
       _parse_earth_engine (P := Demo.platform) "ee.Geometry.Rectangle([0,0,1,1])"
       = (log, Return (Some (Spec.rectangle 0 0 1 1))).
Proof.
  assert (H2 : PyStr.lower "Rectangle" = "rectangle"
               \/ PyStr.lower "Rectangle" = "bbox") by (left; reflexivity).
  split; [reflexivity | split; [exact H2 | ]].
  apply (proj2 (earth_engine_rectangle (P := Demo.platform)
                  "ee.Geometry.Rectangle([0,0,1,1])" "Rectangle" "[0,0,1,1]"
                  (Spec.rectangle 0 0 1 1) eq_refl H2)).
  exists (PInt 0), (PInt 0), (PInt 1), (PInt 1), [], 0, 0, 1, 1.
  repeat split; reflexivity.
Defined.


End Runs.

(* ===================================================================== *)
(** ** More facts about strings *)
(* ===================================================================== *)

Section MoreStringFacts.

Lemma lstrip_head (s : string) :
  PyStr.lstrip s = ""
  \/ exists c r, PyStr.lstrip s = String c r /\ PyStr.is_space c = false.
Proof.
  induction s as [|c s IH]; [left; reflexivity|].
  cbn [PyStr.lstrip]. destruct (PyStr.is_space c) eqn:E; [exact IH|].
  right. exists c, s. auto.
Qed.

Lemma rstrip_idem (s : string) : PyStr.rstrip (PyStr.rstrip s) = PyStr.rstrip s.
Proof.
  induction s as [|c s IH]; [reflexivity|].
  cbn [PyStr.rstrip]. cbv zeta.
  destruct (PyStr.is_empty (PyStr.rstrip s) && PyStr.is_space c) eqn:E;
    [reflexivity|].
  cbn [PyStr.rstrip]. cbv zeta. rewrite IH, E. reflexivity.
Qed.

Lemma rstrip_head (c : ascii) (r : string) :
  PyStr.is_space c = false ->
  PyStr.rstrip (String c r) = String c (PyStr.rstrip r).
Proof.
  intros E. cbn [PyStr.rstrip]. cbv zeta. rewrite E, andb_false_r. reflexivity.
Qed.

(** Trimming a trimmed text changes nothing. *)
Lemma strip_idem (s : string) : PyStr.strip (PyStr.strip s) = PyStr.strip s.
Proof.
  unfold PyStr.strip.
  destruct (lstrip_head s) as [E | (c & r & E & Hc)]; rewrite E.
  - reflexivity.
  - rewrite (rstrip_head c r Hc). cbn [PyStr.lstrip]. rewrite Hc.
    rewrite <- (rstrip_head c r Hc). apply rstrip_idem.
Qed.

Lemma strip_nil_of_empty (s : string) :
  PyStr.is_empty s = true -> PyStr.strip s = "".
Proof. destruct s; [reflexivity | discriminate]. Qed.

Lemma is_empty_true (s : string) : PyStr.is_empty s = true -> s = "".
Proof. destruct s; [reflexivity | discriminate]. Qed.

Lemma prefix_app (p r : string) : prefix p (p ++ r) = true.
Proof.
  induction p as [|c p IH]; cbn; [apply prefix_nil|].
  destruct (ascii_dec c c) as [_|N]; [exact IH | contradiction].
Qed.

(** [sub in s] means that [s] is [pre ++ sub ++ post]. *)
Lemma contains_iff (sub s : string) :
  PyStr.contains sub s = true
  <-> exists pre post, s = (pre ++ sub ++ post)%string.
Proof.
  split.
  - induction s as [|c s IH]; cbn [PyStr.contains]; intros H.
    + apply orb_true_iff in H as [H|H]; [|discriminate].
      exists "", (PyStr.drop (String.length sub) ""). cbn [String.append].
      apply prefix_split; exact H.
    + apply orb_true_iff in H as [H|H].
      * exists "", (PyStr.drop (String.length sub) (String c s)).
        cbn [String.append]. apply prefix_split; exact H.
      * destruct (IH H) as (pre & post & ->).
        exists (String c pre), post. reflexivity.
  - intros (pre & post & ->).
    induction pre as [|c pre IH]; cbn [String.append].
    + destruct (sub ++ post)%string eqn:E; cbn [PyStr.contains];
        rewrite <- E, prefix_app; reflexivity.
    + cbn [PyStr.contains]. rewrite IH. apply orb_true_r.
Qed.

Lemma append_assoc (a b c : string) :
  ((a ++ b) ++ c = a ++ (b ++ c))%string.
Proof. induction a as [|x a IH]; cbn; [reflexivity | now rewrite IH]. Qed.

(** A text that contains [b] contains every text that [b] contains. *)
Lemma contains_trans (a b s : string) :
  PyStr.contains a b = true -> PyStr.contains b s = true ->
  PyStr.contains a s = true.
Proof.
  intros Hab Hbs.
  apply contains_iff in Hab as (p1 & q1 & ->).
  apply contains_iff in Hbs as (p2 & q2 & ->).
  apply contains_iff. exists (p2 ++ p1)%string, (q1 ++ q2)%string.
  rewrite !append_assoc. reflexivity.
Qed.

Lemma contains_refl (s : string) : PyStr.contains s s = true.
Proof.
  apply contains_iff. exists "", "". cbn [String.append].
  induction s as [|c s IH]; cbn; [reflexivity | now rewrite <- IH].
Qed.

(** Induction on a text two characters at a time. *)
Lemma string_pair_ind (Q : string -> Prop) :
  Q "" -> (forall a, Q (String a "")) ->
  (forall a b r, Q r -> Q (String a (String b r))) ->
  forall s, Q s.
Proof.
  intros H0 H1 H2 s.
  assert (H : Q s /\ forall a, Q (String a s)).
  { induction s as [|c s [IH1 IH2]]; split; auto. }
  exact (proj1 H).
Qed.

End MoreStringFacts.

(* ===================================================================== *)
(** ** Format detection, continued *)
(* ===================================================================== *)

Section DetectionMore.
Context {P : Platform}.
Import GeometryParser GeometryFormat.

(** X1: [detect_format] sees a sample only through its trimmed text:
    whitespace around the sample never changes the classification. *)
Theorem detect_format_trimmed (sample : string) :
  detect_format sample = detect_format (PyStr.strip sample).
Proof.
  unfold detect_format.
  destruct (PyStr.is_empty sample) eqn:E.
  - rewrite (strip_nil_of_empty _ E). reflexivity.
  - cbv zeta. rewrite strip_idem.
    destruct (PyStr.is_empty (PyStr.strip sample)); reflexivity.
Qed.

(** X2: when [detect_format] returns, it answers one of the eight
    formats it can recognise or Unknown, never the coordinate-pair format
    nor the JSON alias; and it raises only on a trimmed sample that
    starts with an opening brace, and then the exception that
    [json.loads] raised on it, which is not a [JSONDecodeError]. *)
Theorem detect_format_range (sample : string) :
  match detect_format sample with
  | Return fmt => In fmt Derived.detectable /\ fmt <> XY /\ fmt <> JSON
  | Raise e =>
      PyStr.startswith (PyStr.strip sample) "{" = true
      /\ json_loads (PyStr.strip sample) = Raise e
      /\ is_JSONDecodeError e = false
  end.
Proof.
  assert (D : forall fmt, In fmt Derived.detectable ->
                In fmt Derived.detectable /\ fmt <> XY /\ fmt <> JSON).
  { intros fmt H. split; [exact H|].
    split; intros E; rewrite E in H; cbn in H;
      repeat (destruct H as [H|H]; [discriminate H|]); exact H. }
  unfold detect_format.
  destruct (PyStr.is_empty sample); [apply D; cbn; tauto|]. cbv zeta.
  destruct (PyStr.is_empty _); [apply D; cbn; tauto|].
  destruct (PyStr.startswith _ "SRID="); [apply D; cbn; tauto|].
  destruct (wkt_loop _ _); [apply D; cbn; tauto|].
  destruct (detect_json _) as [[f|]|e] eqn:J.
  - apply D. apply detect_json_cases in J as [-> | ->]; cbn; tauto.
  - destruct (detect_kml _); [apply D; cbn; tauto|].
    destruct (PyStr.startswith _ "ee.Geometry"); [apply D; cbn; tauto|].
    destruct (_ && _); [|apply D; cbn; tauto].
    destruct (detect_hex _) as [f|] eqn:X; [|apply D; cbn; tauto].
    apply D. apply detect_hex_cases in X as [-> | ->]; cbn; tauto.
  - split; [|exact (detect_json_raises _ _ J)].
    unfold detect_json in J.
    destruct (PyStr.startswith (PyStr.strip sample) "{");
      [reflexivity | discriminate J].
Qed.

(** [unhexlify] succeeds exactly on an even number of hexadecimal digits,
    with one byte for two digits. *)
Lemma unhexlify_spec (value : string) :
  if Derived.is_hex_text value
  then exists wkb_bytes, unhexlify value = Return wkb_bytes
         /\ (2 * List.length wkb_bytes = String.length value)%nat
  else unhexlify value = Raise BinasciiError.
Proof.
  unfold Derived.is_hex_text.
  induction value as [| a | a b r IH] using string_pair_ind.
  - exists []. split; reflexivity.
  - cbn [String.length Nat.even andb]. reflexivity.
  - cbn [String.length Nat.even PyStr.all_chars unhexlify].
    unfold Spec.is_hex_digit at 1 2.
    destruct (PyStr.hex_value a) as [hi|]; [|rewrite andb_false_r; reflexivity].
    destruct (PyStr.hex_value b) as [lo|];
      [|rewrite andb_false_r; reflexivity].
    cbn [andb].
    destruct (Nat.even (String.length r) && PyStr.all_chars Spec.is_hex_digit r).
    + destruct IH as (bytes & -> & L). cbn [bind].
      eexists; split; [reflexivity|]. cbn [List.length]. lia.
    + rewrite IH. reflexivity.
Qed.

Lemma detected_hex_shape (sample : string) :
  detect_format sample = Return WKB \/ detect_format sample = Return EWKB ->
  PyStr.is_empty sample = false
  /\ PyStr.is_empty (PyStr.strip sample) = false
  /\ Derived.is_hex_text (PyStr.strip sample) = true.
Proof.
  unfold detect_format.
  destruct (PyStr.is_empty sample); [intros [H|H]; discriminate H|]. cbv zeta.
  destruct (PyStr.is_empty (PyStr.strip sample));
    [intros [H|H]; discriminate H|].
  destruct (PyStr.startswith _ "SRID="); [intros [H|H]; discriminate H|].
  destruct (wkt_loop _ _); [intros [H|H]; discriminate H|].
  destruct (detect_json _) as [[f|]|e] eqn:J; [| |intros [H|H]; discriminate H].
  { apply detect_json_cases in J as [-> | ->]; intros [H|H]; discriminate H. }
  destruct (detect_kml _); [intros [H|H]; discriminate H|].
  destruct (PyStr.startswith _ "ee.Geometry");
    [intros [H|H]; discriminate H|].
  destruct (_ && _) eqn:C; [|intros [H|H]; discriminate H].
  intros _. repeat split.
  apply andb_true_iff in C as [C A]. apply andb_true_iff in C as [_ E].
  unfold Derived.is_hex_text. rewrite E.
  rewrite <- (all_chars_ext _ _ _ hex_literal_spec). exact A.
Qed.

(** X3: a sample that [detect_format] classifies WKB or EWKB is an even
    number of hexadecimal digits once trimmed, so [parse] under the
    detected format decodes its bytes and hands them to the geometry
    reader; the hexadecimal error path is never taken and nothing is
    logged. *)
Theorem detected_hex_is_decoded (sample detected : string) (srid : Z)
    (x_value y_value : option float) :
  detect_format sample = Return detected ->
  detected = WKB \/ detected = EWKB ->
  exists wkb_bytes,
    unhexlify (PyStr.strip sample) = Return wkb_bytes
    /\ (2 * List.length wkb_bytes = String.length (PyStr.strip sample))%nat
    /\ parse sample detected srid x_value y_value
       = ([], Return (if isNull (fromWkb wkb_bytes) || isEmpty (fromWkb wkb_bytes)
                      then None else Some (fromWkb wkb_bytes))).
Proof.
  intros Hd H.
  assert (H' : detect_format sample = Return WKB
               \/ detect_format sample = Return EWKB)
    by (destruct H as [<- | <-]; [left | right]; exact Hd).
  destruct (detected_hex_shape sample H') as (Hs & Ht & Hx).
  pose proof (unhexlify_spec (PyStr.strip sample)) as U. rewrite Hx in U.
  destruct U as (wkb_bytes & U & L). exists wkb_bytes.
  split; [exact U|]. split; [exact L|].
  assert (B : forall label,
            parse_binary label (PyStr.strip sample)
            = ([], Return (if isNull (fromWkb wkb_bytes)
                              || isEmpty (fromWkb wkb_bytes)
                           then None else Some (fromWkb wkb_bytes)))).
  { intros label. unfold parse_binary. rewrite U. cbn.
    destruct (isNull _ || isEmpty _); reflexivity. }
  destruct H as [-> | ->]; unfold parse.
  - change (String.eqb WKB XY) with false.
    change (String.eqb WKB WKT) with false.
    change (String.eqb WKB WKB) with true.
    cbv iota. rewrite Hs. cbv zeta. rewrite Ht.
    unfold _parse_wkb. rewrite B. reflexivity.
  - change (String.eqb EWKB XY) with false.
    change (String.eqb EWKB WKT) with false.
    change (String.eqb EWKB WKB) with false.
    change (String.eqb EWKB EWKT) with false.
    change (String.eqb EWKB EWKB) with true.
    cbv iota. rewrite Hs. cbv zeta. rewrite Ht.
    unfold _parse_ewkb. rewrite B. reflexivity.
Qed.

(** X4: a sample whose trimmed text starts with an opening brace and
    parses as a JSON object is classified by its keys: GeoJSON when it
    has [type] and one of [coordinates], [geometries], also when it has
    [arcs] or [objects] as well; TopoJSON when it is not GeoJSON and has
    [arcs] or [objects]. *)
Theorem json_object_detection (sample : string) (d : list (string * pyval)) :
  PyStr.startswith (PyStr.strip sample) "{" = true ->
  json_loads (PyStr.strip sample) = Return (PDict d) ->
  let geojson := Derived.has_key "type" d
                 && (Derived.has_key "coordinates" d
                     || Derived.has_key "geometries" d) in
  let topojson := Derived.has_key "arcs" d || Derived.has_key "objects" d in
  (geojson = true -> detect_format sample = Return GEOJSON)
  /\ (geojson = false -> topojson = true ->
      detect_format sample = Return TOPOJSON).
Proof.
  intros Hp Hj geojson topojson.
  assert (J : detect_json (PyStr.strip sample)
              = if geojson then Return (Some GEOJSON)
                else if topojson then Return (Some TOPOJSON) else Return None).
  { unfold detect_json. rewrite Hp, Hj. reflexivity. }
  assert (R : forall fmt, detect_json (PyStr.strip sample) = Return (Some fmt) ->
                          detect_format sample = Return fmt).
  { intros fmt F. unfold detect_format.
    pose proof (prefix_split _ _ Hp) as Ht. cbn [String.length PyStr.drop] in Ht.
    assert (Hs : PyStr.is_empty sample = false).
    { destruct sample; [discriminate Hp | reflexivity]. }
    rewrite Hs. cbv zeta.
    assert (He : PyStr.is_empty (PyStr.strip sample) = false)
      by (rewrite Ht; reflexivity).
    rewrite He, F.
    assert (U : PyStr.upper (PyStr.strip sample)
                = String "{" (PyStr.upper (PyStr.drop 1 (PyStr.strip sample))))
      by (rewrite Ht at 1; reflexivity).
    rewrite U. reflexivity. }
  split.
  - intros G. apply R. rewrite J, G. reflexivity.
  - intros G T. apply R. rewrite J, G, T. reflexivity.
Qed.

End DetectionMore.

(* ===================================================================== *)
(** ** The dispatcher, continued *)
(* ===================================================================== *)

Section DispatcherMore.
Context {P : Platform}.
Import GeometryParser GeometryFormat.

(** X5: [parse] sees its text only through the trimmed text: whitespace
    around the value changes neither the geometry nor the log, whatever
    the format tag. *)
Theorem parse_trimmed (value format_type : string) (srid : Z)
    (x_value y_value : option float) :
  parse value format_type srid x_value y_value
  = parse (PyStr.strip value) format_type srid x_value y_value.
Proof.
  unfold parse. destruct (String.eqb format_type XY); [reflexivity|].
  destruct (PyStr.is_empty value) eqn:E.
  - rewrite (strip_nil_of_empty _ E). reflexivity.
  - cbv zeta. rewrite strip_idem.
    destruct (PyStr.is_empty (PyStr.strip value)); reflexivity.
Qed.

Lemma parse_binary_malformed (label value : string) :
  Derived.is_hex_text value = false ->
  parse_binary label value = ([Warning label (Some BinasciiError)], Return None).
Proof.
  intros H. pose proof (unhexlify_spec value) as U. rewrite H in U.
  unfold parse_binary. rewrite U. reflexivity.
Qed.

(** X6: under the WKB and EWKB tags, a value whose trimmed text is not
    an even number of hexadecimal digits yields no geometry and exactly one warning, the one of the binary decoder with
    the error of [binascii.unhexlify] as its cause; the catch-all of
    [parse] is not reached. *)
Theorem malformed_hex_is_logged (value : string) (srid : Z)
    (x_value y_value : option float) :
  Derived.is_hex_text (PyStr.strip value) = false ->
  parse value WKB srid x_value y_value
  = ([Warning "WKB parsing error: " (Some BinasciiError)], Return None)
  /\ parse value EWKB srid x_value y_value
     = ([Warning "EWKB parsing error: " (Some BinasciiError)], Return None).
Proof.
  intros Hx.
  assert (Ht : PyStr.is_empty (PyStr.strip value) = false).
  { destruct (PyStr.strip value); [discriminate Hx | reflexivity]. }
  assert (Hs : PyStr.is_empty value = false).
  { destruct value; [discriminate Hx | reflexivity]. }
  split; unfold parse.
  - change (String.eqb WKB XY) with false.
    change (String.eqb WKB WKT) with false.
    change (String.eqb WKB WKB) with true.
    cbv iota. rewrite Hs. cbv zeta. rewrite Ht.
    unfold _parse_wkb. rewrite (parse_binary_malformed _ _ Hx). reflexivity.
  - change (String.eqb EWKB XY) with false.
    change (String.eqb EWKB WKT) with false.
    change (String.eqb EWKB WKB) with false.
    change (String.eqb EWKB EWKT) with false.
    change (String.eqb EWKB EWKB) with true.
    cbv iota. rewrite Hs. cbv zeta. rewrite Ht.
    unfold _parse_ewkb. rewrite (parse_binary_malformed _ _ Hx). reflexivity.
Qed.

End DispatcherMore.

(* ===================================================================== *)
(** ** GeoJSON, continued *)
(* ===================================================================== *)

Section GeoJsonMore.
Context {P : Platform}.
Import GeometryParser GeometryFormat.

Lemma bindM_lift_return {A B : Type} (a : A) (k : A -> M B) :
  bindM (lift (Return a)) k = k a.
Proof. unfold bindM, lift. destruct (k a); reflexivity. Qed.

(** X7: a GeoJSON Feature decodes to what its [geometry] member decodes
    to on its own, with the same log, whatever else the Feature holds;
    this includes a member that is not an object, where both raise. *)
Theorem geojson_feature_unwrapped (value inner : string)
    (d : list (string * pyval)) (g : pyval) :
  json_loads value = Return (PDict d) ->
  Py.assoc "type" d = Some (PStr "Feature") ->
  Py.assoc "geometry" d = Some g ->
  Derived.is_feature g = false ->
  json_loads inner = Return g ->
  _parse_geojson value = _parse_geojson inner.
Proof.
  intros Hv Ht Hg Hf Hi. unfold _parse_geojson.
  destruct recursion_limit as [|depth]; [reflexivity|].
  cbn [_parse_geojson_at]. rewrite Hv, Hi.
  cbn [Py.get]. rewrite Ht, Hg.
  change (Py.eq_str (PStr "Feature") "Feature") with true. cbv iota.
  destruct g as [| b | z | f | s | items | gd];
    try reflexivity.
  cbn [Py.get]. cbn [Derived.is_feature] in Hf.
  rewrite !bindM_lift_return.
  destruct (Py.assoc "type" gd) as [ty|].
  - rewrite Hf. reflexivity.
  - reflexivity.
Qed.

Lemma xy_only_cases (v : pyval) :
  Derived.xy_only v = v
  \/ exists a b r, v = PList (a :: b :: r) /\ Derived.xy_only v = PList [a; b].
Proof.
  destruct v as [| | | | | l |]; try (left; reflexivity).
  destruct l as [|a [|b r]]; try (left; reflexivity).
  right. exists a, b, r. split; reflexivity.
Qed.

Lemma points_of_items_xy (items : list pyval) :
  points_of_items (map Derived.xy_only items) = points_of_items items.
Proof.
  induction items as [|c items IH]; [reflexivity|].
  cbn [map points_of_items].
  destruct (xy_only_cases c) as [-> | (a & b & r & -> & ->)].
  - rewrite IH. reflexivity.
  - destruct (len_ge_2 a b r) as (n & Hn & Hle).
    destruct (len_ge_2 a b []) as (m & Hm & Hle').
    rewrite Hn, Hm. cbn [bind]. rewrite Hle, Hle'.
    rewrite !getitem_0, !getitem_1. cbn [bind].
    rewrite IH. reflexivity.
Qed.

Lemma points_of_xy (g : pyval) :
  points_of (Derived.at_depth 1 Derived.xy_only g) = points_of g.
Proof.
  destruct g as [| | | | | l |]; try reflexivity.
  unfold points_of. cbn [Derived.at_depth Py.iter bind].
  change (map (Derived.at_depth 0 Derived.xy_only) l)
    with (map Derived.xy_only l).
  apply points_of_items_xy.
Qed.

Lemma collect_xy (least : Z) (groups : list pyval) :
  collect least (map (Derived.at_depth 1 Derived.xy_only) groups)
  = collect least groups.
Proof.
  induction groups as [|g groups IH]; [reflexivity|].
  cbn [map collect]. rewrite points_of_xy, IH. reflexivity.
Qed.

Lemma polygons_of_xy (polys : list pyval) :
  polygons_of (map (Derived.at_depth 2 Derived.xy_only) polys)
  = polygons_of polys.
Proof.
  induction polys as [|polygon polys IH]; [reflexivity|].
  cbn [map polygons_of]. rewrite IH.
  destruct polygon as [| | | | | l |]; try reflexivity.
  cbn [Derived.at_depth Py.iter bind].
  change (map (fun v => match v with
                        | PList l0 => PList (map (Derived.at_depth 0 Derived.xy_only) l0)
                        | _ => v
                        end) l)
    with (map (Derived.at_depth 1 Derived.xy_only) l).
  rewrite collect_xy. reflexivity.
Qed.

(** X8: only the first two components of a position are read.  For each
    geometry type, the coordinates decode to the same result, geometry or
    exception, as the coordinates in which every position that is a list
    is cut down to its first two components: an altitude or any further
    component, numeric or not, has no effect. *)
Theorem geojson_extra_components_ignored (geom_type : string) (coords : pyval) :
  geojson_simple geom_type coords
  = geojson_simple geom_type
      (Derived.at_depth (Derived.nesting geom_type) Derived.xy_only coords).
Proof.
  unfold geojson_simple, Derived.nesting.
  destruct (String.eqb geom_type "point").
  { cbn [Derived.at_depth].
    destruct (xy_only_cases coords) as [-> | (a & b & r & -> & ->)];
      [reflexivity|].
    destruct (len_ge_2 a b r) as (n & Hn & Hle).
    destruct (len_ge_2 a b []) as (m & Hm & Hle').
    rewrite Hn, Hm. cbn [bind]. rewrite Hle, Hle'.
    rewrite !getitem_0, !getitem_1. reflexivity. }
  destruct (String.eqb geom_type "multipoint").
  { cbn [orb]. rewrite points_of_xy. reflexivity. }
  destruct (String.eqb geom_type "linestring").
  { cbn [orb]. rewrite points_of_xy. reflexivity. }
  cbn [orb].
  destruct (String.eqb geom_type "multilinestring").
  { cbn [orb]. destruct coords as [| | | | | l |]; try reflexivity.
    cbn [Derived.at_depth Py.iter bind].
    change (map (fun v => match v with
                          | PList l0 => PList (map (Derived.at_depth 0 Derived.xy_only) l0)
                          | _ => v
                          end) l)
      with (map (Derived.at_depth 1 Derived.xy_only) l).
    rewrite collect_xy. reflexivity. }
  destruct (String.eqb geom_type "polygon").
  { cbn [orb]. destruct coords as [| | | | | l |]; try reflexivity.
    cbn [Derived.at_depth Py.iter bind].
    change (map (fun v => match v with
                          | PList l0 => PList (map (Derived.at_depth 0 Derived.xy_only) l0)
                          | _ => v
                          end) l)
      with (map (Derived.at_depth 1 Derived.xy_only) l).
    rewrite collect_xy. reflexivity. }
  cbn [orb].
  destruct (String.eqb geom_type "multipolygon"); [|reflexivity].
  destruct coords as [| | | | | l |]; try reflexivity.
  cbn [Derived.at_depth Py.iter bind].
  change (map (fun v => match v with
                        | PList l0 =>
                            PList (map (fun v0 => match v0 with
                                                  | PList l1 => PList (map (Derived.at_depth 0 Derived.xy_only) l1)
                                                  | _ => v0
                                                  end) l0)
                        | _ => v
                        end) l)
    with (map (Derived.at_depth 2 Derived.xy_only) l).
  rewrite polygons_of_xy. reflexivity.
Qed.

End GeoJsonMore.

(* ===================================================================== *)
(** ** TopoJSON, continued *)
(* ===================================================================== *)

(** Evaluates the comparisons of two format names. *)
Ltac eqb_names :=
  repeat match goal with
         | |- context [String.eqb ?a ?b] =>
             let v := eval vm_compute in (String.eqb a b) in
             match v with
             | true => change (String.eqb a b) with true
             | false => change (String.eqb a b) with false
             end
         end;
  cbv iota; cbn [orb].

Section TopoJsonMore.
Context {P : Platform}.
Import GeometryParser GeometryFormat.

(** X9: a document that is a JSON object with the keys [type] and
    [coordinates] decodes to the same geometry under the TopoJSON tag as
    under the GeoJSON tag: the TopoJSON decoder hands it to the GeoJSON
    decoder, and only the text of a logged warning can differ. *)
Theorem resolved_topojson_is_geojson (value : string)
    (d : list (string * pyval)) (srid : Z) (x_value y_value : option float) :
  json_loads (PyStr.strip value) = Return (PDict d) ->
  Derived.has_key "type" d = true ->
  Derived.has_key "coordinates" d = true ->
  snd (parse value TOPOJSON srid x_value y_value)
  = snd (parse value GEOJSON srid x_value y_value).
Proof.
  intros Hj Ht Hc. unfold parse. eqb_names.
  destruct (PyStr.is_empty value); [reflexivity|]. cbv zeta.
  destruct (PyStr.is_empty (PyStr.strip value)); [reflexivity|].
  unfold _parse_topojson. rewrite Hj. cbn [Py.contains].
  unfold Derived.has_key in Ht, Hc.
  rewrite !bindM_lift_return.
  destruct (Py.assoc "type" d); [|discriminate Ht].
  rewrite bindM_lift_return.
  destruct (Py.assoc "coordinates" d); [|discriminate Hc].
  destruct (_parse_geojson (PyStr.strip value)) as [l [a|e]];
    [reflexivity|].
  cbn. destruct (is_ValueError e); reflexivity.
Qed.

(** A topology, a JSON object that is not itself a geometry with
    coordinates, is decoded by resolving the first of its objects over
    its arc table. *)
Lemma parse_topojson_first_object (value : string) (d : list (string * pyval))
    (name : string) (obj : pyval) (others : list (string * pyval))
    (arcs : pyval) :
  json_loads value = Return (PDict d) ->
  Derived.has_key "type" d && Derived.has_key "coordinates" d = false ->
  Py.assoc "objects" d = Some (PDict ((name, obj) :: others)) ->
  Py.get (PDict d) "arcs" (PList []) = Return arcs ->
  _parse_topojson value
  = try_except (lift (_resolve_topojson_geometry obj arcs))
      is_ValueError
      (fun e => logMessage "TopoJSON parsing error: " (Some e) ;;; ret None).
Proof.
  intros Hj R O A. unfold _parse_topojson.
  rewrite Hj. cbn [Py.contains]. unfold Derived.has_key in R.
  rewrite !bindM_lift_return.
  assert (E : (if match Py.assoc "type" d with
                   | Some _ => true
                   | None => false
                   end
               then lift (Return match Py.assoc "coordinates" d with
                                 | Some _ => true
                                 | None => false
                                 end)
               else ret false) = lift (Return false)).
  { destruct (Py.assoc "type" d); [|reflexivity].
    cbn [andb] in R. rewrite R. reflexivity. }
  rewrite E, !bindM_lift_return, A, !bindM_lift_return.
  cbn [Py.get]. rewrite !bindM_lift_return, O. cbn [Py.truthy negb].
  reflexivity.
Qed.

(** C3, as the code has it: a reference that resolves outside the arc
    table is skipped.  Every TopoJSON object decodes to what it decodes to
    without the out-of-range references of its lines and rings: of the
    flat list of a LineString, of the lines of a MultiLineString, of the
    rings of a Polygon, of the polygons of a MultiPolygon, and of every
    member of a GeometryCollection, wherever the [arcs] stand in the
    object.  So the decoder returns, for the text of a topology, what the
    first of its objects resolves to without its out-of-range
    references. *)
Theorem out_of_range_refs_skipped :
  (forall (obj arcs : pyval) (n : Z),
     Py.len arcs = Return n ->
     _resolve_topojson_geometry (Spec.without_out_of_range n obj) arcs
     = _resolve_topojson_geometry obj arcs)
  /\ (forall (value : string) (d : list (string * pyval)) (name : string)
             (obj : pyval) (others : list (string * pyval)) (arcs : pyval)
             (n : Z),
        json_loads value = Return (PDict d) ->
        Derived.has_key "type" d && Derived.has_key "coordinates" d = false ->
        Py.assoc "objects" d = Some (PDict ((name, obj) :: others)) ->
        Py.get (PDict d) "arcs" (PList []) = Return arcs ->
        Py.len arcs = Return n ->
        _parse_topojson value
        = try_except
            (lift (_resolve_topojson_geometry
                     (Spec.without_out_of_range n obj) arcs))
            is_ValueError
            (fun e => logMessage "TopoJSON parsing error: " (Some e) ;;;
                      ret None)).
Proof.
  split.
  - intros obj arcs n L. apply resolve_topojson_geometry_without; exact L.
  - intros value d name obj others arcs n Hj R O A L.
    rewrite (resolve_topojson_geometry_without obj arcs n L).
    eapply parse_topojson_first_object; eassumption.
Qed.

(** X10: of the objects of a topology only the first is decoded.  Two
    topologies with the same arc table whose first objects are equal
    decode alike, whatever the names of the first objects, whatever
    other objects follow them and whatever other members, such as
    [transform] or [bbox], the topologies have. *)
Theorem topojson_first_object_only (value1 value2 : string)
    (d1 d2 : list (string * pyval)) (name1 name2 : string) (obj : pyval)
    (others1 others2 : list (string * pyval)) :
  json_loads value1 = Return (PDict d1) ->
  json_loads value2 = Return (PDict d2) ->
  Derived.has_key "type" d1 && Derived.has_key "coordinates" d1 = false ->
  Derived.has_key "type" d2 && Derived.has_key "coordinates" d2 = false ->
  Py.assoc "arcs" d1 = Py.assoc "arcs" d2 ->
  Py.assoc "objects" d1 = Some (PDict ((name1, obj) :: others1)) ->
  Py.assoc "objects" d2 = Some (PDict ((name2, obj) :: others2)) ->
  _parse_topojson value1 = _parse_topojson value2.
Proof.
  intros H1 H2 R1 R2 A O1 O2.
  assert (F : forall value d name others,
            json_loads value = Return (PDict d) ->
            Derived.has_key "type" d && Derived.has_key "coordinates" d = false ->
            Py.assoc "objects" d = Some (PDict ((name, obj) :: others)) ->
            _parse_topojson value
            = try_except
                (lift (_resolve_topojson_geometry obj
                         match Py.assoc "arcs" d with
                         | Some x => x
                         | None => PList []
                         end))
                is_ValueError
                (fun e => logMessage "TopoJSON parsing error: " (Some e) ;;;
                          ret None)).
  { intros value d name others Hj R O. unfold _parse_topojson.
    rewrite Hj. cbn [Py.contains Py.get]. unfold Derived.has_key in R.
    rewrite !bindM_lift_return.
    assert (E : (if match Py.assoc "type" d with
                     | Some _ => true
                     | None => false
                     end
                 then lift (Return match Py.assoc "coordinates" d with
                                   | Some _ => true
                                   | None => false
                                   end)
                 else ret false) = lift (Return false)).
    { destruct (Py.assoc "type" d); [|reflexivity].
      cbn [andb] in R. rewrite R. reflexivity. }
    rewrite E, !bindM_lift_return, O. cbn [Py.truthy negb].
    reflexivity. }
  rewrite (F _ _ _ _ H1 R1 O1), (F _ _ _ _ H2 R2 O2), A. reflexivity.
Qed.

(** X11: a LineString object whose [arcs] is a list that starts with an
    integer reference is built from that reference alone.  When the first
    reference resolves to a non-empty run of points and the remaining
    entries resolve without an exception, the line is the run of the
    first reference; the points of the remaining references are
    discarded. *)
Theorem topo_linestring_uses_first_reference (obj arcs : pyval) (r : Z)
    (more : list pyval) (coords : list coord) (others : list (list coord)) :
  Py.get obj "arcs" (PList []) = Return (PList (PInt r :: more)) ->
  resolve_refs arcs [PInt r] [] = Return coords ->
  coords <> [] ->
  resolve_groups arcs more = Return others ->
  topo_arcs_geometry "linestring" obj arcs
  = (points <- points_of_coords coords ;;
     Return (if len_ge points 2 then Some (fromPolylineXY points) else None)).
Proof.
  intros G R N O. unfold topo_arcs_geometry. rewrite G. cbn [bind].
  unfold _resolve_arcs. cbn [Py.iter bind resolve_groups Py.is_int Py.as_int].
  rewrite R, O. cbn [bind].
  destruct coords as [|c coords]; [contradiction N; reflexivity|].
  reflexivity.
Qed.

(** X12: within a line or ring of references, an entry that is not an
    integer is passed over: the references resolve to the same points,
    or the same exception, as with those entries removed. *)
Theorem non_integer_refs_ignored (arcs : pyval) (ref_group : list pyval)
    (coords : list coord) :
  resolve_refs arcs ref_group coords
  = resolve_refs arcs (filter Py.is_int ref_group) coords.
Proof.
  revert coords; induction ref_group as [|ref refs IH]; intros coords;
    [reflexivity|].
  cbn [filter]. unfold Py.is_int at 1.
  destruct (Py.as_int ref) as [r|] eqn:A.
  - cbn [resolve_refs]. rewrite A. cbv zeta.
    destruct (Py.len arcs) as [n|e]; [|reflexivity]. cbn [bind].
    destruct ((0 <=? (if 0 <=? r then r else Z.lnot r))
              && ((if 0 <=? r then r else Z.lnot r) <? n)); [|apply IH].
    destruct (Py.getitem arcs _) as [arc|e]; [|reflexivity]. cbn [bind].
    destruct (Py.copy_slice arc) as [arc_coords|e]; [|reflexivity]. cbn [bind].
    destruct (Py.iter arc_coords) as [points|e]; [|reflexivity]. cbn [bind].
    destruct (decode_arc points (NInt 0) (NInt 0)) as [decoded|e];
      [|reflexivity].
    cbn [bind]. apply IH.
  - cbn [resolve_refs]. rewrite A. apply IH.
Qed.

End TopoJsonMore.

(* ===================================================================== *)
(** ** KML and Earth Engine, continued *)
(* ===================================================================== *)

Section KmlMore.
Context {P : Platform}.
Import GeometryParser GeometryFormat.

(** X13: a KML coordinate list with at least one point always yields a
    geometry: the first point, the points as a line (only when there are
    at least two) or the points as the single ring of a polygon (only
    when there are at least three).  The final [return None] of the
    decoder is never reached with points. *)
Theorem kml_points_always_build (parent_tag : string) (first : QgsPointXY)
    (rest : list QgsPointXY) :
  kml_build parent_tag (first :: rest) = Some (fromPointXY first)
  \/ (kml_build parent_tag (first :: rest) = Some (fromPolylineXY (first :: rest))
      /\ (2 <= List.length (first :: rest))%nat)
  \/ (kml_build parent_tag (first :: rest) = Some (fromPolygonXY [first :: rest])
      /\ (3 <= List.length (first :: rest))%nat).
Proof.
  unfold kml_build.
  set (points := first :: rest). set (n := Z.of_nat (List.length points)).
  assert (Hn : 1 <= n) by (unfold n, points; cbn [List.length]; lia).
  destruct (PyStr.contains "point" parent_tag && (1 <=? n)); [left; reflexivity|].
  destruct (PyStr.contains "linestring" parent_tag && (2 <=? n)) eqn:L.
  { right; left. split; [reflexivity|].
    apply andb_true_iff in L as [_ L]. apply Z.leb_le in L. unfold n in L. lia. }
  destruct ((PyStr.contains "polygon" parent_tag
             || PyStr.contains "linearring" parent_tag) && (3 <=? n)) eqn:G.
  { right; right. split; [reflexivity|].
    apply andb_true_iff in G as [_ G]. apply Z.leb_le in G. unfold n in G. lia. }
  destruct (n =? 1) eqn:N1; [left; reflexivity|].
  destruct ((3 <=? n) && QgsPointXY_eq first (last points first)) eqn:C.
  { right; right. split; [reflexivity|].
    apply andb_true_iff in C as [C _]. apply Z.leb_le in C. unfold n in C. lia. }
  destruct (2 <=? n) eqn:N2.
  { right; left. split; [reflexivity|]. apply Z.leb_le in N2. unfold n in N2. lia. }
  apply Z.eqb_neq in N1. apply Z.leb_gt in N2. lia.
Qed.

Lemma split_on_field (sep : ascii) (a r : string) :
  PyStr.all_chars (fun c => negb (Ascii.eqb c sep)) a = true ->
  PyStr.split_on sep (a ++ String sep r) = a :: PyStr.split_on sep r.
Proof.
  induction a as [|c a IH]; cbn [String.append PyStr.all_chars PyStr.split_on].
  - intros _. rewrite Ascii.eqb_refl. reflexivity.
  - intros H. apply andb_true_iff in H as [Hc Ha].
    apply negb_true_iff in Hc. rewrite Hc, (IH Ha). reflexivity.
Qed.

Lemma split_on_single (sep : ascii) (a : string) :
  PyStr.all_chars (fun c => negb (Ascii.eqb c sep)) a = true ->
  PyStr.split_on sep a = [a].
Proof.
  induction a as [|c a IH]; cbn [PyStr.all_chars PyStr.split_on].
  - reflexivity.
  - intros H. apply andb_true_iff in H as [Hc Ha].
    apply negb_true_iff in Hc. rewrite Hc, (IH Ha). reflexivity.
Qed.

(** X14: of a KML coordinate tuple only the first two comma-separated
    fields are read: a tuple longitude, latitude, altitude gives the
    point that the tuple longitude, latitude gives, whatever the text
    after the second comma is. *)
Theorem kml_altitude_ignored (lon lat alt : string) (more : list string) :
  PyStr.all_chars (fun c => negb (Ascii.eqb c ",")) lon = true ->
  PyStr.all_chars (fun c => negb (Ascii.eqb c ",")) lat = true ->
  kml_points ((lon ++ "," ++ lat ++ "," ++ alt)%string :: more)
  = kml_points ((lon ++ "," ++ lat)%string :: more).
Proof.
  intros Hlon Hlat. cbn [kml_points].
  change ("," ++ lat ++ "," ++ alt)%string
    with (String "," (lat ++ String "," alt)).
  change ("," ++ lat)%string with (String "," lat).
  rewrite (split_on_field _ _ _ Hlon), (split_on_field _ _ _ Hlat).
  rewrite (split_on_field _ _ _ Hlon), (split_on_single _ _ Hlat).
  destruct (PyStr.split_on "," alt); reflexivity.
Qed.

(** X15: an Earth Engine polygon given as one flat ring of positions
    decodes as the polygon in which that ring is nested one list deeper;
    a ring is flat when its first position does not start with a list. *)
Theorem ee_polygon_flat_ring (a : pyval) (r more : list pyval) :
  Py.is_list a = false ->
  ee_build "polygon" (PList [PList (PList (a :: r) :: more)])
  = ee_build "polygon" (PList (PList (a :: r) :: more)).
Proof.
  intros Ha. unfold ee_build. eqb_names.
  cbn [Py.truthy]. rewrite !getitem_0. cbn [bind Py.is_list Py.truthy].
  rewrite !getitem_0. cbn [bind Py.is_list]. rewrite Ha.
  cbn [Py.iter bind collect].
  destruct (points_of (PList (PList (a :: r) :: more))) as [points|e];
    [|reflexivity].
  cbn [bind]. destruct (len_ge points 3); reflexivity.
Qed.

End KmlMore.

(* ===================================================================== *)
(** ** The geometry type of a column *)
(* ===================================================================== *)

Section KindMore.
Context {P : Platform}.
Variable wkbType : QgsGeometry -> Z.
Import GeometryParser GeometryFormat GeometryKind ImportDialog.

(** [parse] returns, whatever it is given. *)
Lemma parse_returns (value format_type : string) (srid : Z)
    (x_value y_value : option float) :
  exists log r, parse value format_type srid x_value y_value = (log, Return r).
Proof.
  unfold parse. destruct (String.eqb format_type XY).
  { unfold _parse_xy. destruct x_value, y_value; do 2 eexists; reflexivity. }
  destruct (PyStr.is_empty value); [do 2 eexists; reflexivity|]. cbv zeta.
  destruct (PyStr.is_empty (PyStr.strip value)); [do 2 eexists; reflexivity|].
  apply try_all_returns.
Qed.

Lemma bindM_return {A B : Type} (l : list log_entry) (a : A) (k : A -> M B) :
  bindM (l, Return a) k = ((l ++ fst (k a))%list, snd (k a)).
Proof. unfold bindM. destruct (k a); reflexivity. Qed.

(** X16: [get_geometry_type_from_sample] never raises, and under the
    coordinate-pair format it answers Unknown for every list of samples,
    without logging: the samples are not read under that format, and no
    coordinates are passed. *)
Theorem sample_type_returns :
  (forall (samples : list string) (format_type : string),
     exists log t,
       get_geometry_type_from_sample wkbType samples format_type
       = (log, Return t))
  /\ (forall samples : list string,
        get_geometry_type_from_sample wkbType samples XY
        = ([], Return QgsWkbTypes.Unknown)).
Proof.
  split.
  - intros samples format_type.
    induction samples as [|sample samples (log & t & IH)];
      [do 2 eexists; reflexivity|].
    cbn [get_geometry_type_from_sample].
    destruct (PyStr.is_empty sample); [eauto|].
    destruct (parse_returns sample format_type 4326 None None) as (l & r & ->).
    rewrite bindM_return.
    destruct (usable r) as [g|].
    + do 2 eexists. reflexivity.
    + rewrite IH. do 2 eexists. reflexivity.
  - intros samples. induction samples as [|sample samples IH]; [reflexivity|].
    cbn [get_geometry_type_from_sample].
    destruct (PyStr.is_empty sample); [exact IH|].
    unfold parse. eqb_names. cbn [_parse_xy]. unfold ret at 1.
    rewrite bindM_return. cbn [usable]. rewrite IH. reflexivity.
Qed.

(** X17: the loop with which [import_csv] chooses the geometry type of
    the layer computes, for every format but the coordinate pair and for
    a column index that is not negative, what
    [get_geometry_type_from_sample] computes on the cells of the geometry
    column, a row too short for the column counting as an empty cell:
    same type and same log. *)
Theorem layer_type_is_sample_type (format_type : string) (geom_col_idx : Z)
    (rows : list (list string)) :
  format_type <> XY -> 0 <= geom_col_idx ->
  layer_geometry_type wkbType format_type geom_col_idx rows
  = get_geometry_type_from_sample wkbType
      (map (fun row => cell_or_empty row geom_col_idx) rows) format_type.
Proof.
  intros Hf _. apply String.eqb_neq in Hf.
  induction rows as [|row rows IH]; [reflexivity|].
  cbn [layer_geometry_type map get_geometry_type_from_sample]. rewrite Hf.
  destruct (geom_col_idx <? Z.of_nat (List.length row)) eqn:L.
  - cbn [andb].
    destruct (PyStr.is_empty (cell_or_empty row geom_col_idx));
      cbn [negb]; [exact IH|].
    destruct (parse _ format_type 4326 None None) as [l [geom|e]];
      [|reflexivity].
    rewrite !bindM_return. destruct (usable geom); [reflexivity|].
    rewrite IH. reflexivity.
  - cbn [andb]. unfold cell_or_empty at 1. rewrite L. exact IH.
Qed.

End KindMore.

(* ===================================================================== *)
(** ** The import dialog *)
(* ===================================================================== *)

Section DialogMore.
Context {P : Platform}.
Variable wkbType : QgsGeometry -> Z.
Import GeometryParser GeometryFormat GeometryKind ImportDialog.

Lemma index_from_bounds (col : string) (headers : list string) (i : Z) :
  has_column col headers = true ->
  i <= index_from i col headers < i + Z.of_nat (List.length headers).
Proof.
  revert i; induction headers as [|h headers IH]; intros i; [discriminate|].
  cbn [has_column existsb index_from List.length].
  rewrite (String.eqb_sym col h). destruct (String.eqb h col); [lia|].
  cbn [orb]. intros H. specialize (IH (i + 1) H). lia.
Qed.

Lemma column_index_negative (col : string) (headers : list string) :
  (column_index col headers <? 0) = negb (has_column col headers).
Proof.
  unfold column_index. destruct (has_column col headers) eqn:H; [|reflexivity].
  pose proof (index_from_bounds col headers 0 H). cbn [negb].
  apply Z.ltb_ge. lia.
Qed.

Lemma row_geometry_returns (format_type : string) (x_idx y_idx geom_col_idx : Z)
    (row : list string) :
  exists log r,
    row_geometry format_type x_idx y_idx geom_col_idx row = (log, Return r).
Proof.
  unfold row_geometry. destruct (String.eqb format_type XY).
  - destruct (coordinate_cell row x_idx); [|do 2 eexists; reflexivity].
    destruct (coordinate_cell row y_idx); [|do 2 eexists; reflexivity].
    apply parse_returns.
  - apply parse_returns.
Qed.

Lemma layer_geometry_type_returns (format_type : string) (geom_col_idx : Z)
    (rows : list (list string)) :
  exists log t,
    layer_geometry_type wkbType format_type geom_col_idx rows = (log, Return t).
Proof.
  induction rows as [|row rows (log & t & IH)]; [do 2 eexists; reflexivity|].
  cbn [layer_geometry_type].
  destruct (String.eqb format_type XY); [do 2 eexists; reflexivity|].
  destruct (_ && _); [|eauto].
  destruct (parse_returns (cell_or_empty row geom_col_idx) format_type 4326
              None None) as (l & r & ->).
  rewrite bindM_return. destruct (usable r).
  - do 2 eexists. reflexivity.
  - rewrite IH. do 2 eexists. reflexivity.
Qed.

Lemma row_attributes_length (format_type : string) (x_idx y_idx geom_col_idx : Z)
    (headers row : list string) :
  List.length (row_attributes format_type x_idx y_idx geom_col_idx
                 (enumerate_from 0 headers) row)
  = List.length (attribute_headers format_type x_idx y_idx geom_col_idx headers).
Proof.
  unfold attribute_headers. generalize (enumerate_from 0 headers) as columns.
  induction columns as [|[i h] columns IH].
  - destruct (String.eqb format_type XY); reflexivity.
  - cbn [row_attributes filter fst]. destruct (String.eqb format_type XY).
    + destruct (negb ((i =? x_idx) || (i =? y_idx)));
        cbn [map List.length]; rewrite IH; reflexivity.
    + destruct (negb (i =? geom_col_idx));
        cbn [map List.length]; rewrite IH; reflexivity.
Qed.

(** What the feature loop establishes, by induction on the rows. *)
Lemma build_features_spec (format_type : string) (skip_invalid : bool)
    (x_idx y_idx geom_col_idx : Z) (headers : list string)
    (data_rows : list (list string)) :
  exists log features invalid_count,
    build_features format_type skip_invalid x_idx y_idx geom_col_idx headers
      data_rows = (log, Return (features, invalid_count))
    /\ 0 <= invalid_count <= Z.of_nat (List.length data_rows)
    /\ Z.of_nat (List.length features)
       + (if skip_invalid then invalid_count else 0)
       = Z.of_nat (List.length data_rows)
    /\ Forall (fun feat =>
                 List.length (attributes feat)
                 = List.length (attribute_headers format_type x_idx y_idx
                                  geom_col_idx headers)) features
    /\ Forall (fun feat =>
                 match geometry feat with
                 | Some g => isNull g = false
                 | None => skip_invalid = false
                 end) features
    /\ Z.of_nat (List.length
                   (filter (fun feat => match geometry feat with
                                        | None => true
                                        | Some _ => false
                                        end) features))
       = (if skip_invalid then 0 else invalid_count).
Proof.
  induction data_rows as [|row rows (log & fs & inv & IH & Hi & Hc & Ha & Hg & Hn)].
  - exists [], [], 0. destruct skip_invalid; cbn;
      repeat split; try lia; constructor.
  - cbn [build_features].
    destruct (row_geometry_returns format_type x_idx y_idx geom_col_idx row)
      as (l & geom & ->).
    rewrite bindM_return, IH, bindM_return. cbn [fst snd].
    pose proof (row_attributes_length format_type x_idx y_idx geom_col_idx
                  headers row) as La.
    destruct (is_invalid geom) eqn:I.
    + destruct skip_invalid.
      * exists (l ++ log ++ [])%list, fs, (inv + 1).
        split; [reflexivity|]. cbn [List.length].
        repeat split; try lia; assumption.
      * eexists (l ++ log ++ [])%list, _, (inv + 1).
        split; [reflexivity|]. cbn [List.length filter geometry].
        repeat split; try lia.
        -- constructor; [exact La | exact Ha].
        -- constructor; [reflexivity | exact Hg].
    + destruct geom as [g|]; [|discriminate I]. cbn [is_invalid] in I.
      eexists (l ++ log ++ [])%list, _, inv.
      split; [reflexivity|]. cbn [List.length filter geometry].
      repeat split; try lia.
      * constructor; [exact La | exact Ha].
      * constructor; [exact I | exact Hg].
Qed.

(** X18: the data handling of [import_csv] never raises, and it ends in
    a warning instead of a layer exactly when the format is Unknown, or
    the file has no row, or a column the format needs is not among the
    headers: the X or the Y column under the coordinate-pair format, the
    geometry column under every other. *)
Theorem import_csv_outcome (format_type : string) (has_header skip_invalid : bool)
    (x_col y_col geom_col : string) (rows : list (list string)) :
  exists log r,
    import_csv wkbType format_type has_header skip_invalid x_col y_col
      geom_col rows = (log, Return r)
    /\ ((exists message, r = Warned message)
        <-> format_type = UNKNOWN \/ rows = []
            \/ exists first rest,
                 rows = first :: rest
                 /\ (if String.eqb format_type XY
                     then has_column x_col
                            (fst (split_header has_header first rest))
                          && has_column y_col
                               (fst (split_header has_header first rest))
                     else has_column geom_col
                            (fst (split_header has_header first rest)))
                    = false).
Proof.
  unfold import_csv.
  destruct (String.eqb format_type UNKNOWN) eqn:U.
  { apply String.eqb_eq in U. do 2 eexists. split; [reflexivity|].
    split; [auto | eauto]. }
  apply String.eqb_neq in U.
  destruct rows as [|first rest].
  { do 2 eexists. split; [reflexivity|]. split; [auto | eauto]. }
  destruct (split_header has_header first rest) as [headers data_rows] eqn:S.
  assert (W : forall (c : bool) (message : string) (m : M import_result),
            (c = true ->
             (if String.eqb format_type XY
              then has_column x_col headers && has_column y_col headers
              else has_column geom_col headers) = false) ->
            (c = false ->
             exists log r, m = (log, Return r)
               /\ (if String.eqb format_type XY
                   then has_column x_col headers && has_column y_col headers
                   else has_column geom_col headers) = true
               /\ forall message', r <> Warned message') ->
            exists log r,
              (if c then ret (Warned message) else m) = (log, Return r)
              /\ ((exists message', r = Warned message')
                  <-> format_type = UNKNOWN \/ first :: rest = []
                      \/ exists first' rest',
                           first :: rest = first' :: rest'
                           /\ (if String.eqb format_type XY
                               then has_column x_col
                                      (fst (split_header has_header first' rest'))
                                    && has_column y_col
                                         (fst (split_header has_header first' rest'))
                               else has_column geom_col
                                      (fst (split_header has_header first' rest')))
                              = false)).
  { intros c message m Ht Hf. destruct c.
    - do 2 eexists. split; [reflexivity|]. split; [|eauto].
      intros _. right; right. exists first, rest. rewrite S.
      split; [reflexivity | exact (Ht eq_refl)].
    - destruct (Hf eq_refl) as (log & r & -> & Hc & Hr).
      exists log, r. split; [reflexivity|]. split.
      + intros [message' E]. exfalso. exact (Hr _ E).
      + intros [E | [E | (first' & rest' & E & K)]];
          [contradiction | discriminate E |].
        injection E as <- <-. rewrite S in K. cbn [fst] in K.
        rewrite Hc in K. discriminate K. }
  destruct (String.eqb format_type XY) eqn:X; cbv zeta iota; cbn [andb negb].
  - rewrite !column_index_negative. apply W.
    + intros C. destruct (has_column x_col headers); [|reflexivity].
      destruct (has_column y_col headers); [discriminate C | reflexivity].
    + intros C.
      destruct (layer_geometry_type_returns format_type (-1)
                  (firstn 100 data_rows)) as (l1 & t & ->).
      destruct (build_features_spec format_type skip_invalid
                  (column_index x_col headers) (column_index y_col headers)
                  (-1) headers data_rows) as (l2 & fs & inv & -> & _).
      rewrite !bindM_return. do 2 eexists. split; [reflexivity|].
      split; [|intros message' E; discriminate E].
      destruct (has_column x_col headers); [|discriminate C].
      destruct (has_column y_col headers); [reflexivity | discriminate C].
  - apply W.
    + intros C. apply negb_true_iff in C. exact C.
    + intros C. apply negb_false_iff in C.
      destruct (layer_geometry_type_returns format_type
                  (index_from 0 geom_col headers)
                  (firstn 100 data_rows)) as (l1 & t & ->).
      destruct (build_features_spec format_type skip_invalid (-1) (-1)
                  (index_from 0 geom_col headers) headers data_rows)
        as (l2 & fs & inv & -> & _).
      rewrite !bindM_return. do 2 eexists. split; [reflexivity|].
      split; [exact C | intros message' E; discriminate E].
Qed.

(** What [import_csv] has computed when it creates the layer. *)
Lemma import_csv_imported (format_type : string) (has_header skip_invalid : bool)
    (x_col y_col geom_col : string) (rows : list (list string))
    (log : list log_entry) (names : list string) (geom_type : Z)
    (features : list QgsFeature) (invalid_count : Z) :
  import_csv wkbType format_type has_header skip_invalid x_col y_col geom_col
    rows = (log, Return (Imported names geom_type features invalid_count)) ->
  exists first rest x_idx y_idx geom_col_idx l1 l2,
    rows = first :: rest
    /\ names = attribute_headers format_type x_idx y_idx geom_col_idx
                 (fst (split_header has_header first rest))
    /\ layer_geometry_type wkbType format_type geom_col_idx
         (firstn 100 (snd (split_header has_header first rest)))
       = (l1, Return geom_type)
    /\ build_features format_type skip_invalid x_idx y_idx geom_col_idx
         (fst (split_header has_header first rest))
         (snd (split_header has_header first rest))
       = (l2, Return (features, invalid_count)).
Proof.
  unfold import_csv.
  destruct (String.eqb format_type UNKNOWN); [discriminate|].
  destruct rows as [|first rest]; [discriminate|].
  destruct (split_header has_header first rest) as [headers data_rows] eqn:S.
  cbv zeta.
  match goal with
  | |- (if ?c then _ else _) = _ -> _ => destruct c; [discriminate|]
  end.
  match goal with
  | |- (if ?c then _ else _) = _ -> _ => destruct c; [discriminate|]
  end.
  match goal with
  | |- context [layer_geometry_type wkbType format_type ?g _] =>
      destruct (layer_geometry_type_returns format_type g
                  (firstn 100 data_rows)) as (l1 & t & E1)
  end.
  rewrite E1, bindM_return.
  match goal with
  | |- context [build_features format_type skip_invalid ?x ?y ?g headers _] =>
      destruct (build_features_spec format_type skip_invalid x y g headers
                  data_rows) as (l2 & fs & inv & E2 & _);
      rewrite E2, bindM_return; cbn [fst snd ret];
      intros [= <- <- <- <- <-];
      exists first, rest, x, y, g, l1, l2
  end.
  rewrite S. cbn [fst snd]. repeat split; first [reflexivity | assumption].
Qed.

(** X19: every data row of the file is accounted for.  When
    [import_csv] creates the layer, the features and, if invalid rows are
    skipped, the rows counted invalid add up to the rows of the file
    less the header line; the invalid count is never negative. *)
Theorem import_accounts_for_every_row (format_type : string)
    (has_header skip_invalid : bool) (x_col y_col geom_col : string)
    (rows : list (list string)) (log : list log_entry) (names : list string)
    (geom_type : Z) (features : list QgsFeature) (invalid_count : Z) :
  import_csv wkbType format_type has_header skip_invalid x_col y_col geom_col
    rows = (log, Return (Imported names geom_type features invalid_count)) ->
  0 <= invalid_count
  /\ Z.of_nat (List.length features)
     + (if skip_invalid then invalid_count else 0)
     + (if has_header then 1 else 0)
     = Z.of_nat (List.length rows).
Proof.
  intros H. apply import_csv_imported in H
    as (first & rest & x & y & g & l1 & l2 & -> & _ & _ & B).
  destruct (build_features_spec format_type skip_invalid x y g
              (fst (split_header has_header first rest))
              (snd (split_header has_header first rest)))
    as (l & fs & inv & E & Hi & Hc & _).
  rewrite B in E. injection E as _ <- <-.
  split; [lia|]. rewrite Hc. unfold split_header.
  destruct has_header; cbn [snd List.length]; lia.
Qed.

(** X20: every feature that [import_csv] creates has exactly as many
    attributes as the layer has fields, also for a row that is shorter
    or longer than the header line. *)
Theorem import_attributes_match_fields (format_type : string)
    (has_header skip_invalid : bool) (x_col y_col geom_col : string)
    (rows : list (list string)) (log : list log_entry) (names : list string)
    (geom_type : Z) (features : list QgsFeature) (invalid_count : Z) :
  import_csv wkbType format_type has_header skip_invalid x_col y_col geom_col
    rows = (log, Return (Imported names geom_type features invalid_count)) ->
  Forall (fun feat => List.length (attributes feat) = List.length names)
         features.
Proof.
  intros H. apply import_csv_imported in H
    as (first & rest & x & y & g & l1 & l2 & -> & -> & _ & B).
  destruct (build_features_spec format_type skip_invalid x y g
              (fst (split_header has_header first rest))
              (snd (split_header has_header first rest)))
    as (l & fs & inv & E & _ & _ & Ha & _).
  rewrite B in E. injection E as _ <- <-. exact Ha.
Qed.

(** X21: the geometries of the features that [import_csv] creates.  A
    feature with a geometry has one that is not null; a feature without
    geometry exists only when invalid rows are kept, and then the
    features without geometry are as many as the rows counted invalid. *)
Theorem import_geometries (format_type : string)
    (has_header skip_invalid : bool) (x_col y_col geom_col : string)
    (rows : list (list string)) (log : list log_entry) (names : list string)
    (geom_type : Z) (features : list QgsFeature) (invalid_count : Z) :
  import_csv wkbType format_type has_header skip_invalid x_col y_col geom_col
    rows = (log, Return (Imported names geom_type features invalid_count)) ->
  Forall (fun feat => match geometry feat with
                      | Some g => isNull g = false
                      | None => skip_invalid = false
                      end) features
  /\ Z.of_nat (List.length
                 (filter (fun feat => match geometry feat with
                                      | None => true
                                      | Some _ => false
                                      end) features))
     = (if skip_invalid then 0 else invalid_count).
Proof.
  intros H. apply import_csv_imported in H
    as (first & rest & x & y & g & l1 & l2 & -> & _ & _ & B).
  destruct (build_features_spec format_type skip_invalid x y g
              (fst (split_header has_header first rest))
              (snd (split_header has_header first rest)))
    as (l & fs & inv & E & _ & _ & _ & Hg & Hn).
  rewrite B in E. injection E as _ <- <-. split; assumption.
Qed.

Lemma has_column_app (col : string) (pre post : list string) :
  has_column col (pre ++ col :: post) = true.
Proof.
  unfold has_column. rewrite existsb_app. cbn [existsb].
  rewrite String.eqb_refl, orb_true_r. reflexivity.
Qed.

Lemma index_from_first (col : string) (pre post : list string) (i : Z) :
  ~ In col pre ->
  index_from i col (pre ++ col :: post) = i + Z.of_nat (List.length pre).
Proof.
  revert i; induction pre as [|h pre IH]; intros i N.
  - cbn [app index_from List.length]. rewrite String.eqb_refl. lia.
  - cbn [app index_from List.length].
    destruct (String.eqb h col) eqn:E.
    + apply String.eqb_eq in E. contradiction N. left. exact E.
    + rewrite IH; [lia|]. intros K. apply N. right. exact K.
Qed.

Lemma columns_after_kept (idx i : Z) (headers : list string) :
  idx < i ->
  map snd (filter (fun ih : Z * string => negb (fst ih =? idx))
                  (enumerate_from i headers)) = headers.
Proof.
  revert i; induction headers as [|h headers IH]; intros i L; [reflexivity|].
  cbn [enumerate_from filter fst].
  replace (i =? idx) with false by (symmetry; apply Z.eqb_neq; lia).
  cbn [negb map snd]. rewrite IH by lia. reflexivity.
Qed.

Lemma column_removed_once (i : Z) (col : string) (pre post : list string) :
  map snd (filter (fun ih : Z * string =>
                     negb (fst ih =? i + Z.of_nat (List.length pre)))
                  (enumerate_from i (pre ++ col :: post)))
  = (pre ++ post)%list.
Proof.
  revert i; induction pre as [|h pre IH]; intros i.
  - cbn [app enumerate_from filter fst List.length].
    replace (i =? i + Z.of_nat 0) with true by (symmetry; apply Z.eqb_eq; lia).
    cbn [negb]. apply columns_after_kept. lia.
  - cbn [app enumerate_from filter fst List.length].
    replace (i =? i + Z.of_nat (S (List.length pre))) with false
      by (symmetry; apply Z.eqb_neq; lia).
    cbn [negb map snd].
    replace (i + Z.of_nat (S (List.length pre)))
      with (i + 1 + Z.of_nat (List.length pre)) by lia.
    rewrite IH. reflexivity.
Qed.

(** X22: with a header line and a format other than the coordinate pair,
    the fields of the layer are the headers without the first column
    that carries the name of the geometry column, in their order; a
    later column of the same name stays an attribute. *)
Theorem geometry_column_removed_once (format_type : string)
    (skip_invalid : bool) (x_col y_col geom_col : string)
    (pre post : list string) (rest : list (list string)) :
  format_type <> XY -> format_type <> UNKNOWN -> ~ In geom_col pre ->
  exists log geom_type features invalid_count,
    import_csv wkbType format_type true skip_invalid x_col y_col geom_col
      ((pre ++ geom_col :: post)%list :: rest)
    = (log, Return (Imported (pre ++ post)%list geom_type features invalid_count)).
Proof.
  intros X U N. apply String.eqb_neq in X. apply String.eqb_neq in U.
  unfold import_csv. rewrite U. cbn [split_header]. rewrite X.
  cbv zeta iota. cbn [andb negb]. rewrite has_column_app. cbn [negb].
  rewrite (index_from_first _ _ _ 0 N).
  destruct (layer_geometry_type_returns format_type
              (0 + Z.of_nat (List.length pre)) (firstn 100 rest))
    as (l1 & t & ->).
  destruct (build_features_spec format_type skip_invalid (-1) (-1)
              (0 + Z.of_nat (List.length pre)) (pre ++ geom_col :: post)%list rest)
    as (l2 & fs & inv & -> & _).
  rewrite !bindM_return. cbn [fst snd ret].
  unfold attribute_headers. rewrite X, column_removed_once.
  do 4 eexists. reflexivity.
Qed.

Lemma first_detected_spec (col_idx : Z) (preview : list (list string)) :
  (first_detected col_idx preview = Return UNKNOWN
   <-> Forall (fun row => detect_format (cell_or_empty row col_idx)
                          = Return UNKNOWN) preview)
  /\ (forall detected,
        first_detected col_idx preview = Return detected ->
        detected <> UNKNOWN ->
        exists row, In row preview
          /\ detect_format (cell_or_empty row col_idx) = Return detected)
  /\ (forall e,
        first_detected col_idx preview = Raise e ->
        exists row, In row preview
          /\ detect_format (cell_or_empty row col_idx) = Raise e).
Proof.
  induction preview as [|row preview (IH1 & IH2 & IH3)].
  - split; [split; [constructor | reflexivity]|].
    split; [intros d [= <-] N; contradiction N; reflexivity|].
    intros e H; discriminate H.
  - cbn [first_detected].
    assert (K : detect_format (cell_or_empty row col_idx) = Return UNKNOWN ->
                (first_detected col_idx preview = Return UNKNOWN
                 <-> Forall (fun row => detect_format (cell_or_empty row col_idx)
                                        = Return UNKNOWN) (row :: preview))
                /\ (forall detected,
                      first_detected col_idx preview = Return detected ->
                      detected <> UNKNOWN ->
                      exists r, In r (row :: preview)
                        /\ detect_format (cell_or_empty r col_idx)
                           = Return detected)
                /\ (forall e,
                      first_detected col_idx preview = Raise e ->
                      exists r, In r (row :: preview)
                        /\ detect_format (cell_or_empty r col_idx) = Raise e)).
    { intros D. split; [|split].
      - rewrite IH1. split; [intros F; constructor; assumption|].
        intros F. inversion F; assumption.
      - intros d Hd N. destruct (IH2 d Hd N) as (r & I & E).
        exists r. split; [right; exact I | exact E].
      - intros e He. destruct (IH3 e He) as (r & I & E).
        exists r. split; [right; exact I | exact E]. }
    destruct (_ && _) eqn:C.
    + cbv zeta.
      destruct (detect_format (cell_or_empty row col_idx)) as [f|e] eqn:D;
        cbn [bind].
      * destruct (String.eqb f UNKNOWN) eqn:Q; cbn [negb].
        -- apply String.eqb_eq in Q. subst f. apply K. reflexivity.
        -- apply String.eqb_neq in Q. split; [|split].
           ++ split; [intros [= E]; contradiction|].
              intros F. inversion F as [|? ? E _]; subst.
              rewrite D in E. injection E as E. contradiction.
           ++ intros d [= <-] _. exists row.
              split; [left; reflexivity | exact D].
           ++ intros e H; discriminate H.
      * split; [|split].
        -- split; [intros H; discriminate H|].
           intros F. inversion F as [|? ? E _]; subst.
           rewrite D in E. discriminate E.
        -- intros d H; discriminate H.
        -- intros e' [= <-]. exists row.
           split; [left; reflexivity | exact D].
    + apply K. apply andb_false_iff in C as [C | C].
      * unfold cell_or_empty. rewrite C. reflexivity.
      * apply negb_false_iff in C.
        destruct (cell_or_empty row col_idx); [reflexivity | discriminate C].
Qed.

(** X23: for a column that is among the headers, [detect_geometry_format]
    sets the format to Unknown exactly when [detect_format] answers
    Unknown on every preview cell of that column, a row too short for the
    column counting as an empty cell; any other format it sets is the
    answer of [detect_format] on a preview cell of that column; and when
    it raises, which leaves the format as it was, the exception is one
    that [detect_format] raises on a preview cell of that column. *)
Theorem column_format_detection (col_name : string) (csv_headers : list string)
    (csv_preview_data : list (list string)) :
  col_name <> "" -> has_column col_name csv_headers = true ->
  (detect_geometry_format col_name csv_headers csv_preview_data
   = Return (Some UNKNOWN)
   <-> Forall (fun row =>
                 detect_format
                   (cell_or_empty row (index_from 0 col_name csv_headers))
                 = Return UNKNOWN) csv_preview_data)
  /\ (forall detected,
        detect_geometry_format col_name csv_headers csv_preview_data
        = Return (Some detected) ->
        detected <> UNKNOWN ->
        exists row, In row csv_preview_data
          /\ detect_format
               (cell_or_empty row (index_from 0 col_name csv_headers))
             = Return detected)
  /\ (forall e,
        detect_geometry_format col_name csv_headers csv_preview_data = Raise e ->
        exists row, In row csv_preview_data
          /\ detect_format
               (cell_or_empty row (index_from 0 col_name csv_headers))
             = Raise e)
  /\ detect_geometry_format col_name csv_headers csv_preview_data
     <> Return None.
Proof.
  intros Hn Hc. unfold detect_geometry_format. rewrite Hc.
  destruct col_name as [|c col_name]; [contradiction Hn; reflexivity|].
  cbn [PyStr.is_empty orb negb]. cbv zeta.
  destruct (first_detected_spec (index_from 0 (String c col_name) csv_headers)
              csv_preview_data) as (S1 & S2 & S3).
  destruct (first_detected _ csv_preview_data) as [f|e]; cbn [bind].
  - split; [|split; [|split]].
    + rewrite <- S1. split; intros [= ->]; reflexivity.
    + intros d [= <-] N. exact (S2 f eq_refl N).
    + intros e H; discriminate H.
    + discriminate.
  - split; [|split; [|split]].
    + rewrite <- S1. split; intros H; discriminate H.
    + intros d H; discriminate H.
    + intros e' [= <-]. exact (S3 e eq_refl).
    + discriminate.
Qed.

End DialogMore.

(* ===================================================================== *)
(** ** The column names the dialog recognises *)
(* ===================================================================== *)

Section ColumnNames.
Import ImportDialog.

Lemma eqb_or_contains (kw s : string) :
  String.eqb kw s || PyStr.contains kw s = PyStr.contains kw s.
Proof.
  destruct (String.eqb kw s) eqn:E; [|reflexivity].
  apply String.eqb_eq in E. subst s. rewrite contains_refl. reflexivity.
Qed.

Lemma names_any_contains (keywords : list string) (col : string) :
  names_any keywords col
  = existsb (fun kw => PyStr.contains kw (PyStr.lower col)) keywords.
Proof.
  unfold names_any. cbv zeta.
  induction keywords as [|kw keywords IH]; [reflexivity|].
  cbn [existsb]. rewrite eqb_or_contains, IH. reflexivity.
Qed.

(** X24: the keyword tests of [auto_detect_xy_columns] are substring
    tests on the lower-cased column name.  A column counts as an X column
    exactly when its name contains [lon], [lng], [x] or [easting], and as
    a Y column exactly when it contains [lat], [y] or [northing]: any
    name with the letter x, or with the letter y, qualifies. *)
Theorem xy_keywords_are_substrings (col : string) :
  names_any x_keywords col
  = existsb (fun kw => PyStr.contains kw (PyStr.lower col))
            ["lon"; "lng"; "x"; "easting"]
  /\ names_any y_keywords col
     = existsb (fun kw => PyStr.contains kw (PyStr.lower col))
               ["lat"; "y"; "northing"].
Proof.
  rewrite !names_any_contains. unfold x_keywords, y_keywords.
  generalize (PyStr.lower col) as s; intros s.
  pose proof (contains_trans "lon" "longitude" s eq_refl) as T1.
  pose proof (contains_trans "lon" "long" s eq_refl) as T2.
  pose proof (contains_trans "x" "x_coord" s eq_refl) as T3.
  pose proof (contains_trans "x" "xcoord" s eq_refl) as T4.
  pose proof (contains_trans "lat" "latitude" s eq_refl) as T5.
  pose proof (contains_trans "y" "y_coord" s eq_refl) as T6.
  pose proof (contains_trans "y" "ycoord" s eq_refl) as T7.
  cbn [existsb]. rewrite !orb_false_r.
  split; apply Bool.eq_iff_eq_true; rewrite !orb_true_iff; tauto.
Qed.

Lemma last_cons {A : Type} (a d : A) (l : list A) :
  last (a :: l) d = last l a.
Proof.
  revert a d; induction l as [|b l IH]; intros a d; [reflexivity|].
  change (last (a :: b :: l) d) with (last (b :: l) d).
  rewrite (IH b d), (IH b a). reflexivity.
Qed.

(** X25: [auto_detect_xy_columns] leaves each box on the last header
    that passes its keyword test, not on the first; a box for which no
    header passes keeps its text. *)
Theorem xy_columns_last_match (csv_headers : list string)
    (x_column y_column : string) :
  auto_detect_xy_columns csv_headers x_column y_column
  = (last (filter (names_any x_keywords) csv_headers) x_column,
     last (filter (names_any y_keywords) csv_headers) y_column).
Proof.
  revert x_column y_column.
  induction csv_headers as [|col headers IH]; intros x_column y_column;
    [reflexivity|].
  cbn [auto_detect_xy_columns filter]. cbv zeta. rewrite IH.
  destruct (names_any x_keywords col), (names_any y_keywords col);
    rewrite ?last_cons; reflexivity.
Qed.

(** X26: the keyword test of [auto_detect_geometry_column] is a substring
    test on the lower-cased column name: a column counts as a geometry
    column exactly when its name contains one of [geom], [wkt], [wkb],
    [shape], [geojson], [geo_json], [coord]. *)
Theorem geometry_keywords_are_substrings (col : string) :
  names_geometry col
  = existsb (fun kw => PyStr.contains kw (PyStr.lower col))
            ["geom"; "wkt"; "wkb"; "shape"; "geojson"; "geo_json"; "coord"].
Proof.
  unfold names_geometry, geometry_keywords.
  generalize (PyStr.lower col) as s; intros s.
  assert (E : forall kw, String.eqb s kw = true -> PyStr.contains kw s = true).
  { intros kw H. apply String.eqb_eq in H. subst kw. apply contains_refl. }
  pose proof (E "geometry") as E1. pose proof (E "geom") as E2.
  pose proof (E "wkt") as E3. pose proof (E "wkb") as E4.
  pose proof (E "shape") as E5. pose proof (E "the_geom") as E6.
  pose proof (E "geojson") as E7. pose proof (E "geo_json") as E8.
  pose proof (E "coordinates") as E9. pose proof (E "coord") as E10.
  pose proof (contains_trans "geom" "geometry" s eq_refl) as T1.
  pose proof (contains_trans "geom" "the_geom" s eq_refl) as T2.
  pose proof (contains_trans "coord" "coordinates" s eq_refl) as T3.
  clear E. cbn [existsb]. rewrite !orb_false_r.
  apply Bool.eq_iff_eq_true; rewrite !orb_true_iff; tauto.
Qed.

End ColumnNames.

(* ===================================================================== *)
(** ** Silent failures, generated headers and the JSON fallback *)
(* ===================================================================== *)

From Stdlib Require Import DecimalNat DecimalFacts.

Section Further.
Context {P : Platform}.
Import GeometryParser GeometryFormat ImportDialog.

(** X27: under the WKT tag [parse] never writes to the message log, and
    under the EWKT tag it writes nothing either, with one exception: a
    text that the geometry library rejects, and an EWKT text that does
    not have the form [SRID=<digits>;<text>], give no geometry and no
    warning; an EWKT text whose SRID has more digits than [int] accepts
    gives the one warning of the catch-all of [parse], with the
    [ValueError] of [int] as its cause. *)
Theorem wkt_failures_are_silent (value : string) (srid : Z)
    (x_value y_value : option float) :
  fst (parse value WKT srid x_value y_value) = []
  /\ fst (parse value EWKT srid x_value y_value)
     = match ewkt_match (PyStr.strip value) with
       | Some (digits, _) =>
           if int_max_str_digits <? Z.of_nat (String.length digits)
           then [Warning "Error parsing geometry: " (Some ValueError)]
           else []
       | None => []
       end.
Proof.
  split; unfold parse; eqb_names.
  - destruct (PyStr.is_empty value); [reflexivity|]. cbv zeta.
    destruct (PyStr.is_empty (PyStr.strip value)); [reflexivity|].
    unfold _parse_wkt. destruct (isNull _ || isEmpty _); reflexivity.
  - destruct (PyStr.is_empty value) eqn:E.
    { rewrite (strip_nil_of_empty _ E). reflexivity. }
    cbv zeta. destruct (PyStr.is_empty (PyStr.strip value)) eqn:T.
    { destruct (PyStr.strip value); [reflexivity | discriminate T]. }
    rewrite parse_ewkt_factors.
    destruct (ewkt_match _) as [[g1 g2]|]; [|reflexivity].
    destruct (int_max_str_digits <? _); [reflexivity|].
    unfold _parse_wkt. destruct (isNull _ || isEmpty _); reflexivity.
Qed.

Lemma column_name_inj (i j : nat) :
  ("Column_" ++ NilZero.string_of_uint (Nat.to_uint (i + 1)))%string
  = ("Column_" ++ NilZero.string_of_uint (Nat.to_uint (j + 1)))%string ->
  i = j.
Proof.
  intros H. cbn [String.append] in H. injection H as H.
  assert (N : forall n, Nat.to_uint n <> Decimal.Nil).
  { intros n. pose proof (Unsigned.to_of (Nat.to_uint n)) as E.
    rewrite Unsigned.of_to in E. rewrite E. apply unorm_nonnil. }
  pose proof (NilZero.usu _ (N (i + 1)%nat)) as Ui.
  pose proof (NilZero.usu _ (N (j + 1)%nat)) as Uj.
  rewrite H in Ui. rewrite Ui in Uj. injection Uj as Uj.
  apply Unsigned.to_uint_inj in Uj. lia.
Qed.

(** X28: the headers that the dialog generates for a file without a
    header line are as many as the cells of the first row and pairwise
    distinct, so each name selects one column. *)
Theorem column_names_distinct (n : nat) :
  List.length (column_names n) = n /\ NoDup (column_names n).
Proof.
  unfold column_names. split.
  - rewrite length_map, length_seq. reflexivity.
  - apply NoDup_map_NoDup_ForallPairs; [|apply seq_NoDup].
    intros i j _ _ H. exact (column_name_inj i j H).
Qed.

Lemma span_until (p : ascii -> bool) (body : string) (c : ascii) (r : string) :
  PyStr.all_chars p body = true -> p c = false ->
  PyStr.span p (body ++ String c r) = (body, String c r).
Proof.
  intros Ha Hc. induction body as [|b body IH].
  - cbn [String.append PyStr.span]. rewrite Hc. reflexivity.
  - cbn [PyStr.all_chars] in Ha. apply andb_true_iff in Ha as [Hb Ha].
    cbn [String.append PyStr.span]. rewrite Hb, (IH Ha). reflexivity.
Qed.

(** X29: a text that, once trimmed, is one JSON object without a nested
    object and mentions [coordinates] decodes to the same geometry under
    the Earth Engine tag as under the GeoJSON tag: the Earth Engine
    decoder falls back to the GeoJSON decoder on the text from the first
    opening brace to the first closing brace. *)
Theorem flat_json_under_earth_engine (value body : string) (srid : Z)
    (x_value y_value : option float) :
  PyStr.strip value = String "{" (body ++ "}") ->
  body <> "" ->
  PyStr.all_chars (fun c => negb (Ascii.eqb c "}")) body = true ->
  PyStr.contains "coordinates" body = true ->
  snd (parse value EARTH_ENGINE srid x_value y_value)
  = snd (parse value GEOJSON srid x_value y_value).
Proof.
  intros H Hb Ha Hc. unfold parse. eqb_names.
  assert (Hs : PyStr.is_empty value = false).
  { destruct value; [cbn in H; discriminate H | reflexivity]. }
  rewrite Hs. cbv zeta.
  assert (Sv : PyStr.strip (PyStr.strip value) = PyStr.strip value)
    by apply strip_idem.
  revert Sv. rewrite H. intros Sv. cbn [PyStr.is_empty].
  unfold _parse_earth_engine. rewrite Sv.
  assert (Em : ee_match (String "{" (body ++ "}")) = None) by reflexivity.
  rewrite Em.
  assert (C1 : PyStr.contains "{" (String "{" (body ++ "}")) = true).
  { apply contains_iff. exists "", (body ++ "}")%string. reflexivity. }
  assert (C2 : PyStr.contains "coordinates" (String "{" (body ++ "}")) = true).
  { apply contains_iff in Hc as (p & q & ->). apply contains_iff.
    exists (String "{" p), (q ++ "}")%string.
    change (String "{" p ++ "coordinates" ++ q ++ "}")%string
      with (String "{" (p ++ "coordinates" ++ q ++ "}"))%string.
    f_equal. rewrite (append_assoc p). reflexivity. }
  rewrite C1, C2. cbn [andb].
  assert (Sb : search_braces (String "{" (body ++ "}"))
               = Some (String "{" (body ++ "}"))).
  { cbn [search_braces]. change (Ascii.eqb "{" "{") with true. cbv iota.
    rewrite (span_until _ body "}" "" Ha eq_refl).
    destruct body; [contradiction Hb; reflexivity|]. reflexivity. }
  rewrite Sb.
  destruct (_parse_geojson (String "{" (body ++ "}"))) as [l [a|e]];
    [reflexivity|].
  cbn. destruct (is_ValueError e || is_IndexError e); reflexivity.
Qed.

End Further.

(* ===================================================================== *)
(** ** The further properties on the sample documents *)
(* ===================================================================== *)

Section MoreRuns.
Import GeometryParser GeometryFormat GeometryKind ImportDialog.
Local Open Scope float_scope.

Lemma out_of_range_refs_skipped_witness :
  json_loads (Platform := Demo.platform) (Demo.topology "Polygon" "[[0,7]]")
  = Return (PDict Samples.ring_topology_out_of_range)
  /\ Derived.has_key "type" Samples.ring_topology_out_of_range
     && Derived.has_key "coordinates" Samples.ring_topology_out_of_range = false
  /\ Py.len Samples.triangle_arcs = Return 1%Z
  /\ _resolve_topojson_geometry (P := Demo.platform)
       (Spec.without_out_of_range 1%Z Samples.ring_object_out_of_range)
       Samples.triangle_arcs
     = _resolve_topojson_geometry (P := Demo.platform)
         Samples.ring_object_out_of_range Samples.triangle_arcs
  /\ _parse_topojson (P := Demo.platform) (Demo.topology "Polygon" "[[0,7]]")
     = try_except
         (lift (_resolve_topojson_geometry (P := Demo.platform)
                  (Spec.without_out_of_range 1%Z Samples.ring_object_out_of_range)
                  Samples.triangle_arcs))
         is_ValueError
         (fun e => logMessage "TopoJSON parsing error: " (Some e) ;;; ret None).
Proof.
  assert (J : json_loads (Platform := Demo.platform)
                (Demo.topology "Polygon" "[[0,7]]")
              = Return (PDict Samples.ring_topology_out_of_range))
    by (vm_compute; reflexivity).
  assert (L : Py.len Samples.triangle_arcs = Return 1%Z) by reflexivity.
  split; [exact J | split; [reflexivity | split; [exact L | split]]].
  - exact (proj1 (out_of_range_refs_skipped (P := Demo.platform))
             Samples.ring_object_out_of_range Samples.triangle_arcs 1%Z L).
  - exact (proj2 (out_of_range_refs_skipped (P := Demo.platform))
             (Demo.topology "Polygon" "[[0,7]]")
             Samples.ring_topology_out_of_range "a"
             Samples.ring_object_out_of_range [] Samples.triangle_arcs 1%Z
             J eq_refl eq_refl eq_refl L).
Defined.

Lemma detected_hex_is_decoded_witness :
  detect_format (P := Demo.platform) Demo.wkb_point = Return WKB
  /\ (WKB = WKB \/ WKB = EWKB)
  /\ exists wkb_bytes,
       unhexlify (PyStr.strip Demo.wkb_point) = Return wkb_bytes
       /\ (2 * List.length wkb_bytes
           = String.length (PyStr.strip Demo.wkb_point))%nat
       /\ parse (P := Demo.platform) Demo.wkb_point WKB 4326 None None
          = ([], Return (if isNull (Platform := Demo.platform) (fromWkb wkb_bytes)
                            || isEmpty (Platform := Demo.platform)
                                 (fromWkb wkb_bytes)
                         then None else Some (fromWkb wkb_bytes))).
Proof.
  assert (H : WKB = WKB \/ WKB = EWKB) by (left; reflexivity).
  split; [reflexivity | split; [exact H|]].
  exact (detected_hex_is_decoded (P := Demo.platform) Demo.wkb_point WKB 4326
           None None eq_refl H).
Defined.

Lemma json_object_detection_witness :
  PyStr.startswith (PyStr.strip Samples.point_json) "{" = true
  /\ json_loads (Platform := Demo.platform) (PyStr.strip Samples.point_json)
     = Return (PDict Samples.point_object)
  /\ detect_format (P := Demo.platform) Samples.point_json = Return GEOJSON.
Proof.
  split; [reflexivity | split; [reflexivity | ]].
  exact (proj1 (json_object_detection (P := Demo.platform) Samples.point_json
                  Samples.point_object eq_refl eq_refl) eq_refl).
Defined.

Lemma malformed_hex_is_logged_witness :
  Derived.is_hex_text (PyStr.strip " 0101zz ") = false
  /\ parse (P := Demo.platform) " 0101zz " WKB 4326 None None
     = ([Warning "WKB parsing error: " (Some BinasciiError)], Return None)
  /\ parse (P := Demo.platform) " 0101zz " EWKB 4326 None None
     = ([Warning "EWKB parsing error: " (Some BinasciiError)], Return None).
Proof.
  split; [reflexivity|].
  exact (malformed_hex_is_logged (P := Demo.platform) " 0101zz " 4326 None None
           eq_refl).
Defined.

Lemma geojson_feature_unwrapped_witness :
  json_loads (Platform := Demo.platform) Samples.feature_json
  = Return (PDict Samples.feature_object)
  /\ Py.assoc "type" Samples.feature_object = Some (PStr "Feature")
  /\ Py.assoc "geometry" Samples.feature_object
     = Some (PDict Samples.point_object)
  /\ Derived.is_feature (PDict Samples.point_object) = false
  /\ json_loads (Platform := Demo.platform) Samples.point_json
     = Return (PDict Samples.point_object)
  /\ _parse_geojson (P := Demo.platform) Samples.feature_json
     = _parse_geojson (P := Demo.platform) Samples.point_json.
Proof.
  repeat (split; [reflexivity|]).
  exact (geojson_feature_unwrapped (P := Demo.platform) Samples.feature_json
           Samples.point_json Samples.feature_object (PDict Samples.point_object)
           eq_refl eq_refl eq_refl eq_refl eq_refl).
Defined.

Lemma resolved_topojson_is_geojson_witness :
  json_loads (Platform := Demo.platform) (PyStr.strip Samples.point_json)
  = Return (PDict Samples.point_object)
  /\ Derived.has_key "type" Samples.point_object = true
  /\ Derived.has_key "coordinates" Samples.point_object = true
  /\ snd (parse (P := Demo.platform) Samples.point_json TOPOJSON 4326 None None)
     = snd (parse (P := Demo.platform) Samples.point_json GEOJSON 4326 None None).
Proof.
  repeat (split; [reflexivity|]).
  exact (resolved_topojson_is_geojson (P := Demo.platform) Samples.point_json
           Samples.point_object 4326 None None eq_refl eq_refl eq_refl).
Defined.

Lemma topojson_first_object_only_witness :
  json_loads (Platform := Demo.platform) (Demo.topology "Polygon" "[[0]]")
  = Return (PDict (Samples.loaded (Demo.topology "Polygon" "[[0]]")))
  /\ json_loads (Platform := Demo.platform) Samples.two_objects
     = Return (PDict (Samples.loaded Samples.two_objects))
  /\ Derived.has_key "type" (Samples.loaded (Demo.topology "Polygon" "[[0]]"))
     && Derived.has_key "coordinates"
          (Samples.loaded (Demo.topology "Polygon" "[[0]]")) = false
  /\ Derived.has_key "type" (Samples.loaded Samples.two_objects)
     && Derived.has_key "coordinates" (Samples.loaded Samples.two_objects)
     = false
  /\ Py.assoc "arcs" (Samples.loaded (Demo.topology "Polygon" "[[0]]"))
     = Py.assoc "arcs" (Samples.loaded Samples.two_objects)
  /\ Py.assoc "objects" (Samples.loaded (Demo.topology "Polygon" "[[0]]"))
     = Some (PDict [("a", Samples.ring_object)])
  /\ Py.assoc "objects" (Samples.loaded Samples.two_objects)
     = Some (PDict [("b", Samples.ring_object);
                    ("c", PDict Samples.point_object)])
  /\ _parse_topojson (P := Demo.platform) (Demo.topology "Polygon" "[[0]]")
     = _parse_topojson (P := Demo.platform) Samples.two_objects.
Proof.
  repeat (split; [reflexivity|]).
  exact (topojson_first_object_only (P := Demo.platform)
           (Demo.topology "Polygon" "[[0]]") Samples.two_objects
           (Samples.loaded (Demo.topology "Polygon" "[[0]]"))
           (Samples.loaded Samples.two_objects) "a" "b" Samples.ring_object
           [] [("c", PDict Samples.point_object)]
           eq_refl eq_refl eq_refl eq_refl eq_refl eq_refl eq_refl).
Defined.

Lemma topo_linestring_uses_first_reference_witness :
  Py.get Samples.line_object "arcs" (PList [])
  = Return (PList [PInt 0; PInt 1])
  /\ resolve_refs (Spec.embed_table Spec.two_arcs) [PInt 0] []
     = Return [(NInt 0, NInt 0); (NInt 1, NInt 0); (NInt 1, NInt 1)]
  /\ [(NInt 0, NInt 0); (NInt 1, NInt 0); (NInt 1, NInt 1)] <> []
  /\ resolve_groups (Spec.embed_table Spec.two_arcs) [PInt 1]
     = Return [[(NInt 1, NInt 1); (NInt 2, NInt 1)]]
  /\ topo_arcs_geometry "linestring" Samples.line_object
       (Spec.embed_table Spec.two_arcs)
     = Return (Some (fromPolylineXY
                       [mkPointXY 0 0; mkPointXY 1 0; mkPointXY 1 1])).
Proof.
  assert (N : [(NInt 0, NInt 0); (NInt 1, NInt 0); (NInt 1, NInt 1)] <> [])
    by discriminate.
  split; [reflexivity | split; [reflexivity | split; [exact N | split;
    [reflexivity|]]]].
  exact (eq_trans
           (topo_linestring_uses_first_reference Samples.line_object
              (Spec.embed_table Spec.two_arcs) 0 [PInt 1]
              [(NInt 0, NInt 0); (NInt 1, NInt 0); (NInt 1, NInt 1)]
              [[(NInt 1, NInt 1); (NInt 2, NInt 1)]]
              eq_refl eq_refl N eq_refl)
           eq_refl).
Defined.

Lemma kml_altitude_ignored_witness :
  PyStr.all_chars (fun c => negb (Ascii.eqb c ",")) "8.5" = true
  /\ PyStr.all_chars (fun c => negb (Ascii.eqb c ",")) "47.3" = true
  /\ kml_points (P := Demo.platform) ["8.5,47.3,400"]
     = kml_points (P := Demo.platform) ["8.5,47.3"].
Proof.
  split; [reflexivity | split; [reflexivity|]].
  exact (kml_altitude_ignored (P := Demo.platform) "8.5" "47.3" "400" []
           eq_refl eq_refl).
Defined.

Lemma ee_polygon_flat_ring_witness :
  Py.is_list (PInt 0) = false
  /\ ee_build "polygon"
       (PList [PList [PList [PInt 0; PInt 0]; PList [PInt 1; PInt 0];
                      PList [PInt 1; PInt 1]]])
     = ee_build "polygon"
         (PList [PList [PInt 0; PInt 0]; PList [PInt 1; PInt 0];
                 PList [PInt 1; PInt 1]]).
Proof.
  split; [reflexivity|].
  exact (ee_polygon_flat_ring (PInt 0) [PInt 0]
           [PList [PInt 1; PInt 0]; PList [PInt 1; PInt 1]] eq_refl).
Defined.

Lemma layer_type_is_sample_type_witness :
  GEOJSON <> XY /\ (0 <= 1)%Z
  /\ layer_geometry_type (P := Demo.platform) Samples.kind GEOJSON 1
       (tl Samples.csv_rows)
     = get_geometry_type_from_sample (P := Demo.platform) Samples.kind
         (map (fun row => cell_or_empty row 1) (tl Samples.csv_rows)) GEOJSON.
Proof.
  assert (H : GEOJSON <> XY) by discriminate.
  assert (H0 : (0 <= 1)%Z) by discriminate.
  split; [exact H | split; [exact H0|]].
  exact (layer_type_is_sample_type (P := Demo.platform) Samples.kind GEOJSON 1
           (tl Samples.csv_rows) H H0).
Defined.

Lemma import_accounts_for_every_row_witness :
  import_csv (P := Demo.platform) Samples.kind GEOJSON true true
    "" "" "geometry" Samples.csv_rows
  = (Samples.import_log,
     Return (Imported ["id"; "geometry"] 1 [Samples.point_feature] 2))
  /\ (0 <= 2)%Z
  /\ (Z.of_nat (List.length [Samples.point_feature]) + 2 + 1
      = Z.of_nat (List.length Samples.csv_rows))%Z.
Proof.
  assert (H : import_csv (P := Demo.platform) Samples.kind GEOJSON true true
                "" "" "geometry" Samples.csv_rows
              = (Samples.import_log,
                 Return (Imported ["id"; "geometry"] 1 [Samples.point_feature] 2)))
    by reflexivity.
  split; [exact H|].
  exact (import_accounts_for_every_row (P := Demo.platform) Samples.kind _ _ _
           _ _ _ _ _ _ _ _ _ H).
Defined.

Lemma import_attributes_match_fields_witness :
  import_csv (P := Demo.platform) Samples.kind GEOJSON true false
    "" "" "geometry" Samples.csv_rows
  = (Samples.import_log,
     Return (Imported ["id"; "geometry"] 1 Samples.all_features 2))
  /\ Forall (fun feat => List.length (attributes feat)
                         = List.length ["id"; "geometry"])
            Samples.all_features.
Proof.
  assert (H : import_csv (P := Demo.platform) Samples.kind GEOJSON true false
                "" "" "geometry" Samples.csv_rows
              = (Samples.import_log,
                 Return (Imported ["id"; "geometry"] 1 Samples.all_features 2)))
    by reflexivity.
  split; [exact H|].
  exact (import_attributes_match_fields (P := Demo.platform) Samples.kind _ _ _
           _ _ _ _ _ _ _ _ _ H).
Defined.

Lemma import_geometries_witness :
  import_csv (P := Demo.platform) Samples.kind GEOJSON true false
    "" "" "geometry" Samples.csv_rows
  = (Samples.import_log,
     Return (Imported ["id"; "geometry"] 1 Samples.all_features 2))
  /\ Forall (fun feat => match geometry feat with
                         | Some g => isNull (Platform := Demo.platform) g = false
                         | None => false = false
                         end) Samples.all_features
  /\ Z.of_nat (List.length
                 (filter (fun feat => match geometry feat with
                                      | None => true
                                      | Some _ => false
                                      end) Samples.all_features))
     = 2%Z.
Proof.
  assert (H : import_csv (P := Demo.platform) Samples.kind GEOJSON true false
                "" "" "geometry" Samples.csv_rows
              = (Samples.import_log,
                 Return (Imported ["id"; "geometry"] 1 Samples.all_features 2)))
    by reflexivity.
  split; [exact H|].
  exact (import_geometries (P := Demo.platform) Samples.kind _ _ _
           _ _ _ _ _ _ _ _ _ H).
Defined.

Lemma geometry_column_removed_once_witness :
  GEOJSON <> XY /\ GEOJSON <> UNKNOWN /\ ~ In "geometry" ["id"]
  /\ exists log geom_type features invalid_count,
       import_csv (P := Demo.platform) Samples.kind GEOJSON true false
         "" "" "geometry"
         ((["id"] ++ "geometry" :: ["geometry"])%list :: tl Samples.csv_rows)
       = (log, Return (Imported (["id"] ++ ["geometry"])%list geom_type
                         features invalid_count)).
Proof.
  assert (H1 : GEOJSON <> XY) by discriminate.
  assert (H2 : GEOJSON <> UNKNOWN) by discriminate.
  assert (H3 : ~ In "geometry" ["id"]).
  { intros [H | []]. discriminate H. }
  split; [exact H1 | split; [exact H2 | split; [exact H3|]]].
  exact (geometry_column_removed_once (P := Demo.platform) Samples.kind GEOJSON
           false "" "" "geometry" ["id"] ["geometry"] (tl Samples.csv_rows)
           H1 H2 H3).
Defined.

Lemma column_format_detection_witness :
  "geometry" <> ""
  /\ has_column "geometry" ["id"; "geometry"; "geometry"] = true
  /\ detect_geometry_format (P := Demo.platform) "geometry"
       ["id"; "geometry"; "geometry"] (tl Samples.csv_rows)
     = Return (Some GEOJSON)
  /\ GEOJSON <> UNKNOWN
  /\ exists row, In row (tl Samples.csv_rows)
       /\ detect_format (P := Demo.platform)
            (cell_or_empty row
               (index_from 0 "geometry" ["id"; "geometry"; "geometry"]))
          = Return GEOJSON.
Proof.
  assert (H1 : "geometry" <> "") by discriminate.
  assert (H2 : GEOJSON <> UNKNOWN) by discriminate.
  split; [exact H1 | split; [reflexivity | split; [reflexivity | split;
    [exact H2|]]]].
  exact (proj1 (proj2 (column_format_detection (P := Demo.platform) "geometry"
                         ["id"; "geometry"; "geometry"] (tl Samples.csv_rows)
                         H1 eq_refl))
           GEOJSON eq_refl H2).
Defined.

Lemma flat_json_under_earth_engine_witness :
  PyStr.strip Samples.point_json = String "{" (Samples.point_body ++ "}")
  /\ Samples.point_body <> ""
  /\ PyStr.all_chars (fun c => negb (Ascii.eqb c "}")) Samples.point_body = true
  /\ PyStr.contains "coordinates" Samples.point_body = true
  /\ snd (parse (P := Demo.platform) Samples.point_json EARTH_ENGINE 4326
            None None)
     = snd (parse (P := Demo.platform) Samples.point_json GEOJSON 4326
              None None).
Proof.
  assert (H2 : Samples.point_body <> "") by discriminate.
  split; [reflexivity | split; [exact H2 | split; [reflexivity | split;
    [reflexivity|]]]].
  exact (flat_json_under_earth_engine (P := Demo.platform) Samples.point_json
           Samples.point_body 4326 None None eq_refl H2 eq_refl eq_refl).
Defined.

(** An integer of 4301 digits: [json.loads] raises the [ValueError] of
    [int], which [detect_format] does not catch and which the detection
    of the dialog lets through; with 4300 digits the object is read, and
    has none of the keys that make it a geometry. *)
Example detect_format_long_integer :
  detect_format (P := Demo.platform) Samples.long_int_json = Raise ValueError
  /\ detect_geometry_format (P := Demo.platform) "geometry" ["geometry"]
       [[Samples.long_int_json]]
     = Raise ValueError
  /\ detect_format (P := Demo.platform)
       ("{" ++ Demo.quoted "a" ++ ":" ++ Samples.ones 4300 ++ "}")
     = Return UNKNOWN.
Proof. repeat split; vm_compute; reflexivity. Qed.

(** An SRID of 4301 digits: [int] raises, and the catch-all of [parse]
    logs its warning; with 4300 digits the text after the SRID is read. *)
Example parse_ewkt_long_srid :
  Demo.run Samples.long_srid_ewkt EWKT
  = ([Warning "Error parsing geometry: " (Some ValueError)], Return None)
  /\ Demo.run ("SRID=" ++ Samples.ones 4300 ++ ";POINT(1 2)") EWKT
     = ([], Return (Some (fromWkt "POINT(1 2)"))).
Proof. split; vm_compute; reflexivity. Qed.

End MoreRuns.
